(** * knowledge-graph-creation: the CSV-to-RDF batch pipeline

    A shallow embedding of [pipelineUtils.py] and [pipeline.py].

    Python strings are modelled as [string], one [ascii] per code point;
    the development covers code points below 256.  In that range the
    regular-expression classes of Python's [re] are: [\d] = the ten
    digits, [\s] = tab, newline, vertical tab, form feed, carriage
    return, the four separators 28..31, space, NEL (133) and NBSP (160),
    and [.] = everything but newline. *)

From Stdlib Require Import Ascii String ZArith List Lia Bool.
From stdpp Require Import base tactics option list numbers strings pretty gmap.

Local Open Scope stdpp_scope.

(** ** Strings *)

Module Str.

Fixpoint all (p : ascii → bool) (s : string) : bool :=
  match s with
  | "" => true
  | String c r => p c && all p r
  end.

Fixpoint filter (p : ascii → bool) (s : string) : string :=
  match s with
  | "" => ""
  | String c r => if p c then String c (filter p r) else filter p r
  end.

Fixpoint drop (n : nat) (s : string) : string :=
  match n, s with
  | S k, String _ r => drop k r
  | _, _ => s
  end.

Fixpoint take (n : nat) (s : string) : string :=
  match n, s with
  | S k, String c r => String c (take k r)
  | _, _ => ""
  end.

Fixpoint take_while (p : ascii → bool) (s : string) : string :=
  match s with
  | String c r => if p c then String c (take_while p r) else ""
  | "" => ""
  end.

Fixpoint drop_while (p : ascii → bool) (s : string) : string :=
  match s with
  | String c r => if p c then drop_while p r else s
  | "" => ""
  end.

(** [s.startswith(p)] *)
Definition startswith (p s : string) : bool := String.prefix p s.

(** [p in s] for strings: some position of [s] starts with [p]. *)
Fixpoint contains (p s : string) : bool :=
  match s with
  | "" => startswith p ""
  | String _ r => startswith p s || contains p r
  end.

Fixpoint endswith_char (c : ascii) (s : string) : bool :=
  match s with
  | "" => false
  | String a "" => bool_decide (a = c)
  | String _ r => endswith_char c r
  end.

(** [str.replace(old, new)] for a non-empty [old]: the occurrences are
  replaced from left to right, without overlap.  [skip] counts the
  characters of the occurrence being replaced that are still to be
  passed over. *)
Fixpoint replace_go (old new : string) (skip : nat) (s : string) : string :=
  match s with
  | "" => ""
  | String c r =>
      match skip with
      | S k => replace_go old new k r
      | O =>
          if startswith old s
          then new +:+ replace_go old new (String.length old - 1) r
          else String c (replace_go old new 0 r)
      end
  end.

Definition replace (old new s : string) : string := replace_go old new 0 s.

(** [s.rjust(width, "0")], as the [%0Nd] conversions produce for a
  number that is not negative. *)
Definition zfill (width : nat) (s : string) : string :=
  String.concat "" (replicate (width - String.length s) "0") +:+ s.

(** [s.ljust(width, "0")] *)
Definition zpad_right (width : nat) (s : string) : string :=
  s +:+ String.concat "" (replicate (width - String.length s) "0").

End Str.

(** ** Exceptions and results *)

Inductive exn :=
  | ValueError (msg : string)
  | TypeError (msg : string)
  | KeyError (key : string)
  | ZeroDivisionError
  | UnboundLocalError (name : string)
  | FileNotFoundError (path : string)
  | FileExistsError (path : string)
  | IsADirectoryError (path : string)
  | NotADirectoryError (path : string)
  | JSONDecodeError (msg : string)
  | ParserError (msg : string)
  | ConnectionError (msg : string)
  | CalledProcessError (returncode : Z) (stderr : string).

Inductive res (A : Type) :=
  | Ok (a : A)
  | Raise (e : exn).
Arguments Ok {A} a.
Arguments Raise {A} e.

Definition res_bind {A B} (m : res A) (k : A → res B) : res B :=
  match m with
  | Ok a => k a
  | Raise e => Raise e
  end.

Definition is_ValueError {A} (r : res A) : Prop :=
  match r with
  | Raise (ValueError _) => True
  | _ => False
  end.

(** ** Python's [re], as far as the pipeline uses it

    A backtracking matcher: [rmatch r bol s] lists the ways [r] matches a
    prefix of [s], in the order in which the engine tries them, so that
    its head is the match [re.match] reports.  [bol] tells whether [s]
    starts at position 0 of the subject, which is where [^] matches. *)

Module Re.

Inductive regex :=
  | Chr (c : ascii)
  | Cls (p : ascii → bool)
  | Rep (p : ascii → bool) (lo : nat) (hi : option nat)
  | Seq (a b : regex)
  | Alt (a b : regex)
  | Grp (name : string) (a : regex)
  | Bol.

Definition range (a b c : ascii) : bool :=
  (N_of_ascii a <=? N_of_ascii c)%N && (N_of_ascii c <=? N_of_ascii b)%N.

Definition is_digit : ascii → bool := range "0" "9".

Definition not_digit (c : ascii) : bool := negb (is_digit c).

Definition is_space (c : ascii) : bool :=
  range "009" "013" c || range "028" "032" c
  || bool_decide (c = "133"%char) || bool_decide (c = "160"%char).

Definition newline : ascii := "010".

(** [.] without [re.DOTALL] *)
Definition dot (c : ascii) : bool := negb (bool_decide (c = newline)).

Record found := Found {
  groups : list (string * string);
  matched : string;
  rest : string
  }.

(** The prefixes of [s] made of characters of the class, longest first. *)
Fixpoint runs (p : ascii → bool) (s : string) : list (string * string) :=
  match s with
  | String c r =>
      if p c
      then map (λ x, (String c x.1, x.2)) (runs p r) ++ [("", s)]
      else [("", s)]
  | "" => [("", "")]
  end.

Definition within (lo : nat) (hi : option nat) (n : nat) : bool :=
  Nat.leb lo n && match hi with Some h => Nat.leb n h | None => true end.

Fixpoint rmatch (r : regex) (bol : bool) (s : string) : list found :=
  match r with
  | Chr c =>
      match s with
      | String a t => if bool_decide (a = c) then [Found [] (String a "") t] else []
      | "" => []
      end
  | Cls p =>
      match s with
      | String a t => if p a then [Found [] (String a "") t] else []
      | "" => []
      end
  | Rep p lo hi =>
      map (λ x, Found [] x.1 x.2)
          (List.filter (λ x, within lo hi (String.length x.1)) (runs p s))
  | Seq a b =>
      flat_map (λ x,
        map (λ y, Found (groups x ++ groups y) (matched x +:+ matched y) (rest y))
            (rmatch b (bol && bool_decide (matched x = "")) (rest x)))
        (rmatch a bol s)
  | Alt a b => rmatch a bol s ++ rmatch b bol s
  | Grp name a =>
      map (λ x, Found ((name, matched x) :: groups x) (matched x) (rest x))
          (rmatch a bol s)
  | Bol => if bol then [Found [] "" s] else []
  end.

(** [re.match(r, s)] *)
Definition match_ (r : regex) (s : string) : option found :=
  head (rmatch r true s).

(** [found.group(name)] *)
Fixpoint group (name : string) (gs : list (string * string)) : option string :=
  match gs with
  | [] => None
  | (n, v) :: gs' => if bool_decide (n = name) then Some v else group name gs'
  end.

(** [re.sub(r, repl, s)] for a replacement without group references:
  the subject is scanned from the left; where [r] matches, the match
  is replaced and the scan resumes behind it, elsewhere the
  character is kept.  [skip] counts the characters of the current
  match still to be passed over. *)
Fixpoint sub_go (r : regex) (repl : string) (skip : nat) (bol : bool)
    (s : string) : string :=
  match skip with
  | S k =>
      match s with
      | String _ t => sub_go r repl k false t
      | "" => ""
      end
  | O =>
      match rmatch r bol s with
      | x :: _ =>
          match s with
          | String c t =>
              match String.length (matched x) with
              | O => repl +:+ String c (sub_go r repl 0 false t)
              | S n => repl +:+ sub_go r repl n false t
              end
          | "" => repl
          end
      | [] =>
          match s with
          | String c t => String c (sub_go r repl 0 false t)
          | "" => ""
          end
      end
  end.

Definition sub (r : regex) (repl s : string) : string := sub_go r repl 0 true s.

(** The literal pattern: every character stands for itself. *)
Fixpoint lit (s : string) : regex :=
  match s with
  | "" => Rep (λ _, false) 0 (Some 0)
  | String c "" => Chr c
  | String c r => Seq (Chr c) (lit r)
  end.

(** The words a pattern can match. *)
Inductive lang : regex → string → Prop :=
  | lang_chr c : lang (Chr c) (String c "")
  | lang_cls p c : p c = true → lang (Cls p) (String c "")
  | lang_rep p lo hi w :
    Str.all p w = true → within lo hi (String.length w) = true →
    lang (Rep p lo hi) w
  | lang_seq a b u v : lang a u → lang b v → lang (Seq a b) (u +:+ v)
  | lang_alt_l a b w : lang a w → lang (Alt a b) w
  | lang_alt_r a b w : lang b w → lang (Alt a b) w
  | lang_grp name a w : lang a w → lang (Grp name a) w
  | lang_bol : lang Bol "".

(** [^P.*]-like patterns: a literal at the start of the subject, then
  the longest run of a class. *)
Definition anchored (P : string) (p : ascii → bool) : regex :=
  Seq Bol (Seq (lit P) (Rep p 0 None)).

End Re.

(** ** [datetime.strptime] and [datetime.isoformat]

    The library code behind [convert_to_iso8601].  [strptime] turns the
    format into a regular expression, directive by directive (the table
    of [_strptime.TimeRE]), with each run of white space in the format
    standing for [\s+]; it matches the data against it, refuses data
    left over behind the match, reads the groups as numbers and builds
    the [datetime], whose constructor checks the ranges.  The messages
    of the exceptions are shortened: they do not quote the data. *)

Module Datetime.
Import Re.

Record datetime := mk_datetime {
  year : N; month : N; day : N;
  hour : N; minute : N; second : N;
  microsecond : N
  }.

Definition digit : regex := Cls is_digit.
Definition cls (a b : ascii) : regex := Cls (range a b).

(** [%Y]: [\d\d\d\d] *)
Definition re_Y : regex := Grp "Y" (Seq digit (Seq digit (Seq digit digit))).
(** [%m]: [1[0-2]|0[1-9]|[1-9]] *)
Definition re_m : regex :=
  Grp "m" (Alt (Seq (Chr "1") (cls "0" "2"))
          (Alt (Seq (Chr "0") (cls "1" "9")) (cls "1" "9"))).
(** [%d]: [3[0-1]|[1-2]\d|0[1-9]|[1-9]| [1-9]] *)
Definition re_d : regex :=
  Grp "d" (Alt (Seq (Chr "3") (cls "0" "1"))
          (Alt (Seq (cls "1" "2") digit)
          (Alt (Seq (Chr "0") (cls "1" "9"))
          (Alt (cls "1" "9") (Seq (Chr " ") (cls "1" "9")))))).
(** [%H]: [2[0-3]|[0-1]\d|\d] *)
Definition re_H : regex :=
  Grp "H" (Alt (Seq (Chr "2") (cls "0" "3"))
          (Alt (Seq (cls "0" "1") digit) digit)).
(** [%M]: [[0-5]\d|\d] *)
Definition re_M : regex := Grp "M" (Alt (Seq (cls "0" "5") digit) digit).
(** [%S]: [6[0-1]|[0-5]\d|\d] *)
Definition re_S : regex :=
  Grp "S" (Alt (Seq (Chr "6") (cls "0" "1"))
          (Alt (Seq (cls "0" "5") digit) digit)).
(** [%f]: [[0-9]{1,6}] *)
Definition re_f : regex := Grp "f" (Rep is_digit 1 (Some 6)).
(** white space in the format: [\s+] *)
Definition re_ws : regex := Rep is_space 1 None.

(** The pattern of the format ["%Y-%m-%d %H:%M:%S.%f"]. *)
Definition format_regex : regex :=
  Seq re_Y (Seq (Chr "-") (Seq re_m (Seq (Chr "-") (Seq re_d (Seq re_ws
  (Seq re_H (Seq (Chr ":") (Seq re_M (Seq (Chr ":") (Seq re_S (Seq (Chr ".")
  re_f))))))))))).

Fixpoint lstrip (s : string) : string :=
  match s with
  | String c r => if is_space c then lstrip r else s
  | "" => ""
  end.

Definition digit_value (c : ascii) : N := (N_of_ascii c - 48)%N.

Fixpoint digits_value (acc : N) (s : string) : N :=
  match s with
  | String c r => digits_value (10 * acc + digit_value c)%N r
  | "" => acc
  end.

(** [int(s)] on the texts the groups can hold: white space, then one
  or more digits. *)
Definition int (s : string) : res N :=
  let t := lstrip s in
  match t with
  | "" => Raise (ValueError "invalid literal for int()")
  | _ =>
      if Str.all is_digit t then Ok (digits_value 0 t)
      else Raise (ValueError "invalid literal for int()")
  end.

Definition is_leap (y : N) : bool :=
  ((y mod 4 =? 0) && (negb (y mod 100 =? 0) || (y mod 400 =? 0)))%N.

Definition days_in_month (y m : N) : N :=
  match m with
  | 2 => if is_leap y then 29 else 28
  | 4 | 6 | 9 | 11 => 30
  | _ => 31
  end%N.

(** The checks of the [date] constructor. *)
Definition check_date (y m d : N) : res unit :=
  if negb ((1 <=? y) && (y <=? 9999))%N
    then Raise (ValueError "year is out of range")
  else if negb ((1 <=? m) && (m <=? 12))%N
    then Raise (ValueError "month must be in 1..12")
  else if negb ((1 <=? d) && (d <=? days_in_month y m))%N
    then Raise (ValueError "day is out of range for month")
  else Ok ().

(** The checks of the time fields in the [datetime] constructor. *)
Definition check_time (h mi s us : N) : res unit :=
  if negb (h <=? 23)%N then Raise (ValueError "hour must be in 0..23")
  else if negb (mi <=? 59)%N then Raise (ValueError "minute must be in 0..59")
  else if negb (s <=? 59)%N then Raise (ValueError "second must be in 0..59")
  else if negb (us <=? 999999)%N
    then Raise (ValueError "microsecond must be in 0..999999")
  else Ok ().

Definition group_int (name : string) (gs : list (string * string)) : res N :=
  match group name gs with
  | Some v => int v
  | None => Raise (KeyError name)
  end.

(** [datetime.strptime(data_string, "%Y-%m-%d %H:%M:%S.%f")] *)
Definition strptime (data_string : string) : res datetime :=
  match match_ format_regex data_string with
  | None => Raise (ValueError "time data does not match format")
  | Some fnd =>
      if negb (bool_decide (rest fnd = ""))
      then Raise (ValueError "unconverted data remains")
      else
        let gs := groups fnd in
        res_bind (group_int "Y" gs) (λ y,
        res_bind (group_int "m" gs) (λ m,
        res_bind (group_int "d" gs) (λ d,
        res_bind (group_int "H" gs) (λ h,
        res_bind (group_int "M" gs) (λ mi,
        res_bind (group_int "S" gs) (λ s,
        match group "f" gs with
        | None => Raise (KeyError "f")
        | Some f =>
            res_bind (int (Str.zpad_right 6 f)) (λ us,
            res_bind (check_date y m d) (λ _,
            res_bind (check_time h mi s us) (λ _,
            Ok (mk_datetime y m d h mi s us))))
        end))))))
  end.

Definition fmt (width : nat) (n : N) : string := Str.zfill width (pretty n).

(** [date_obj.isoformat()], for a [datetime] without time zone: the
  fraction is written only when it is not zero. *)
Definition isoformat (t : datetime) : string :=
  fmt 4 (year t) +:+ "-" +:+ fmt 2 (month t) +:+ "-" +:+ fmt 2 (day t) +:+ "T"
  +:+ fmt 2 (hour t) +:+ ":" +:+ fmt 2 (minute t) +:+ ":" +:+ fmt 2 (second t)
  +:+ (if (microsecond t =? 0)%N then "" else "." +:+ fmt 6 (microsecond t)).

End Datetime.

(** ** Cells of a data frame

    What [pd.read_csv] puts in a cell: a text, a number, or the missing
    value.  Numbers are kept as integers. *)

Inductive cell :=
  | CStr (s : string)
  | CNum (z : Z)
  | CNaN.

Global Instance cell_eq_dec : EqDecision cell.
Proof. solve_decision. Defined.

(** [convert_to_iso8601(date_str)] *)
Definition convert_to_iso8601 (date_str : cell) : res string :=
  match date_str with
  | CStr s => res_bind (Datetime.strptime s) (λ date_obj, Ok (Datetime.isoformat date_obj))
  | _ => Raise (TypeError "strptime() argument 1 must be str")
  end.

(** The pattern [\d+]. *)
Definition digits_pattern : Re.regex := Re.Rep Re.is_digit 1 None.

(** [remove_numbers(text)]: [re.sub(r"\d+", "", text)].  [re.sub] wants
    a string. *)
Definition remove_numbers (text : cell) : res cell :=
  match text with
  | CStr s => Ok (CStr (Re.sub digits_pattern "" s))
  | _ => Raise (TypeError "expected string or bytes-like object")
  end.

(** ** Data frames

    The header and the rows, each row as long as the header. *)

Record frame := Frame {
    columns : list string;
    rows : list (list cell)
  }.

Module Pd.

Fixpoint index_of (name : string) (cols : list string) : option nat :=
  match cols with
  | [] => None
  | c :: cs => if bool_decide (c = name) then Some 0 else S <$> index_of name cs
  end.

(** [data[name]] *)
Definition getitem (data : frame) (name : string) : res (list cell) :=
  match index_of name (columns data) with
  | Some i => Ok (map (λ r, nth i r CNaN) (rows data))
  | None => Raise (KeyError name)
  end.

(** [data[name] = values], for a series on the index of [data]: an
  existing column is overwritten in place, a new one is added on
  the right. *)
Definition setitem (data : frame) (name : string) (values : list cell) : frame :=
  match index_of name (columns data) with
  | Some i =>
      Frame (columns data) (zip_with (λ r v, <[i := v]> r) (rows data) values)
  | None =>
      Frame (columns data ++ [name])
            (zip_with (λ r v, r ++ [v]) (rows data) values)
  end.

(** [series.apply(f)]: the cells in order; the first exception ends it. *)
Fixpoint apply (f : cell → res cell) (series : list cell) : res (list cell) :=
  match series with
  | [] => Ok []
  | v :: vs =>
      res_bind (f v) (λ v', res_bind (apply f vs) (λ vs', Ok (v' :: vs')))
  end.

(** [series.replace(old, new)]: the cells equal to [old]. *)
Definition replace (old new : string) (series : list cell) : list cell :=
  map (λ v, if bool_decide (v = CStr old) then CStr new else v) series.

(** The replacer of [series.replace] for a pattern: [re.sub] in a cell
    that holds text. *)
Definition re_replacer (pat : Re.regex) (repl : string) (v : cell) : cell :=
  match v with
  | CStr s => CStr (Re.sub pat repl s)
  | _ => v
  end.

(** [series.replace(pat, repl, regex=True)] *)
Definition replace_regex (pat : Re.regex) (repl : string) (series : list cell)
    : list cell :=
  map (re_replacer pat repl) series.

(** [series.str.replace(pat, repl, regex=True)]: [re.sub] in the cells
  that hold text, the missing value elsewhere. *)
Definition str_replace (pat : Re.regex) (repl : string) (series : list cell)
    : list cell :=
  map (λ v, match v with CStr s => CStr (Re.sub pat repl s) | _ => CNaN end) series.

(** A bound of a slice on a sequence of [len] elements. *)
Definition slice_bound (len i : Z) : Z :=
  if (i <? 0)%Z then Z.max 0 (len + i) else Z.min i len.

(** [data.iloc[start:stop]]; [stop = None] is [data.iloc[start:]]. *)
Definition iloc (data : frame) (start : Z) (stop : option Z) : frame :=
  let len := Z.of_nat (length (rows data)) in
  let a := slice_bound len start in
  let b := match stop with Some e => slice_bound len e | None => len end in
  Frame (columns data) (take (Z.to_nat (b - a)) (drop (Z.to_nat a) (rows data))).

(** [len(data)] *)
Definition len (data : frame) : Z := Z.of_nat (length (rows data)).

End Pd.

(** The texts and patterns of [clean_data].  The prefix is
    [Qualità della misura: ], whose seventh character has code 224; as
    a pattern it is a literal.  The other pattern is [^Current.*]. *)
Definition quality_prefix : string :=
  "Qualit" +:+ String "224"%char " della misura: ".

Definition quality_pattern : Re.regex := Re.lit quality_prefix.

Definition current_pattern : Re.regex :=
  Re.Seq Re.Bol (Re.Seq (Re.lit "Current") (Re.Rep Re.dot 0 None)).

(** [data["unit"].replace("-", "Dimensionless")] *)
Definition clean_unit (series : list cell) : list cell :=
  Pd.replace "-" "Dimensionless" series.

(** [data["quality"].replace("Qualità della misura: ", "", regex=True)] *)
Definition clean_quality (series : list cell) : list cell :=
  Pd.replace_regex quality_pattern "" series.

(** A cell without the prefix of the quality column in it. *)
Definition prefix_free (v : cell) : bool :=
  match v with
  | CStr s => negb (Str.contains quality_prefix s)
  | _ => true
  end.

(** [convert_to_iso8601] as [apply] uses it: the result goes into the
    cell. *)
Definition iso_cell (v : cell) : res cell :=
  res_bind (convert_to_iso8601 v) (λ s, Ok (CStr s)).

(** [clean_data], between [pd.read_csv] and [data.to_csv]. *)
Definition clean_frame (data : frame) : res frame :=
  res_bind (Pd.getitem data "data_rilevazione") (λ col,
  res_bind (Pd.apply iso_cell col) (λ col,
  let data := Pd.setitem data "data_rilevazione" col in
  res_bind (Pd.getitem data "unit") (λ col,
  let data := Pd.setitem data "unit" (clean_unit col) in
  res_bind (Pd.getitem data "quality") (λ col,
  let data := Pd.setitem data "quality" (clean_quality col) in
  res_bind (Pd.getitem data "register_name") (λ col,
  res_bind (Pd.apply remove_numbers col) (λ col,
  let data := Pd.setitem data "property" col in
  res_bind (Pd.getitem data "property") (λ col,
  let data := Pd.setitem data "property" (Pd.str_replace current_pattern "Current" col) in
  res_bind (Pd.getitem data "property") (λ _,
  Ok data)))))))).

(** ** Files

    The file system maps a path to a file with its text or to a
    directory with the names [os.listdir] returns, in its order.  A
    directory is stored under its path without trailing separators; the
    working directory and the ancestors of a directory are not listed,
    and a path that leads through a file is read as a path that is not
    there. *)

Inductive node :=
  | File (text : string)
  | Dir (entries : list string).

Module Path.

Definition sep : ascii := "/".

Fixpoint has_sep (s : string) : bool :=
  match s with
  | "" => false
  | String c r => bool_decide (c = sep) || has_sep r
  end.

(** [p[:i], p[i:]] for [i = p.rfind("/") + 1] *)
Fixpoint cut (p : string) : string * string :=
  match p with
  | "" => ("", "")
  | String c r =>
      if has_sep r then (String c (cut r).1, (cut r).2)
      else if bool_decide (c = sep) then (String c "", r)
      else ("", p)
  end.

(** [s.rstrip("/")] *)
Fixpoint rstrip_sep (s : string) : string :=
  match s with
  | "" => ""
  | String c r =>
      let r' := rstrip_sep r in
      if bool_decide (c = sep) && bool_decide (r' = "") then "" else String c r'
  end.

Definition all_sep (s : string) : bool := Str.all (λ c, bool_decide (c = sep)) s.

(** The head of [posixpath.split]: separators at its end are dropped
  unless it is made of separators only. *)
Definition norm (head : string) : string :=
  if negb (bool_decide (head = "")) && negb (all_sep head)
  then rstrip_sep head else head.

(** [os.path.split(p)] *)
Definition split (p : string) : string * string :=
  (norm (cut p).1, (cut p).2).

(** [os.path.join(a, b)] *)
Definition join (a b : string) : string :=
  if Str.startswith "/" b then b
  else if bool_decide (a = "") || Str.endswith_char sep a then a +:+ b
  else a +:+ "/" +:+ b.

End Path.

Module Fs.

Abbreviation t := (gmap string node).

Definition isdir (fs : t) (p : string) : bool :=
  match fs !! Path.norm p with
  | Some (Dir _) => true
  | _ => false
  end.

Definition isfile (fs : t) (p : string) : bool :=
  match fs !! p with
  | Some (File _) => true
  | _ => false
  end.

Definition exists_ (fs : t) (p : string) : bool := isdir fs p || isfile fs p.

Definition listdir (fs : t) (p : string) : res (list string) :=
  match fs !! Path.norm p with
  | Some (Dir es) => Ok es
  | Some (File _) => Raise (NotADirectoryError p)
  | None => Raise (FileNotFoundError p)
  end.

(** [open(p, "r").read()] *)
Definition read (fs : t) (p : string) : res string :=
  match fs !! p with
  | Some (File text) => Ok text
  | Some (Dir _) => Raise (IsADirectoryError p)
  | None => if isdir fs p then Raise (IsADirectoryError p)
            else Raise (FileNotFoundError p)
  end.

Definition add_entry (name : string) (es : list string) : list string :=
  if bool_decide (name ∈ es) then es else es ++ [name].

Definition del_entry (name : string) (es : list string) : list string :=
  List.filter (λ e, negb (bool_decide (e = name))) es.

(** [open(p, "w").write(text)]: the file is created or overwritten in
  its directory, which must exist. *)
Definition write (fs : t) (p text : string) : res t :=
  if isdir fs p then Raise (IsADirectoryError p)
  else
    let '(head, name) := Path.split p in
    if bool_decide (name = "") then Raise (FileNotFoundError p)
    else if bool_decide (head = "") then Ok (<[p := File text]> fs)
    else
      match fs !! head with
      | Some (Dir es) => Ok (<[p := File text]> (<[head := Dir (add_entry name es)]> fs))
      | Some (File _) => Raise (NotADirectoryError p)
      | None => Raise (FileNotFoundError p)
      end.

(** [os.remove(p)] *)
Definition remove (fs : t) (p : string) : res t :=
  match fs !! p with
  | Some (File _) =>
      let '(head, name) := Path.split p in
      if bool_decide (head = "") then Ok (delete p fs)
      else
        match fs !! head with
        | Some (Dir es) => Ok (delete p (<[head := Dir (del_entry name es)]> fs))
        | _ => Ok (delete p fs)
        end
  | Some (Dir _) => Raise (IsADirectoryError p)
  | None => if isdir fs p then Raise (IsADirectoryError p)
            else Raise (FileNotFoundError p)
  end.

(** [os.makedirs(p)]: the directory is created, empty, and entered in
  its parent's listing when the parent is listed. *)
Definition makedirs (fs : t) (p : string) : res t :=
  let d := Path.norm p in
  if bool_decide (p = "") then Raise (FileNotFoundError p)
  else if bool_decide (is_Some (fs !! d)) then Raise (FileExistsError p)
  else
    let '(head, name) := Path.split d in
    match fs !! head with
    | Some (File _) => Raise (NotADirectoryError p)
    | Some (Dir es) =>
        if bool_decide (head = d) then Ok (<[d := Dir []]> fs)
        else Ok (<[d := Dir []]> (<[head := Dir (add_entry name es)]> fs))
    | None => Ok (<[d := Dir []]> fs)
    end.

End Fs.

(** ** Configuration values

    What [json.load] returns.  An object keeps its members in the order
    of the document; as in the [dict] built from them, the last member
    of a name is the one in force. *)

Local Unset Elimination Schemes.
Inductive json :=
  | JNull
  | JBool (b : bool)
  | JInt (z : Z)
  | JStr (s : string)
  | JArr (items : list json)
  | JObj (members : list (string * json)).
Local Set Elimination Schemes.

Module Py.

(** [bool(v)], the test of [if not v] *)
Definition truthy (v : json) : bool :=
  match v with
  | JNull => false
  | JBool b => b
  | JInt z => negb (z =? 0)%Z
  | JStr s => negb (bool_decide (s = ""))
  | JArr items => match items with [] => false | _ => true end
  | JObj members => match members with [] => false | _ => true end
  end.

Fixpoint dict_get (key : string) (members : list (string * json)) : option json :=
  match members with
  | [] => None
  | (k, v) :: ms =>
      match dict_get key ms with
      | Some v' => Some v'
      | None => if bool_decide (k = key) then Some v else None
      end
  end.

(** [v[key]] for a string [key] *)
Definition getitem (v : json) (key : string) : res json :=
  match v with
  | JObj members =>
      match dict_get key members with
      | Some x => Ok x
      | None => Raise (KeyError key)
      end
  | JNull => Raise (TypeError "'NoneType' object is not subscriptable")
  | JBool _ => Raise (TypeError "'bool' object is not subscriptable")
  | JInt _ => Raise (TypeError "'int' object is not subscriptable")
  | JStr _ => Raise (TypeError "string indices must be integers")
  | JArr _ => Raise (TypeError "list indices must be integers or slices")
  end.

(** [v[section][key]] *)
Definition get2 (v : json) (section key : string) : res json :=
  res_bind (getitem v section) (λ s, getitem s key).

(** The stages are modelled for paths and URLs that are strings and for
  a chunk count that is an integer.  With a value of another type
  the code goes on into the stage, where the libraries decide what
  happens; the model ends the run at the lookup instead, and the
  statements about [main] take the values a stage reads to be of these
  types. *)
Definition as_str (v : json) : res string :=
  match v with
  | JStr s => Ok s
  | _ => Raise (TypeError "expected str")
  end.

Definition as_int (v : json) : res Z :=
  match v with
  | JInt z => Ok z
  | JBool b => Ok (if b then 1 else 0)%Z
  | _ => Raise (TypeError "expected int")
  end.

(** [str(e)] *)
Definition str_exn (e : exn) : string :=
  match e with
  | ValueError m | TypeError m | JSONDecodeError m | ParserError m
  | ConnectionError m => m
  | KeyError k => "'" +:+ k +:+ "'"
  | ZeroDivisionError => "integer division or modulo by zero"
  | UnboundLocalError n =>
      "cannot access local variable '" +:+ n
      +:+ "' where it is not associated with a value"
  | FileNotFoundError q => "[Errno 2] No such file or directory: '" +:+ q +:+ "'"
  | FileExistsError q => "[Errno 17] File exists: '" +:+ q +:+ "'"
  | IsADirectoryError q => "[Errno 21] Is a directory: '" +:+ q +:+ "'"
  | NotADirectoryError q => "[Errno 20] Not a directory: '" +:+ q +:+ "'"
  | CalledProcessError c _ =>
      "Command returned non-zero exit status " +:+ pretty c +:+ "."
  end.

(** [enumerate(l)] *)
Fixpoint enumerate_from {A} (i : nat) (l : list A) : list (nat * A) :=
  match l with
  | [] => []
  | x :: r => (i, x) :: enumerate_from (S i) r
  end.

Definition enumerate {A} (l : list A) : list (nat * A) := enumerate_from 0 l.

End Py.

(** ** The world of a run

    The file system, the log, the commands handed to the shell and the
    HTTP requests sent, the last two in the order of the attempts. *)

Inductive level := INFO | ERROR.

Record request := Request {
    url : string;
    headers : list (string * string);
    data : string
  }.

Record world := World {
    w_fs : gmap string node;
    w_log : list (level * string);
    w_procs : list string;
    w_reqs : list request
  }.

(** What a child process leaves behind. *)
Record completed := Completed {
    returncode : Z;
    stderr : string;
    fs_after : gmap string node
  }.

(** How a POST ends: with a response, or without one. *)
Inductive posted :=
  | Response (status_code : Z) (text : string)
  | NoResponse (msg : string).

(** What lies outside the repository: the parser and the printer of
    [pandas], the parser of [json], the shell with the mapper behind
    it, and the server, which may answer by what it was sent before. *)
Record externals := Externals {
    read_csv_text : string → res frame;
    to_csv_text : frame → string;
    json_loads : string → res json;
    run_shell : string → gmap string node → completed;
    http_post : list request → request → posted
  }.

(** Computations: a result or an exception, and the world they leave. *)
Definition M (A : Type) : Type := world → res A * world.

Definition ret {A} (a : A) : M A := λ w, (Ok a, w).

Definition bind {A B} (m : M A) (k : A → M B) : M B := λ w,
  match m w with
  | (Ok a, w') => k a w'
  | (Raise e, w') => (Raise e, w')
  end.

Notation "'do' x <- m ; k" := (bind m (λ x, k))
  (at level 10, x name, m at level 100, k at level 200,
   format "'[v' 'do'  x  <-  m ; '/' k ']'").
Notation "'do' ' p <- m ; k" := (bind m (λ x, match x with p => k end))
  (at level 10, p pattern, m at level 100, k at level 200,
   format "'[v' 'do'  ' p  <-  m ; '/' k ']'").
Notation "m >> k" := (bind m (λ _, k))
  (at level 100, k at level 200, right associativity).

Definition raise {A} (e : exn) : M A := λ w, (Raise e, w).

Definition lift {A} (r : res A) : M A := λ w, (r, w).

(** [try: m  except <the exceptions h accepts>: h e] *)
Definition try_except {A} (m : M A) (h : exn → option (M A)) : M A := λ w,
  match m w with
  | (Ok a, w') => (Ok a, w')
  | (Raise e, w') =>
      match h e with
      | Some k => k w'
      | None => (Raise e, w')
      end
  end.

(** [for x in l: body] *)
Fixpoint for_ {A} (l : list A) (body : A → M unit) : M unit :=
  match l with
  | [] => ret ()
  | x :: r => body x  >> for_ r body
  end.

(** A local variable that is read: unbound, it raises. *)
Definition local {A} (name : string) (v : option A) : M A :=
  match v with
  | Some a => ret a
  | None => raise (UnboundLocalError name)
  end.

Definition set_fs (fs : gmap string node) (w : world) : world :=
  World fs (w_log w) (w_procs w) (w_reqs w).

Definition add_log (w : world) (entries : list (level * string)) : world :=
  World (w_fs w) (w_log w ++ entries) (w_procs w) (w_reqs w).

Module Logging.
Definition log (l : level) (msg : string) : M unit := λ w,
  (Ok (), add_log w [(l, msg)]).
Definition info : string → M unit := log INFO.
Definition error : string → M unit := log ERROR.
End Logging.

Module Os.
Definition isdir (p : string) : M bool := λ w, (Ok (Fs.isdir (w_fs w) p), w).
Definition isfile (p : string) : M bool := λ w, (Ok (Fs.isfile (w_fs w) p), w).
Definition exists_ (p : string) : M bool := λ w, (Ok (Fs.exists_ (w_fs w) p), w).
Definition listdir (p : string) : M (list string) := λ w, (Fs.listdir (w_fs w) p, w).
Definition read (p : string) : M string := λ w, (Fs.read (w_fs w) p, w).
Definition write (p text : string) : M unit := λ w,
  match Fs.write (w_fs w) p text with
  | Ok fs => (Ok (), set_fs fs w)
  | Raise e => (Raise e, w)
  end.
Definition remove (p : string) : M unit := λ w,
  match Fs.remove (w_fs w) p with
  | Ok fs => (Ok (), set_fs fs w)
  | Raise e => (Raise e, w)
  end.
Definition makedirs (p : string) : M unit := λ w,
  match Fs.makedirs (w_fs w) p with
  | Ok fs => (Ok (), set_fs fs w)
  | Raise e => (Raise e, w)
  end.
End Os.

(** ** pipelineUtils.py *)

Section pipelineUtils.
Context (X : externals).

(** [pd.read_csv(path)] *)
Definition read_csv (path : string) : M frame :=
  do text <- Os.read path; lift (read_csv_text X text).

(** [data.to_csv(path, index=False)] *)
Definition to_csv (data : frame) (path : string) : M unit :=
  Os.write path (to_csv_text X data).

(** [subprocess.run(command, capture_output=True, text=True,
  check=True, shell=True)] *)
Definition subprocess_run (command : string) : M unit := λ w,
  let r := run_shell X command (w_fs w) in
  let w' := World (fs_after r) (w_log w) (w_procs w ++ [command]) (w_reqs w) in
  if bool_decide (returncode r = 0%Z) then (Ok (), w')
  else (Raise (CalledProcessError (returncode r) (stderr r)), w').

(** [requests.post(url, headers=headers, data=data)] *)
Definition requests_post (req : request) : M (Z * string) := λ w,
  let w' := World (w_fs w) (w_log w) (w_procs w) (w_reqs w ++ [req]) in
  match http_post X (w_reqs w) req with
  | Response code text => (Ok (code, text), w')
  | NoResponse msg => (Raise (ConnectionError msg), w')
  end.

Definition tmp_rml_file : string := "tmp_mapping.rml.ttl".

Definition java_command (rml_mapper_path output_file : string) : string :=
  "java " +:+ String.concat " "
    [ "-Xms512m"; "-Xmx10g"; "-XX:+UseG1GC";
      "-jar " +:+ rml_mapper_path;
      "-m " +:+ tmp_rml_file;
      "-o " +:+ output_file ].

Definition execute_rml (csv_file rml_file output_file rml_mapper_path : string)
    : M unit :=
  do rml_content <- Os.read rml_file;
  let rml_content := Str.replace "{csv_file_path}" csv_file rml_content in
  Os.write tmp_rml_file rml_content >>
  let command := java_command rml_mapper_path output_file in
  try_except (subprocess_run command)
    (λ e, match e with
          | CalledProcessError code err =>
              Some (Logging.error ("Error: " +:+ pretty code +:+ ", " +:+ err))
          | _ => None
          end) >>
  Os.remove tmp_rml_file.

(** In [mapping] the variable [rml_file] is bound by the loop over the
  rule directory only: where the rule path is a file it is never
  assigned, and the log line that names it reads an unbound local. *)
Definition mapping (csv_file_path rml_path output_dir mapper_path : string)
    : M unit :=
  do rml_is_dir <- Os.isdir rml_path;
  if rml_is_dir then
    do rml_files <- Os.listdir rml_path;
    for_ (Py.enumerate rml_files) (λ '(j, rml_file),
      do csv_is_dir <- Os.isdir csv_file_path;
      if csv_is_dir then
        do csv_files <- Os.listdir csv_file_path;
        for_ (Py.enumerate csv_files) (λ '(i, csv_file),
          Logging.info ("Processing file: " +:+ csv_file +:+ ", RML: " +:+ rml_file) >>
          execute_rml (csv_file_path +:+ csv_file) (rml_path +:+ rml_file)
            (output_dir +:+ "output_" +:+ pretty i +:+ "_" +:+ pretty j +:+ ".ttl")
            mapper_path)
      else
        do csv_is_file <- Os.isfile csv_file_path;
        if csv_is_file then
          execute_rml csv_file_path (rml_path +:+ rml_file) output_dir mapper_path
        else Logging.error "Invalid CSV file path")
  else
    do rml_is_file <- Os.isfile rml_path;
    if rml_is_file then
      let rml_file : option string := None in
      do csv_is_dir <- Os.isdir csv_file_path;
      if csv_is_dir then
        do csv_files <- Os.listdir csv_file_path;
        for_ (Py.enumerate csv_files) (λ '(i, csv_file),
          do rml_file <- local "rml_file" rml_file;
          Logging.info ("Processing file: " +:+ csv_file +:+ ", RML: " +:+ rml_file) >>
          execute_rml (csv_file_path +:+ csv_file) rml_path
            (output_dir +:+ "output_" +:+ pretty i +:+ ".ttl")
            mapper_path)
      else
        do csv_is_file <- Os.isfile csv_file_path;
        if csv_is_file then
          execute_rml csv_file_path rml_path output_dir mapper_path
        else Logging.error "Invalid CSV file path"
    else ret ().

Definition upload (graphdb_url repository_id rdf_file_path : string) : M unit :=
  let url := graphdb_url +:+ "/repositories/" +:+ repository_id +:+ "/statements" in
  let headers := [("Content-Type", "text/turtle")] in
  do rdf_data <- Os.read rdf_file_path;
  do response <- requests_post (Request url headers rdf_data);
  if bool_decide (response.1 = 204%Z) then
    Logging.info ("RDF file " +:+ rdf_file_path +:+ " uploaded to repository "
                  +:+ repository_id +:+ ".")
  else
    Logging.error ("Failed to upload RDF file " +:+ rdf_file_path
                   +:+ ". Response: " +:+ response.2).

Definition upload_rdf_data_to_graphdb (rdf_file_path graphdb_url repository : string)
    : M unit :=
  do is_dir <- Os.isdir rdf_file_path;
  if is_dir then
    do files <- Os.listdir rdf_file_path;
    for_ files (λ file,
      Logging.info ("Uploading file: " +:+ file) >>
      upload graphdb_url repository (Path.join rdf_file_path file))
  else
    do is_file <- Os.isfile rdf_file_path;
    if is_file then upload graphdb_url repository rdf_file_path
    else Logging.error "Invalid file path.".

Definition clean_data (dataset_path output_path : string) : M unit :=
  do data <- read_csv dataset_path;
  do data <- lift (clean_frame data);
  to_csv data output_path.

Definition chunk_name (i : Z) : string := "data_chunk_" +:+ pretty i +:+ ".csv".

Definition split_dataset (dataset_path : string) (n_chunks : Z) (output_dir : string)
    : M unit :=
  do data <- read_csv dataset_path;
  do chunk_size <- (if bool_decide (n_chunks = 0%Z) then raise ZeroDivisionError
                else ret (Pd.len data `div` n_chunks)%Z);
  do present <- Os.exists_ output_dir;
  (if negb present then Os.makedirs output_dir else ret ()) >>
  for_ (seqZ 0 n_chunks) (λ i,
    let start_index := (i * chunk_size)%Z in
    let chunk :=
      if bool_decide (i = n_chunks - 1)%Z
      then Pd.iloc data start_index None
      else Pd.iloc data start_index (Some (start_index + chunk_size)%Z) in
    to_csv chunk (Path.join output_dir (chunk_name i))).

(** A function that ends without [return] returns [None]. *)
Definition load_config (config_file : string) : M json :=
  try_except
    (do text <- Os.read config_file; lift (json_loads X text))
    (λ e, Some (match e with
      | FileNotFoundError _ =>
          Logging.error ("Error: The file " +:+ config_file +:+ " was not found.") >>
          ret JNull
      | JSONDecodeError _ =>
          Logging.error ("Error: Failed to decode JSON from " +:+ config_file
                         +:+ ": " +:+ Py.str_exn e) >>
          ret JNull
      | _ =>
          Logging.error ("An unexpected error occurred: " +:+ Py.str_exn e) >>
          ret JNull
      end)).

End pipelineUtils.

(** ** pipeline.py *)

Section pipeline.
Context (X : externals).

(** [config[section][key]] *)
Definition cfg (config : json) (section key : string) : M json :=
  lift (Py.get2 config section key).

Definition cfg_str (config : json) (section key : string) : M string :=
  do v <- cfg config section key; lift (Py.as_str v).

Definition cfg_int (config : json) (section key : string) : M Z :=
  do v <- cfg config section key; lift (Py.as_int v).

Definition main (config_path : string) (clean split map upload : bool) : M unit :=
  do config <- load_config X config_path;
  if negb (Py.truthy config) then
    Logging.error "Failed to load configuration. Exiting."
  else
    (if clean then
       Logging.info "Cleaning the data ..." >>
       do input <- cfg_str config "clean_data" "input";
       do output <- cfg_str config "clean_data" "output";
       clean_data X input output
     else ret ()) >>
    (if split then
       Logging.info "Splitting the dataset ..." >>
       do dataset_path <- cfg_str config "split_dataset" "dataset_path";
       do n_chunks <- cfg_int config "split_dataset" "n_chunks";
       do output_dir <- cfg_str config "split_dataset" "output_dir";
       split_dataset X dataset_path n_chunks output_dir
     else ret ()) >>
    (if map then
       Logging.info "Mapping the data ..." >>
       do csv_file_path <- cfg_str config "split_dataset" "output_dir";
       do rml_path <- cfg_str config "mapping" "rml_path";
       do output_path <- cfg_str config "mapping" "output_path";
       do mapper_path <- cfg_str config "mapping" "mapper_path";
       mapping X csv_file_path rml_path output_path mapper_path
     else ret ()) >>
    (if upload then
       Logging.info "Uploading RDF data to GraphDB ..." >>
       do rdf_file_path <- cfg_str config "mapping" "output_path";
       do graphdb_url <- cfg_str config "upload_to_graphDB" "graphDB_url";
       do repository <- cfg_str config "upload_to_graphDB" "graphDB_repo";
       upload_rdf_data_to_graphdb X rdf_file_path graphdb_url repository
     else ret ()).

End pipeline.

(** ** The formats of a timestamp, as predicates on the text

    [fixed_format] is the layout [YYYY-MM-DD HH:MM:SS.ffffff] taken to
    the letter: twenty-six characters, digits where the letters stand.
    [lenient_format] is the layout [strptime] reads: four digits for the
    year; one or two for month, day, hour, minute and second, the day
    also as a space and a digit; white space of any length, but not
    none, between day and hour; one to six digits of fraction. *)

Module Format.
Import Re.

(** Up to [max] digits from the front of [s], and what follows them. *)
Fixpoint take_digits (max : nat) (s : string) : string * string :=
  match max, s with
  | S n, String c r =>
      if is_digit c then (String c (take_digits n r).1, (take_digits n r).2)
      else ("", s)
  | _, _ => ("", s)
  end.

Definition digits (lo hi : nat) (s : string) : option string :=
  let '(a, b) := take_digits hi s in
  if Nat.leb lo (String.length a) then Some b else None.

Definition expect (c : ascii) (s : string) : option string :=
  match s with
  | String a r => if bool_decide (a = c) then Some r else None
  | "" => None
  end.

Definition day_digits (s : string) : option string :=
  match s with
  | String " " r => digits 1 1 r
  | _ => digits 1 2 s
  end.

Definition spaces (s : string) : option string :=
  match s with
  | String c r => if is_space c then Some (Datetime.lstrip r) else None
  | "" => None
  end.

Definition scan (steps : list (string → option string)) (s : string)
    : option string :=
  foldl (λ acc step, acc ≫= step) (Some s) steps.

Definition fixed_format (s : string) : bool :=
  bool_decide (scan [ digits 4 4; expect "-"; digits 2 2; expect "-"; digits 2 2;
                      expect " ";
                      digits 2 2; expect ":"; digits 2 2; expect ":"; digits 2 2;
                      expect "."; digits 6 6 ] s = Some "").

Definition lenient_format (s : string) : bool :=
  bool_decide (scan [ digits 4 4; expect "-"; digits 1 2; expect "-"; day_digits;
                      spaces;
                      digits 1 2; expect ":"; digits 1 2; expect ":"; digits 1 2;
                      expect "."; digits 1 6 ] s = Some "").

(** A word of digits, between [lo] and [hi] of them. *)
Definition digits_word (lo hi : nat) (w : string) : Prop :=
  Str.all is_digit w = true ∧ lo ≤ String.length w ≤ hi.

(** [b] does not begin with a digit. *)
Definition no_digit_head (b : string) : Prop :=
  match b with
  | String c _ => is_digit c = false
  | "" => True
  end.

End Format.

(** * The vocabulary of the statements *)

(** ** Chunks *)

(** The rows of chunk [i] of [n], for chunks of [size] rows: the last
    chunk takes what is left. *)
Definition chunk_rows {A} (size n : nat) (l : list A) (i : nat) : list A :=
  if bool_decide (i = n - 1) then drop (i * size) l
  else take size (drop (i * size) l).

(** The path of the file of chunk [i]. *)
Definition chunk_path (output_dir : string) (i : Z) : string :=
  Path.join output_dir (chunk_name i).

(** ** Data frames and their cells *)

(** Every row is as long as the header. *)
Definition frame_wf (data : frame) : Prop :=
  Forall (λ r, length r = length (columns data)) (rows data).

(** A quality value that the removal of the prefix settles at once: the
    prefix and a text without the letter [Q], or such a text alone. *)
Definition plain_quality (v : cell) : bool :=
  match v with
  | CStr s =>
      negb (Str.contains "Q" s)
      || Str.startswith quality_prefix s
         && negb (Str.contains "Q" (Str.drop (String.length quality_prefix) s))
  | _ => true
  end.

(** The property value [clean_data] derives from a register name. *)
Definition property_of (register_name : string) : string :=
  let p := Str.filter Re.not_digit register_name in
  if Str.startswith "Current" p then "Current" +:+ Str.drop_while Re.dot p else p.

(** ** Outcomes of the stages *)

Section statements.
Context (X : externals).

(** How the load of [path] went wrong: the file could not be read, or
  its text could not be parsed. *)
Definition load_fails (w : world) (path : string) (e : exn) : Prop :=
  Fs.read (w_fs w) path = Raise e
  ∨ ∃ text, Fs.read (w_fs w) path = Ok text ∧ json_loads X text = Raise e.

Definition load_error (path : string) (e : exn) : string :=
  match e with
  | FileNotFoundError _ => "Error: The file " +:+ path +:+ " was not found."
  | JSONDecodeError _ =>
      "Error: Failed to decode JSON from " +:+ path +:+ ": " +:+ Py.str_exn e
  | _ => "An unexpected error occurred: " +:+ Py.str_exn e
  end.

(** The mapper leaves the temporary rule file where it is. *)
Definition keeps_tmp : Prop :=
  ∀ command fs text,
    fs !! tmp_rml_file = Some (File text) →
    ∃ text', fs_after (run_shell X command fs) !! tmp_rml_file = Some (File text').

(** The log line of a run that ended with [code]. *)
Definition mapper_log (r : completed) : list (level * string) :=
  if bool_decide (returncode r = 0%Z) then []
  else [(ERROR, "Error: " +:+ pretty (returncode r) +:+ ", " +:+ stderr r)].

(** The request [upload] sends for the file at [path]. *)
Definition rdf_request (graphdb_url repository : string) (fs : gmap string node)
    (path : string) : request :=
  Request (graphdb_url +:+ "/repositories/" +:+ repository +:+ "/statements")
          [("Content-Type", "text/turtle")]
          (match Fs.read fs path with Ok text => text | Raise _ => "" end).

(** The log line [upload] writes for a response. *)
Definition response_log (repository path : string) (p : posted) : list (level * string) :=
  match p with
  | Response code text =>
      if bool_decide (code = 204%Z)
      then [(INFO, "RDF file " +:+ path +:+ " uploaded to repository "
                   +:+ repository +:+ ".")]
      else [(ERROR, "Failed to upload RDF file " +:+ path +:+ ". Response: " +:+ text)]
  | NoResponse _ => []
  end.

(** A cell of the timestamp column that the normalizer refuses. *)
Definition malformed (series : list cell) (e : exn) : Prop :=
  ∃ v, v ∈ series ∧ convert_to_iso8601 v = Raise e.

(** The first such cell: the cells before [v] are converted, and [v] is
  refused with [e]. *)
Definition first_malformed (series : list cell) (v : cell) (e : exn) : Prop :=
  ∃ good rest, series = good ++ v :: rest
               ∧ Forall (λ u, ∃ out, convert_to_iso8601 u = Ok out) good
               ∧ convert_to_iso8601 v = Raise e.

(** The mapping stage of [main], for a configuration whose values are
  in place. *)
Definition map_stage (csv_file_path rml_path output_path mapper_path : string) : M unit :=
  Logging.info "Mapping the data ..." >>
  mapping X csv_file_path rml_path output_path mapper_path.

Section batch.
Context (w : world) (rdf_file_path graphdb_url repository : string)
        (files : list string).

Definition batch_request (file : string) : request :=
  rdf_request graphdb_url repository (w_fs w) (Path.join rdf_file_path file).

(** The requests sent once [k] files are done. *)
Definition batch_sent (k : nat) : list request :=
  w_reqs w ++ map batch_request (take k files).

(** How the POST for the [k]-th file ends. *)
Definition batch_answer (k : nat) (file : string) : posted :=
  http_post X (batch_sent k) (batch_request file).

(** The log lines of one file and of the first [k] files. *)
Definition file_lines (k : nat) (file : string) : list (level * string) :=
  (INFO, "Uploading file: " +:+ file)
  :: response_log repository (Path.join rdf_file_path file) (batch_answer k file).

Definition batch_lines (k : nat) : list (level * string) :=
  concat (imap file_lines (take k files)).

Definition batch_world (k : nat) : world :=
  World (w_fs w) (w_log w ++ batch_lines k) (w_procs w) (batch_sent k).

Definition batch_body (file : string) : M unit :=
  Logging.info ("Uploading file: " +:+ file) >>
  upload X graphdb_url repository (Path.join rdf_file_path file).

End batch.

Section chunks.
Context (w : world) (output_dir : string) (n_chunks : Z) (data : frame).

(** The chunks of [data] and the texts of their files. *)
Definition chunk (i : nat) : frame :=
  Frame (columns data)
      (chunk_rows (length (rows data) / Z.to_nat n_chunks) (Z.to_nat n_chunks)
                  (rows data) i).

Definition chunk_file (i : nat) : string :=
  chunk_path output_dir (Z.of_nat i).

(** The file system with the first [k] chunks written. *)
Definition chunks_written (k : nat) (fs : gmap string node) : Prop :=
  (∃ es, fs !! Path.norm output_dir = Some (Dir es)
       ∧ ∀ i, i < k → chunk_name (Z.of_nat i) ∈ es)
  ∧ (∀ i, i < k → fs !! chunk_file i = Some (File (to_csv_text X (chunk i))))
  ∧ (∀ q t, fs !! q = Some (File t) →
          (∃ i, i < k ∧ q = chunk_file i) ∨ w_fs w !! q = Some (File t))
  ∧ (∀ q es, fs !! q = Some (Dir es) →
           q = Path.norm output_dir ∨ ∃ es', w_fs w !! q = Some (Dir es')).

Definition split_body (i : Z) : M unit :=
  let chunk_size := (Pd.len data `div` n_chunks)%Z in
  let start_index := (i * chunk_size)%Z in
  let chunk :=
  if bool_decide (i = n_chunks - 1)%Z
  then Pd.iloc data start_index None
  else Pd.iloc data start_index (Some (start_index + chunk_size)%Z) in
  to_csv X chunk (Path.join output_dir (chunk_name i)).

End chunks.

End statements.

(** ** Sample runs *)

Definition X_null : externals := Externals
  (λ _, Raise (ParserError "no data"))
  (λ _, "")
  (λ _, Raise (JSONDecodeError "Expecting value: line 1 column 1 (char 0)"))
  (λ _ fs, Completed 0 "" fs)
  (λ _ _, NoResponse "connection refused").

Definition w_empty : world := World ∅ [] [] [].

(** A mapper that fails on every call. *)
Definition X_failing_mapper : externals := Externals
  (λ _, Raise (ParserError "no data"))
  (λ _, "")
  (λ _, Raise (JSONDecodeError "Expecting value"))
  (λ _ fs, Completed 1 "mapping failed" fs)
  (λ _ _, NoResponse "connection refused").

Definition w_rule : world :=
  World {[ "mapper.rml.ttl" := File "source {csv_file_path}" ]} [] [] [].

(** Two rule files and two chunks. *)
Definition w_batch : world :=
  World (list_to_map [ ("rules", Dir ["a.rml.ttl"; "b.rml.ttl"]);
                       ("rules/a.rml.ttl", File "source {csv_file_path}");
                       ("rules/b.rml.ttl", File "source {csv_file_path}");
                       ("chunks", Dir ["data_chunk_0.csv"; "data_chunk_1.csv"]);
                       ("chunks/data_chunk_0.csv", File "id");
                       ("chunks/data_chunk_1.csv", File "id") ]) [] [] [].

Definition w_chunks : world :=
  World (list_to_map [ ("mapper.rml.ttl", File "source {csv_file_path}");
                       ("chunks", Dir ["data_chunk_0.csv"]);
                       ("chunks/data_chunk_0.csv", File "id") ]) [] [] [].

(** A server that answers 500 to the second request and 204 to the
    others, and one that is not there for the second request. *)
Definition X_second_500 : externals := Externals
  (λ _, Raise (ParserError "no data"))
  (λ _, "")
  (λ _, Raise (JSONDecodeError "Expecting value"))
  (λ _ fs, Completed 0 "" fs)
  (λ sent _, if bool_decide (length sent = 1) then Response 500 "Internal Server Error"
             else Response 204 "").

Definition X_second_down : externals := Externals
  (λ _, Raise (ParserError "no data"))
  (λ _, "")
  (λ _, Raise (JSONDecodeError "Expecting value"))
  (λ _ fs, Completed 0 "" fs)
  (λ sent _, if bool_decide (length sent = 1) then NoResponse "connection refused"
             else Response 204 "").

Definition w_kg : world :=
  World (list_to_map [ ("kg", Dir ["output_0.ttl"; "output_1.ttl"; "output_2.ttl"]);
                       ("kg/output_0.ttl", File "<a> <b> <c> .");
                       ("kg/output_1.ttl", File "<d> <e> <f> .");
                       ("kg/output_2.ttl", File "<g> <h> <i> .") ]) [] [] [].

(** A run with a configuration for all four stages, a parser that reads
    the text of a file as the timestamp of a one-row data set, and a
    raw data set whose timestamp is not in the format. *)
Definition sample_config : json :=
  JObj [ ("clean_data", JObj [("input", JStr "raw.csv"); ("output", JStr "clean.csv")]);
         ("split_dataset", JObj [ ("dataset_path", JStr "clean.csv");
                                  ("n_chunks", JInt 2);
                                  ("output_dir", JStr "chunks/") ]);
         ("mapping", JObj [ ("rml_path", JStr "rules/");
                            ("output_path", JStr "kg/");
                            ("mapper_path", JStr "rmlmapper.jar") ]);
         ("upload_to_graphDB", JObj [ ("graphDB_url", JStr "http://localhost:7200");
                                      ("graphDB_repo", JStr "sensors") ]) ].

Definition sample_data (timestamp quality register_name : string) : frame :=
  Frame ["data_rilevazione"; "unit"; "quality"; "register_name"]
        [[CStr timestamp; CStr "-"; CStr quality; CStr register_name]].

Definition sample_frame (timestamp : string) : frame :=
  sample_data timestamp (quality_prefix +:+ "Buona") "Current1".

Definition X_sample : externals := Externals
  (λ text, Ok (sample_frame text))
  (λ data, "csv")
  (λ _, Ok sample_config)
  (λ _ fs, Completed 0 "" fs)
  (λ _ _, Response 204 "").

Definition w_sample : world :=
  World (list_to_map [ ("config.json", File "{}");
                       ("raw.csv", File "04/03/2021");
                       ("clean.csv", File "2021-03-04 10:15:30.500000") ]) [] [] [].

(** A parser that reads every character of a file as a row, and a data
    set of eight rows. *)
Definition X_letters : externals := Externals
  (λ text, Ok (Frame ["letter"]
                     (map (λ c, [CStr (String c "")]) (list_ascii_of_string text))))
  (λ data, String.concat ","
             (map (λ r, match r with [CStr s] => s | _ => "" end) (rows data)))
  (λ _, Raise (JSONDecodeError "Expecting value"))
  (λ _ fs, Completed 0 "" fs)
  (λ _ _, Response 204 "").

Definition w_letters : world :=
  World {[ "letters.csv" := File "abcdefgh" ]} [] [] [].

(** A raw data set of three rows: a timestamp in the format, a missing
    value, and a date in another format. *)
Definition sample_rows : frame :=
  Frame ["data_rilevazione"; "unit"; "quality"; "register_name"]
        [ [CStr "2021-03-04 10:15:30.500000"; CStr "V"; CStr "Buona"; CStr "Voltage1"];
          [CNaN; CStr "V"; CStr "Buona"; CStr "Voltage1"];
          [CStr "04/03/2021"; CStr "V"; CStr "Buona"; CStr "Voltage1"] ].

Definition X_rows : externals := Externals
  (λ _, Ok sample_rows)
  (λ _, "csv")
  (λ _, Ok sample_config)
  (λ _ fs, Completed 0 "" fs)
  (λ _ _, Response 204 "").

(** A mapper that fails and reports the rule it was given, and a
    working directory with the configuration, two rules, two chunks and
    two RDF files. *)
Definition X_echo : externals := Externals
  (λ text, Ok (sample_frame text))
  (λ _, "csv")
  (λ _, Ok sample_config)
  (λ _ fs, Completed 1 (match fs !! tmp_rml_file with
                        | Some (File rule) => rule
                        | _ => ""
                        end) fs)
  (λ _ _, Response 204 "").

Definition w_pipeline : world :=
  World (list_to_map [ ("config.json", File "{}");
                       ("rules", Dir ["a.rml.ttl"; "b.rml.ttl"]);
                       ("rules/a.rml.ttl", File "a {csv_file_path}");
                       ("rules/b.rml.ttl", File "b {csv_file_path}");
                       ("chunks", Dir ["data_chunk_0.csv"; "data_chunk_1.csv"]);
                       ("chunks/data_chunk_0.csv", File "id");
                       ("chunks/data_chunk_1.csv", File "id");
                       ("kg", Dir ["output_0_0.ttl"; "output_1_0.ttl"]);
                       ("kg/output_0_0.ttl", File "<a> <b> <c> .");
                       ("kg/output_1_0.ttl", File "<d> <e> <f> .") ]) [] [] [].

(** A configuration without the section of the splitting stage. *)
Definition config_without_split : json :=
  JObj [ ("mapping", JObj [ ("rml_path", JStr "rules/");
                            ("output_path", JStr "kg/");
                            ("mapper_path", JStr "rmlmapper.jar") ]);
         ("upload_to_graphDB", JObj [ ("graphDB_url", JStr "http://localhost:7200");
                                      ("graphDB_repo", JStr "sensors") ]) ].

(** ** Stages, traces and frames of a run *)

(** The upload stage of [main], for a configuration whose values are
    in place. *)
Definition upload_stage (X : externals) (rdf_file_path graphdb_url repository : string)
    : M unit :=
  Logging.info "Uploading RDF data to GraphDB ..." >>
  upload_rdf_data_to_graphdb X rdf_file_path graphdb_url repository.

(** The log line that opens the first stage a run enables. *)
Definition first_stage_line (clean split map upload : bool) : string :=
  if clean then "Cleaning the data ..."
  else if split then "Splitting the dataset ..."
  else if map then "Mapping the data ..."
  else if upload then "Uploading RDF data to GraphDB ..."
  else "".

(** A JSON value that is an object. *)
Definition is_object (v : json) : bool :=
  match v with
  | JObj _ => true
  | _ => false
  end.

(** The exception of a child process that exits with a code other than
    zero. *)
Definition is_process_error (e : exn) : bool :=
  match e with
  | CalledProcessError _ _ => true
  | _ => false
  end.

(** A result that is a value or an exception of the class [p]. *)
Definition raises_only {A} (p : exn → bool) (r : res A) : Prop :=
  match r with
  | Ok _ => True
  | Raise e => p e = true
  end.

(** The messages of the log entries of level [INFO], in order. *)
Definition info_lines (log : list (level * string)) : list string :=
  omap (λ l, match l.1 with INFO => Some l.2 | ERROR => None end) log.

(** The output file of CSV file [i] under rule file [j], and the
    commands and log lines of a run over a directory of rules and a
    directory of CSV files: rule by rule, and file by file under each
    rule. *)
Definition grid_output (output_dir : string) (i j : nat) : string :=
  output_dir +:+ "output_" +:+ pretty i +:+ "_" +:+ pretty j +:+ ".ttl".

Definition grid_commands (mapper_path output_dir : string) (rules csvs : list string)
    : list string :=
  flat_map (λ '(j, _),
    map (λ '(i, _), java_command mapper_path (grid_output output_dir i j))
        (Py.enumerate csvs))
    (Py.enumerate rules).

Definition grid_lines (rules csvs : list string) : list string :=
  flat_map (λ rule,
    map (λ csv, "Processing file: " +:+ csv +:+ ", RML: " +:+ rule) csvs) rules.

(** The rule the mapper is given for [csv_file]: the text of [rml_file]
    in [fs], with the path in the place of the placeholder. *)
Definition rule_for (fs : gmap string node) (csv_file rml_file : string) : string :=
  match Fs.read fs rml_file with
  | Ok template => Str.replace "{csv_file_path}" csv_file template
  | Raise _ => ""
  end.

(** One run of the mapper in [w]: the shell runs [command] on the file
    system of [w] with [rule] as the temporary rule file, which is
    deleted afterwards; the command is recorded, and so is the error
    line of an exit code other than zero. *)
Definition mapper_run (X : externals) (command rule : string) (w : world) : world :=
  let r := run_shell X command (<[tmp_rml_file := File rule]> (w_fs w)) in
  World (delete tmp_rml_file (fs_after r)) (w_log w ++ mapper_log r)
        (w_procs w ++ [command]) (w_reqs w).

(** The runs over a directory of rules and a directory of CSV files,
    rule by rule and file by file under each rule: the log line, the
    command and the rule of each, the rules as [fs] holds them. *)
Definition grid_runs (fs : gmap string node)
    (csv_file_path rml_path output_dir mapper_path : string) (rules csvs : list string)
    : list (string * string * string) :=
  flat_map (λ '(j, rule),
    map (λ '(i, csv_file),
          ("Processing file: " +:+ csv_file +:+ ", RML: " +:+ rule,
           java_command mapper_path (grid_output output_dir i j),
           rule_for fs (csv_file_path +:+ csv_file) (rml_path +:+ rule)))
        (Py.enumerate csvs))
    (Py.enumerate rules).

(** The world after these runs, one after the other. *)
Definition grid_world (X : externals) (runs : list (string * string * string)) (w : world)
    : world :=
  foldl (λ w1 '(line, command, rule),
           mapper_run X command rule (add_log w1 [(INFO, line)])) w runs.

(** The paths [mapping] reads: the CSV path, as a file and as a
    directory, and the rule files. *)
Definition mapping_inputs (csv_file_path rml_path : string) (rules : list string)
    (p : string) : Prop :=
  p = csv_file_path ∨ p = Path.norm csv_file_path
  ∨ ∃ rule, rule ∈ rules ∧ p = rml_path +:+ rule.

(** The mapper leaves what is stored at the paths [keep] as it is. *)
Definition preserves (X : externals) (keep : string → Prop) : Prop :=
  ∀ command fs p, keep p → fs_after (run_shell X command fs) !! p = fs !! p.

(** A request to the statements endpoint of [repository], with Turtle
    as its content type. *)
Definition statements_request (graphdb_url repository : string) (q : request) : Prop :=
  url q = graphdb_url +:+ "/repositories/" +:+ repository +:+ "/statements"
  ∧ headers q = [("Content-Type", "text/turtle")].

(** From [w] to [w'] the log has grown, at most [n] requests were sent,
    all of them to that endpoint, and nothing else has changed. *)
Definition only_posts (graphdb_url repository : string) (n : nat) (w w' : world) : Prop :=
  w_fs w' = w_fs w ∧ w_procs w' = w_procs w
  ∧ (∃ lines, w_log w' = w_log w ++ lines)
  ∧ ∃ sent, w_reqs w' = w_reqs w ++ sent
            ∧ length sent ≤ n
            ∧ Forall (statements_request graphdb_url repository) sent.

(** The entries [upload_rdf_data_to_graphdb] can send: those of a
    directory, or the path itself. *)
Definition upload_bound (fs : gmap string node) (rdf_file_path : string) : nat :=
  match Fs.listdir fs rdf_file_path with
  | Ok files => length files
  | Raise _ => 1
  end.

(** From [w] to [w'] nothing has changed but what is stored at [path],
    which is not a directory, and the listing of a directory. *)
Definition only_writes (path : string) (w w' : world) : Prop :=
  w_log w' = w_log w ∧ w_procs w' = w_procs w ∧ w_reqs w' = w_reqs w
  ∧ (∀ q, q ≠ path → Fs.read (w_fs w') q = Fs.read (w_fs w) q)
  ∧ (∀ q, Fs.isdir (w_fs w') q = Fs.isdir (w_fs w) q).

(** ** Columns and timestamps *)

(** The columns [clean_data] reads and the columns it writes. *)
Definition required_columns : list string :=
  ["data_rilevazione"; "unit"; "quality"; "register_name"].

Definition cleaned_columns : list string :=
  ["data_rilevazione"; "unit"; "quality"; "property"].

(** The text of [t] in the layout [YYYY-MM-DD HH:MM:SS.ffffff], and the
    values the [datetime] constructor accepts. *)
Definition timestamp_text (t : Datetime.datetime) : string :=
  Datetime.fmt 4 (Datetime.year t) +:+ "-" +:+ Datetime.fmt 2 (Datetime.month t)
  +:+ "-" +:+ Datetime.fmt 2 (Datetime.day t) +:+ " "
  +:+ Datetime.fmt 2 (Datetime.hour t) +:+ ":" +:+ Datetime.fmt 2 (Datetime.minute t)
  +:+ ":" +:+ Datetime.fmt 2 (Datetime.second t)
  +:+ "." +:+ Datetime.fmt 6 (Datetime.microsecond t).

Definition valid_datetime (t : Datetime.datetime) : Prop :=
  Datetime.check_date (Datetime.year t) (Datetime.month t) (Datetime.day t) = Ok ()
  ∧ Datetime.check_time (Datetime.hour t) (Datetime.minute t) (Datetime.second t)
                        (Datetime.microsecond t) = Ok ().

(** The match the engine reports for [r] at the front of [s]: the first
    one in its order, wherever in the subject [s] starts. *)
Definition first_match (r : Re.regex) (s : string) (x : Re.found) : Prop :=
  ∀ bol, ∃ l, Re.rmatch r bol s = x :: l.

(** ** Further sample runs *)

(** A run whose configuration file parses to [config]. *)
Definition X_config (config : json) : externals := Externals
  (λ text, Ok (sample_frame text))
  (λ _, "csv")
  (λ _, Ok config)
  (λ _ fs, Completed 0 "" fs)
  (λ _ _, Response 204 "").

(** A mapper that deletes the rule file it was given. *)
Definition X_tidy_mapper : externals := Externals
  (λ _, Raise (ParserError "no data"))
  (λ _, "")
  (λ _, Raise (JSONDecodeError "Expecting value"))
  (λ _ fs, Completed 0 "" (delete tmp_rml_file fs))
  (λ _ _, NoResponse "connection refused").

(** A rule without the placeholder. *)
Definition w_plain_rule : world :=
  World {[ "mapper.rml.ttl" := File "source data.csv" ]} [] [] [].

(** A directory of RDF files with a directory among them. *)
Definition w_kg_nested : world :=
  World (list_to_map [ ("kg", Dir ["output_0.ttl"; "old"; "output_1.ttl"]);
                       ("kg/output_0.ttl", File "<a> <b> <c> .");
                       ("kg/old", Dir []);
                       ("kg/output_1.ttl", File "<d> <e> <f> .") ]) [] [] [].

(** A data set of two rows. *)
Definition w_two_letters : world :=
  World {[ "letters.csv" := File "ab" ]} [] [] [].

(** A data set with a column that the cleaning does not know. *)
Definition sample_wide : frame :=
  Frame ["id"; "data_rilevazione"; "unit"; "quality"; "register_name"]
        [ [CNum 7; CStr "2021-03-04 10:15:30.500000"; CStr "-";
           CStr (quality_prefix +:+ "Buona"); CStr "Current1"];
          [CNum 8; CStr "2021-03-04 10:15:31.000000"; CStr "V";
           CStr "Buona"; CStr "Voltage2"] ].

(** A data set without the unit column. *)
Definition sample_narrow : frame :=
  Frame ["data_rilevazione"; "quality"; "register_name"]
        [[CStr "2021-03-04 10:15:30.500000"; CStr "Buona"; CStr "Current1"]].

Definition X_narrow : externals := Externals
  (λ _, Ok sample_narrow)
  (λ _, "csv")
  (λ _, Ok sample_config)
  (λ _ fs, Completed 0 "" fs)
  (λ _ _, Response 204 "").

Definition sample_datetime : Datetime.datetime :=
  Datetime.mk_datetime 2021 3 4 10 15 30 500000.

(** * Properties *)

(** ** Strings *)

Module StrFacts.

Lemma drop_0' s : Str.drop 0 s = s.
Proof. by destruct s. Qed.

Lemma app_nil_l s : "" +:+ s = s.
Proof. done. Qed.

Lemma app_cons c a b : String c a +:+ b = String c (a +:+ b).
Proof. done. Qed.

Lemma app_nil_r s : s +:+ "" = s.
Proof. induction s as [|c s IH]; [done | by rewrite app_cons, IH]. Qed.

Lemma app_assoc a b c : (a +:+ b) +:+ c = a +:+ (b +:+ c).
Proof. induction a as [|x a IH]; [done | by rewrite !app_cons, IH]. Qed.

Lemma length_app a b : String.length (a +:+ b) = String.length a + String.length b.
Proof. induction a as [|x a IH]; [done | rewrite app_cons; simpl; by rewrite IH]. Qed.

Lemma all_app p a b : Str.all p (a +:+ b) = Str.all p a && Str.all p b.
Proof.
  induction a as [|x a IH]; [done |].
  rewrite app_cons. simpl. by rewrite IH, andb_assoc.
Qed.

Lemma startswith_nil s : Str.startswith "" s = true.
Proof. by destruct s. Qed.

Lemma startswith_cons c p a s :
  Str.startswith (String c p) (String a s) = bool_decide (c = a) && Str.startswith p s.
Proof.
  unfold Str.startswith. simpl. destruct (ascii_dec c a) as [->|Hne].
  - by rewrite bool_decide_eq_true_2.
  - by rewrite bool_decide_eq_false_2.
Qed.

Lemma startswith_app p s : Str.startswith p (p +:+ s) = true.
Proof.
  induction p as [|c p IH]; [apply startswith_nil |].
  rewrite app_cons, startswith_cons, IH. by rewrite bool_decide_eq_true_2.
Qed.

Lemma startswith_split p s :
  Str.startswith p s = true → s = p +:+ Str.drop (String.length p) s.
Proof.
  revert s. induction p as [|c p IH]; intros s H.
  { by rewrite drop_0'. }
  destruct s as [|a s]; [done |].
  rewrite startswith_cons in H. apply andb_true_iff in H as [Hc Hp].
  apply bool_decide_eq_true_1 in Hc as ->.
  rewrite app_cons. simpl. f_equal. by apply IH.
Qed.

Lemma drop_app a b : Str.drop (String.length a) (a +:+ b) = b.
Proof.
  induction a as [|x a IH]; [by rewrite app_nil_l, drop_0' |].
  rewrite app_cons. simpl. apply IH.
Qed.

Lemma length_drop n s : String.length (Str.drop n s) = String.length s - n.
Proof.
  revert s. induction n; intros [|c s]; simpl; auto.
Qed.

End StrFacts.

(** ** The matcher is sound for the language of the pattern *)

Module ReFacts.
Import Re StrFacts.

Lemma runs_sound p s w t :
  In (w, t) (runs p s) → s = w +:+ t ∧ Str.all p w = true.
Proof.
  revert w t. induction s as [|c s IH]; simpl; intros w t H.
  - destruct H as [[= <- <-]|[]]. done.
  - destruct (p c) eqn:Hc.
    + apply in_app_iff in H as [H|[[= <- <-]|[]]]; [|done].
      apply in_map_iff in H as [[w' t'] [[= <- <-] H]].
      apply IH in H as [-> Hall]. simpl. by rewrite Hc.
    + destruct H as [[= <- <-]|[]]. done.
Qed.

Theorem rmatch_sound r bol s x :
  In x (rmatch r bol s) → s = matched x +:+ rest x ∧ lang r (matched x).
Proof.
  revert bol s x.
  induction r as [c|p|p lo hi|a IHa b IHb|a IHa b IHb|name a IHa|];
    simpl; intros bol s x H.
  - destruct s as [|c' t]; [done |]. case_bool_decide; [|done].
    destruct H as [<-|[]]. subst. split; [done | constructor].
  - destruct s as [|c' t]; [done |]. destruct (p c') eqn:Hp; [|done].
    destruct H as [<-|[]]. split; [done | by constructor].
  - apply in_map_iff in H as [[w t] [<- H]].
    apply filter_In in H as [H Hn]. apply runs_sound in H as [-> Hall].
    split; [done | by constructor].
  - apply in_flat_map in H as [x1 [H1 H]].
    apply in_map_iff in H as [x2 [<- H2]].
    apply IHa in H1 as [-> La]. apply IHb in H2 as [Hs Lb]. simpl.
    split; [by rewrite app_assoc, <- Hs | by constructor].
  - apply in_app_iff in H as [H|H].
    + apply IHa in H as [-> L]. split; [done | by apply lang_alt_l].
    + apply IHb in H as [-> L]. split; [done | by apply lang_alt_r].
  - apply in_map_iff in H as [x1 [<- H]].
    apply IHa in H as [-> L]. split; [done | by constructor].
  - destruct bol; [|done]. destruct H as [<-|[]]. split; [done | constructor].
Qed.

Lemma match_sound r s x :
  match_ r s = Some x → s = matched x +:+ rest x ∧ lang r (matched x).
Proof.
  unfold match_. intros H. apply (rmatch_sound r true).
  destruct (rmatch r true s); simplify_eq/=. by left.
Qed.

Lemma range_digit a b c :
  range a b c = true →
  (48 ≤ N_of_ascii a)%N → (N_of_ascii b ≤ 57)%N → is_digit c = true.
Proof.
  unfold is_digit, range. intros H Ha Hb.
  apply andb_true_iff in H as [H1 H2].
  apply N.leb_le in H1, H2. apply andb_true_iff.
  split; apply N.leb_le; simpl; lia.
Qed.

Lemma digit_not_space c : is_digit c = true → is_space c = false.
Proof.
  unfold is_digit, is_space, range. intros H.
  apply andb_true_iff in H as [H1 H2]. apply N.leb_le in H1, H2.
  simpl in H1, H2.
  rewrite !orb_false_iff, !andb_false_iff, !N.leb_gt. simpl.
  repeat split; try lia.
  - apply bool_decide_eq_false_2. intros ->. simpl in *. lia.
  - apply bool_decide_eq_false_2. intros ->. simpl in *. lia.
Qed.

End ReFacts.

(** ** What [strptime] accepts has the lenient layout *)

Module FormatFacts.
Import Re Datetime Format StrFacts ReFacts.

Ltac inv_lang :=
  repeat match goal with
  | H : lang (Seq _ _) _ |- _ => inversion H; subst; clear H
  | H : lang (Alt _ _) _ |- _ => inversion H; subst; clear H
  | H : lang (Grp _ _) _ |- _ => inversion H; subst; clear H
  | H : lang (Chr _) _ |- _ => inversion H; subst; clear H
  | H : lang (Cls _) _ |- _ => inversion H; subst; clear H
  | H : lang (Rep _ _ _) _ |- _ => inversion H; subst; clear H
  end.

Ltac digit_facts :=
  repeat match goal with
  | H : range _ _ _ = true |- _ =>
      apply range_digit in H; [| simpl; lia | simpl; lia]
  end.

Ltac solve_digits_word :=
  solve [split; [simpl; repeat (rewrite andb_true_iff; split); done | simpl; lia]].

Lemma lang_Y w : lang re_Y w → digits_word 4 4 w.
Proof. unfold re_Y, digit. intros H. inv_lang. solve_digits_word. Qed.

Lemma lang_m w : lang re_m w → digits_word 1 2 w.
Proof.
  unfold re_m, cls. intros H. inv_lang; digit_facts; solve_digits_word.
Qed.

Lemma lang_d w :
  lang re_d w →
  digits_word 1 2 w ∨ ∃ c, w = String " " (String c "") ∧ is_digit c = true.
Proof.
  unfold re_d, cls, digit. intros H. inv_lang; digit_facts;
    try (left; solve_digits_word).
  right. eauto.
Qed.

Lemma lang_H w : lang re_H w → digits_word 1 2 w.
Proof.
  unfold re_H, cls, digit. intros H. inv_lang; digit_facts; solve_digits_word.
Qed.

Lemma lang_M w : lang re_M w → digits_word 1 2 w.
Proof.
  unfold re_M, cls, digit. intros H. inv_lang; digit_facts; solve_digits_word.
Qed.

Lemma lang_S w : lang re_S w → digits_word 1 2 w.
Proof.
  unfold re_S, cls, digit. intros H. inv_lang; digit_facts; solve_digits_word.
Qed.

Lemma lang_f w : lang re_f w → digits_word 1 6 w.
Proof.
  unfold re_f. intros H. inv_lang. split; [done |].
  match goal with
  | Hw : within _ _ _ = true |- _ =>
      apply andb_true_iff in Hw as [H1 H2]; apply Nat.leb_le in H1, H2; lia
  end.
Qed.

Lemma lang_ws w :
  lang re_ws w → Str.all is_space w = true ∧ 1 ≤ String.length w.
Proof.
  unfold re_ws. intros H. inv_lang. split; [done |].
  match goal with
  | Hw : within _ _ _ = true |- _ =>
      apply andb_true_iff in Hw as [H1 _]; by apply Nat.leb_le in H1
  end.
Qed.

Lemma take_digits_app n a b :
  Str.all is_digit a = true → String.length a ≤ n → no_digit_head b →
  take_digits n (a +:+ b) = (a, b).
Proof.
  revert n. induction a as [|c a IH]; intros n Ha Hn Hb.
  - rewrite app_nil_l. destruct n, b as [|c b]; simpl; try done.
    simpl in Hb. by rewrite Hb.
  - simpl in Ha, Hn. apply andb_true_iff in Ha as [Hc Ha].
    destruct n as [|n]; [lia |]. rewrite app_cons. simpl. rewrite Hc.
    rewrite IH; [done | done | lia | done].
Qed.

Lemma digits_app lo hi a b :
  digits_word lo hi a → no_digit_head b → digits lo hi (a +:+ b) = Some b.
Proof.
  intros [Ha [Hlo Hhi]] Hb. unfold digits.
  rewrite take_digits_app by done.
  by apply Nat.leb_le in Hlo as ->.
Qed.

Lemma lstrip_app a b :
  Str.all is_space a = true →
  match b with String c _ => is_space c = false | "" => True end →
  lstrip (a +:+ b) = b.
Proof.
  intros Ha Hb. induction a as [|c a IH].
  - rewrite app_nil_l. destruct b as [|c b]; [done |]. simpl. by rewrite Hb.
  - simpl in Ha. apply andb_true_iff in Ha as [Hc Ha].
    rewrite app_cons. simpl. rewrite Hc. by apply IH.
Qed.

Lemma digits_word_head lo hi w b :
  digits_word lo hi w → 1 ≤ lo →
  ∃ c r, w +:+ b = String c r ∧ is_digit c = true.
Proof.
  intros [Ha [Hlo _]] H1. destruct w as [|c w]; simpl in *; [lia |].
  apply andb_true_iff in Ha as [Hc _]. exists c, (w +:+ b). by rewrite app_cons.
Qed.

Lemma app_one c x : String c "" +:+ x = String c x.
Proof. done. Qed.

Lemma digit_not_blank c : is_digit c = true → c ≠ " "%char.
Proof. intros H ->. done. Qed.

Ltac sep_step :=
  cbn [mbind option_bind expect];
  rewrite bool_decide_eq_true_2 by done;
  cbn [mbind option_bind].

Lemma day_digits_nonblank c r :
  c ≠ " "%char → day_digits (String c r) = digits 1 2 (String c r).
Proof. intros H. by destruct c as [[] [] [] [] [] [] [] []]. Qed.

(** The words of the whole pattern are laid out as the scanner of
  [lenient_format] expects. *)
Theorem lang_lenient s : lang format_regex s → lenient_format s = true.
Proof.
  unfold format_regex. intros H. inv_lang.
  repeat match goal with
  | Hl : lang re_Y _ |- _ => apply lang_Y in Hl
  | Hl : lang re_m _ |- _ => apply lang_m in Hl
  | Hl : lang re_d _ |- _ => apply lang_d in Hl
  | Hl : lang re_ws _ |- _ => apply lang_ws in Hl
  | Hl : lang re_H _ |- _ => apply lang_H in Hl
  | Hl : lang re_M _ |- _ => apply lang_M in Hl
  | Hl : lang re_S _ |- _ => apply lang_S in Hl
  | Hl : lang re_f _ |- _ => apply lang_f in Hl
  end.
  unfold lenient_format, scan. apply bool_decide_eq_true_2.
  rewrite !app_one.
  destruct (digits_word_head 1 2 u5 (String ":" (u7 +:+ String ":" (u9 +:+ String "." v0))))
    as (cH & rH & HeqH & HcH); [done | lia |].
  destruct H6 as [Hws Hlen].
  destruct u4 as [|c4 u4]; [simpl in Hlen; lia |].
  simpl in Hws. apply andb_true_iff in Hws as [Hc4 Hws].
  set (tl := String c4 u4 +:+ u5
               +:+ String ":" (u7 +:+ String ":" (u9 +:+ String "." v0))).
  assert (Hday : day_digits (u3 +:+ tl) = Some tl).
  { assert (Hnd : no_digit_head tl).
    { subst tl. rewrite app_cons. simpl. destruct (is_digit c4) eqn:E; [|done].
      apply digit_not_space in E. congruence. }
    destruct H5 as [Hd|(c & -> & Hc)].
    - destruct (digits_word_head 1 2 u3 "" Hd) as (c & r & Heq & Hc); [lia |].
      rewrite app_nil_r in Heq. subst u3. rewrite app_cons.
      rewrite day_digits_nonblank by by apply digit_not_blank.
      rewrite <- app_cons. by apply digits_app.
    - change (digits 1 1 (String c "" +:+ tl) = Some tl).
      apply digits_app; [|done]. split; [simpl; by rewrite Hc | simpl; lia]. }
  subst tl.
  cbn [foldl mbind option_bind].
  rewrite (digits_app 4 4 u) by done. sep_step.
  rewrite (digits_app 1 2 u1) by done. sep_step.
  rewrite Hday. cbn [mbind option_bind]. rewrite app_cons. cbn [spaces].
  rewrite Hc4. rewrite lstrip_app; [| done | by rewrite HeqH; apply digit_not_space].
  cbn [mbind option_bind].
  rewrite (digits_app 1 2 u5) by done. sep_step.
  rewrite (digits_app 1 2 u7) by done. sep_step.
  rewrite (digits_app 1 2 u9) by done. sep_step.
  rewrite <- (app_nil_r v0). by rewrite (digits_app 1 6 v0).
Qed.

End FormatFacts.

(** ** The timestamp normalizer *)

(** C7, as the specification states it, fails: a text that is not in the
    fixed layout [YYYY-MM-DD HH:MM:SS.ffffff] can be accepted.
    ["2021-3-4 10:15:30.5"] is not in that layout, and it is converted. *)
Lemma convert_to_iso8601_fixed_format_counterexample :
  ¬ (∀ s, Format.fixed_format s = false →
          is_ValueError (convert_to_iso8601 (CStr s))).
Proof.
  intros H. specialize (H "2021-3-4 10:15:30.5" eq_refl).
  vm_compute in H. exact H.
Qed.

(** C7, amended: the normalizer maps ["2021-03-04 10:15:30.500000"] to
    ["2021-03-04T10:15:30.500000"], and every text that is not in the
    layout [strptime] reads for the one format (four digits of year, one
    or two digits for month, day, hour, minute and second, white space
    between day and hour, one to six digits of fraction) fails with a
    [ValueError]; no other format is tried.  The fixed widths are not
    asked for: ["2021-3-4 10:15:30.5"] is not in the fixed layout and is
    mapped to ["2021-03-04T10:15:30.500000"] as well. *)
Theorem convert_to_iso8601_lenient_format (s : string) :
  Format.lenient_format s = false →
  is_ValueError (convert_to_iso8601 (CStr s))
  ∧ convert_to_iso8601 (CStr "2021-03-04 10:15:30.500000")
    = Ok "2021-03-04T10:15:30.500000"
  ∧ Format.fixed_format "2021-3-4 10:15:30.5" = false
  ∧ convert_to_iso8601 (CStr "2021-3-4 10:15:30.5")
    = Ok "2021-03-04T10:15:30.500000".
Proof.
  intros Hs. split; [|by vm_compute].
  unfold convert_to_iso8601, Datetime.strptime.
  destruct (Re.match_ Datetime.format_regex s) as [x|] eqn:E; [|done].
  apply ReFacts.match_sound in E as [Heq L].
  case_bool_decide as Hrest; [|done].
  rewrite Hrest, StrFacts.app_nil_r in Heq. subst s.
  apply FormatFacts.lang_lenient in L. congruence.
Qed.

Lemma convert_to_iso8601_lenient_format_witness :
  Format.lenient_format "04/03/2021" = false
  ∧ is_ValueError (convert_to_iso8601 (CStr "04/03/2021")).
Proof.
  split; [reflexivity |].
  apply (convert_to_iso8601_lenient_format "04/03/2021"). reflexivity.
Defined.

(** ** Substitution with the patterns of [clean_data] *)

Module SubFacts.
Import Re StrFacts.

Lemma length_take_while p s : String.length (Str.take_while p s) ≤ String.length s.
Proof. induction s as [|c s IH]; simpl; [done |]. destruct (p c); simpl; lia. Qed.

Lemma drop_take_while p s :
  Str.drop (String.length (Str.take_while p s)) s = Str.drop_while p s.
Proof.
  induction s as [|c s IH]; simpl; [done |]. by destruct (p c).
Qed.

Lemma drop_while_all p s : Str.all p s = true → Str.drop_while p s = "".
Proof.
  induction s as [|c s IH]; simpl; [done |].
  intros H. apply andb_true_iff in H as [-> H]. by apply IH.
Qed.

Lemma drop_drop n m s : Str.drop n (Str.drop m s) = Str.drop (m + n) s.
Proof.
  revert s. induction m as [|m IH]; intros s; [by rewrite drop_0' |].
  destruct s as [|c s]; simpl; [by destruct n | apply IH].
Qed.

(** The head of [runs] is the longest run. *)
Lemma runs_head p s :
  ∃ l, runs p s = (Str.take_while p s, Str.drop_while p s) :: l.
Proof.
  induction s as [|c s [l IH]]; simpl; [by eexists |].
  destruct (p c); [| by eexists]. rewrite IH. simpl. by eexists.
Qed.

Lemma runs_empty_head p s :
  match s with String c _ => p c = false | "" => True end →
  runs p s = [("", s)].
Proof. destruct s as [|c s]; simpl; [done |]. by intros ->. Qed.

(** [p+] at the front of [s]: the longest run, if it is not empty. *)
Lemma rmatch_plus p bol c s :
  p c = true →
  ∃ l, rmatch (Rep p 1 None) bol (String c s)
       = Found [] (String c (Str.take_while p s)) (Str.drop_while p s) :: l.
Proof.
  intros Hc. simpl. rewrite Hc. destruct (runs_head p s) as [l ->].
  simpl. by eexists.
Qed.

Lemma rmatch_plus_none p bol s :
  match s with String c _ => p c = false | "" => True end →
  rmatch (Rep p 1 None) bol s = [].
Proof. intros H. simpl. by rewrite runs_empty_head. Qed.

(** [p*] at the front of [s]: the longest run comes first. *)
Lemma rmatch_star p bol s :
  ∃ l, rmatch (Rep p 0 None) bol s
       = Found [] (Str.take_while p s) (Str.drop_while p s) :: l.
Proof.
  simpl. destruct (runs_head p s) as [l ->]. simpl. by eexists.
Qed.

(** A literal pattern matches where the subject starts with it. *)
Lemma rmatch_lit P bol s :
  rmatch (lit P) bol s
  = if Str.startswith P s then [Found [] P (Str.drop (String.length P) s)] else [].
Proof.
  revert bol s. induction P as [|c P IH]; intros bol s.
  - rewrite startswith_nil. simpl. rewrite runs_empty_head; [done |].
    by destruct s.
  - destruct s as [|a s].
    + destruct P; simpl; done.
    + rewrite startswith_cons.
      destruct P as [|d P].
      * rewrite startswith_nil, andb_true_r. simpl.
        rewrite (bool_decide_ext (a = c) (c = a)) by done.
        case_bool_decide; [by subst | done].
      * change (lit (String c (String d P))) with (Seq (Chr c) (lit (String d P))).
        cbn [rmatch]. rewrite (bool_decide_ext (a = c) (c = a)) by done.
        case_bool_decide; [subst | done].
        cbn [flat_map rest matched groups]. rewrite IH, List.app_nil_r.
        simpl andb. destruct (Str.startswith (String d P) s); [|done].
        reflexivity.
Qed.

(** Passing over the characters of a match. *)
Lemma sub_go_skip r repl k bol s :
  k ≤ String.length s → (k = 0 → bol = false) →
  sub_go r repl k bol s = sub_go r repl 0 false (Str.drop k s).
Proof.
  revert bol s. induction k as [|k IH]; intros bol s Hk Hb.
  - rewrite Hb by done. by rewrite drop_0'.
  - destruct s as [|c s]; simpl in Hk; [lia |].
    simpl. apply IH; [lia | done].
Qed.

Lemma filter_digit c s :
  is_digit c = true → Str.filter not_digit (String c s) = Str.filter not_digit s.
Proof. intros E. simpl. unfold not_digit at 1. by rewrite E. Qed.

Lemma filter_not_digit c s :
  is_digit c = false →
  Str.filter not_digit (String c s) = String c (Str.filter not_digit s).
Proof. intros E. simpl. unfold not_digit at 1. by rewrite E. Qed.

Lemma filter_drop_while s :
  Str.filter not_digit (Str.drop_while is_digit s) = Str.filter not_digit s.
Proof.
  induction s as [|c s IH]; [done |]. cbn [Str.drop_while].
  destruct (is_digit c) eqn:E; [by rewrite filter_digit | done].
Qed.

Lemma length_drop_while p s :
  String.length (Str.drop_while p s) ≤ String.length s.
Proof. induction s as [|c s IH]; simpl; [done |]. destruct (p c); simpl; lia. Qed.

Lemma sub_go_digits n s bol :
  String.length s ≤ n →
  sub_go digits_pattern "" 0 bol s = Str.filter not_digit s.
Proof.
  unfold digits_pattern. revert s bol.
  induction n as [|n IH]; intros s bol Hn.
  - destruct s; [|simpl in Hn; lia]. cbn [sub_go].
    by rewrite rmatch_plus_none.
  - destruct s as [|c s]; [cbn [sub_go]; by rewrite rmatch_plus_none |].
    simpl in Hn. cbn [sub_go]. destruct (is_digit c) eqn:E.
    + destruct (rmatch_plus is_digit bol c s E) as [l ->].
      cbn [matched String.length]. rewrite app_nil_l.
      rewrite sub_go_skip by (done || apply length_take_while).
      rewrite drop_take_while.
      rewrite IH by (pose proof (length_drop_while is_digit s); lia).
      rewrite filter_drop_while. by rewrite filter_digit.
    + rewrite rmatch_plus_none by done. rewrite IH by lia.
      by rewrite filter_not_digit.
Qed.

(** [re.sub(r"\d+", "", s)] keeps the characters that are not digits,
  in their order. *)
Theorem sub_digits s : Re.sub digits_pattern "" s = Str.filter not_digit s.
Proof. by apply (sub_go_digits (String.length s)). Qed.

(** [re.sub] with a literal pattern is [str.replace]. *)
Lemma sub_go_lit P repl k bol s :
  P ≠ "" → sub_go (lit P) repl k bol s = Str.replace_go P repl k s.
Proof.
  intros HP. revert k bol. induction s as [|c s IH]; intros k bol.
  - destruct k; cbn [sub_go]; [|done]. rewrite rmatch_lit.
    destruct P; [done | done].
  - destruct k as [|k]; [|cbn [sub_go Str.replace_go]; apply IH].
    cbn [sub_go Str.replace_go]. rewrite rmatch_lit.
    destruct (Str.startswith P (String c s)).
    + cbn [matched]. destruct P as [|d P]; [done |]. cbn [String.length].
      replace (S (String.length P) - 1) with (String.length P) by lia.
      by rewrite IH.
    + by rewrite IH.
Qed.

Theorem sub_lit P repl s :
  P ≠ "" → Re.sub (lit P) repl s = Str.replace P repl s.
Proof. apply sub_go_lit. Qed.

Lemma rmatch_seq a b bol s :
  rmatch (Seq a b) bol s
  = flat_map (λ x,
      map (λ y, Found (groups x ++ groups y) (matched x +:+ matched y) (rest y))
          (rmatch b (bol && bool_decide (matched x = "")) (rest x)))
      (rmatch a bol s).
Proof. done. Qed.

Lemma rmatch_anchored_later P p s : rmatch (anchored P p) false s = [].
Proof. done. Qed.

Lemma rmatch_anchored_miss P p s :
  Str.startswith P s = false → rmatch (anchored P p) true s = [].
Proof.
  intros H. unfold anchored. rewrite rmatch_seq.
  change (rmatch Bol true s) with [Found [] "" s]. cbn [flat_map rest matched groups].
  rewrite rmatch_seq, rmatch_lit, H. done.
Qed.

Lemma rmatch_anchored_hit P p s :
  Str.startswith P s = true →
  ∃ l, rmatch (anchored P p) true s
       = Found [] (P +:+ Str.take_while p (Str.drop (String.length P) s))
               (Str.drop_while p (Str.drop (String.length P) s)) :: l.
Proof.
  intros H. unfold anchored. rewrite rmatch_seq.
  change (rmatch Bol true s) with [Found [] "" s]. cbn [flat_map rest matched groups].
  rewrite rmatch_seq, rmatch_lit, H. cbn [flat_map rest matched groups].
  destruct (rmatch_star p (true && bool_decide ("" = "") && bool_decide (P = ""))
              (Str.drop (String.length P) s)) as [l ->].
  cbn [map app groups matched rest]. rewrite app_nil_l. by eexists.
Qed.

Lemma sub_go_anchored_later P p repl s :
  sub_go (anchored P p) repl 0 false s = s.
Proof.
  induction s as [|c s IH]; cbn [sub_go]; rewrite rmatch_anchored_later; [done |].
  by rewrite IH.
Qed.

Theorem sub_anchored P p repl s :
  P ≠ "" →
  Re.sub (anchored P p) repl s
  = if Str.startswith P s
    then repl +:+ Str.drop_while p (Str.drop (String.length P) s)
    else s.
Proof.
  intros HP. unfold Re.sub. destruct (Str.startswith P s) eqn:H.
  - destruct (rmatch_anchored_hit P p s H) as [l Hl].
    pose proof (startswith_split P s H) as Hs.
    destruct s as [|c t].
    { destruct P; [done | discriminate H]. }
    cbn [sub_go]. rewrite Hl. cbn [matched]. rewrite length_app.
    destruct P as [|d P]; [done |]. cbn [String.length Nat.add].
    set (w := Str.take_while p (Str.drop (S (String.length P)) (String c t))).
    f_equal. rewrite sub_go_skip.
    + rewrite sub_go_anchored_later. subst w.
      rewrite <- drop_take_while. rewrite drop_drop. done.
    + subst w. pose proof (length_take_while p (Str.drop (String.length P) t)).
      pose proof (length_drop (String.length P) t).
      apply (f_equal String.length) in Hs.
      rewrite length_app in Hs. simpl in Hs. simpl. lia.
    + done.
  - destruct s as [|c t]; cbn [sub_go]; rewrite rmatch_anchored_miss by done;
      [done |]. by rewrite sub_go_anchored_later.
Qed.

End SubFacts.

(** ** [str.replace] and its repetition *)

Module ReplaceFacts.
Import StrFacts.

Lemma replace_go_skip P r k s :
  k ≤ String.length s →
  Str.replace_go P r k s = Str.replace_go P r 0 (Str.drop k s).
Proof.
  revert s. induction k as [|k IH]; intros s Hk; [by rewrite drop_0' |].
  destruct s as [|c s]; simpl in Hk; [lia |]. simpl. apply IH. lia.
Qed.

Lemma replace_absent P r s :
  Str.contains P s = false → Str.replace P r s = s.
Proof.
  unfold Str.replace. induction s as [|c s IH]; [done |].
  cbn [Str.contains Str.replace_go]. intros H.
  apply orb_false_iff in H as [-> H]. by rewrite IH.
Qed.

Lemma length_replace_go P k s :
  String.length (Str.replace_go P "" k s) ≤ String.length s.
Proof.
  revert k. induction s as [|c s IH]; intros k; [done |].
  cbn [Str.replace_go]. destruct k as [|k].
  - destruct (Str.startswith P (String c s)).
    + rewrite app_nil_l. specialize (IH (String.length P - 1)). simpl. lia.
    + specialize (IH 0). simpl. lia.
  - specialize (IH k). simpl. lia.
Qed.

Lemma replace_present P s :
  P ≠ "" → Str.contains P s = true →
  String.length (Str.replace P "" s) < String.length s.
Proof.
  intros HP. unfold Str.replace. induction s as [|c s IH].
  - cbn [Str.contains]. destruct P; [done | discriminate].
  - cbn [Str.contains Str.replace_go]. intros H.
    destruct (Str.startswith P (String c s)).
    + rewrite app_nil_l.
      pose proof (length_replace_go P (String.length P - 1) s). simpl. lia.
    + simpl in H. apply IH in H. simpl. lia.
Qed.

(** A second replacement changes nothing exactly when the first left
  no occurrence behind. *)
Theorem replace_twice P s :
  P ≠ "" →
  Str.replace P "" (Str.replace P "" s) = Str.replace P "" s
  ↔ Str.contains P (Str.replace P "" s) = false.
Proof.
  intros HP. split.
  - intros Heq. destruct (Str.contains P (Str.replace P "" s)) eqn:E; [|done].
    apply replace_present in E; [|done]. rewrite Heq in E. lia.
  - apply replace_absent.
Qed.

Lemma contains_head c P s :
  Str.contains (String c P) s = true → Str.contains (String c "") s = true.
Proof.
  induction s as [|a s IH]; [done |]. cbn [Str.contains].
  rewrite !startswith_cons, startswith_nil, andb_true_r.
  intros H. apply orb_true_iff in H as [H|H].
  - apply andb_true_iff in H as [-> _]. done.
  - rewrite IH by done. by rewrite orb_true_r.
Qed.

Lemma replace_prefixed c P t :
  Str.contains (String c "") t = false →
  Str.replace (String c P) "" (String c P +:+ t) = t
  ∧ Str.replace (String c P) "" t = t.
Proof.
  intros Ht.
  assert (Habs : Str.contains (String c P) t = false).
  { destruct (Str.contains (String c P) t) eqn:E; [|done].
    apply contains_head in E. congruence. }
  split; [|by apply replace_absent].
  unfold Str.replace. rewrite app_cons. cbn [Str.replace_go].
  rewrite <- app_cons, startswith_app, app_nil_l.
  rewrite replace_go_skip.
  - cbn [String.length]. replace (S (String.length P) - 1) with (String.length P) by lia.
    rewrite drop_app. by apply replace_absent.
  - rewrite length_app. simpl. lia.
Qed.

End ReplaceFacts.

(** ** Columns of a data frame *)

Module PdFacts.

Local Abbreviation wf := frame_wf.

Lemma index_of_lt name cols i : Pd.index_of name cols = Some i → i < length cols.
Proof.
  revert i. induction cols as [|c cols IH]; intros i; [done |]. simpl.
  case_bool_decide; [intros [= <-]; lia |].
  destruct (Pd.index_of name cols) as [j|]; [|done].
  intros [= <-]. specialize (IH j eq_refl). lia.
Qed.

Lemma index_of_nth name cols i :
  Pd.index_of name cols = Some i → cols !! i = Some name.
Proof.
  revert i. induction cols as [|c cols IH]; intros i; [done |]. simpl.
  case_bool_decide; [by intros [= <-]; subst |].
  destruct (Pd.index_of name cols) as [j|]; [|done].
  intros [= <-]. by apply IH.
Qed.

Lemma index_of_app_new name cols :
  Pd.index_of name cols = None → Pd.index_of name (cols ++ [name]) = Some (length cols).
Proof.
  induction cols as [|c cols IH]; simpl.
  - by rewrite bool_decide_eq_true_2.
  - case_bool_decide; [done |].
    destruct (Pd.index_of name cols) as [j|]; [done |]. intros _. by rewrite IH.
Qed.

Lemma index_of_app_other m name cols :
  m ≠ name → Pd.index_of m (cols ++ [name]) = Pd.index_of m cols.
Proof.
  intros Hne. induction cols as [|c cols IH]; simpl.
  - by rewrite bool_decide_eq_false_2.
  - case_bool_decide; [done |]. by rewrite IH.
Qed.

Lemma length_getitem data name col :
  Pd.getitem data name = Ok col → length col = length (rows data).
Proof.
  unfold Pd.getitem. destruct (Pd.index_of name (columns data)); [|done].
  intros [= <-]. apply length_map.
Qed.

Lemma length_apply f col col' : Pd.apply f col = Ok col' → length col' = length col.
Proof.
  revert col'. induction col as [|v vs IH]; intros col'; simpl; [by intros [= <-] |].
  destruct (f v); [|done]. simpl. destruct (Pd.apply f vs); [|done]. simpl.
  intros [= <-]. simpl. by rewrite (IH _ eq_refl).
Qed.

Lemma rows_setitem data name vals :
  length vals = length (rows data) →
  length (rows (Pd.setitem data name vals)) = length (rows data).
Proof.
  intros H. unfold Pd.setitem.
  destruct (Pd.index_of name (columns data)); simpl; rewrite length_zip_with; lia.
Qed.

Lemma wf_setitem data name vals :
  wf data → length vals = length (rows data) → wf (Pd.setitem data name vals).
Proof.
  unfold frame_wf, Pd.setitem. intros Hwf Hlen.
  destruct (Pd.index_of name (columns data)) as [i|]; simpl.
  - revert vals Hlen. induction Hwf as [|r rs Hr Hrs IH]; intros vals Hlen; [done |].
    destruct vals as [|v vals]; [done |]. simpl. constructor.
    + by rewrite length_insert.
    + apply IH. simpl in Hlen. lia.
  - revert vals Hlen. induction Hwf as [|r rs Hr Hrs IH]; intros vals Hlen; [done |].
    destruct vals as [|v vals]; [done |]. simpl. constructor.
    + rewrite !length_app. simpl. lia.
    + apply IH. simpl in Hlen. lia.
Qed.

Lemma getitem_setitem data name vals :
  wf data → length vals = length (rows data) →
  Pd.getitem (Pd.setitem data name vals) name = Ok vals.
Proof.
  unfold frame_wf, Pd.getitem, Pd.setitem. intros Hwf Hlen.
  destruct (Pd.index_of name (columns data)) as [i|] eqn:Hi; simpl.
  - rewrite Hi. f_equal. apply index_of_lt in Hi.
    revert vals Hlen. induction Hwf as [|r rs Hr Hrs IH]; intros vals Hlen.
    + by destruct vals.
    + destruct vals as [|v vals]; [done |]. simpl. f_equal.
      * apply nth_lookup_Some. apply list_lookup_insert_eq. lia.
      * apply IH. simpl in Hlen. lia.
  - rewrite index_of_app_new by done. f_equal.
    revert vals Hlen. induction Hwf as [|r rs Hr Hrs IH]; intros vals Hlen.
    + by destruct vals.
    + destruct vals as [|v vals]; [done |]. simpl. f_equal.
      * rewrite <- Hr. by rewrite nth_middle.
      * apply IH. simpl in Hlen. lia.
Qed.

Lemma getitem_setitem_ne data name vals m :
  wf data → length vals = length (rows data) → m ≠ name →
  Pd.getitem (Pd.setitem data name vals) m = Pd.getitem data m.
Proof.
  unfold frame_wf, Pd.getitem, Pd.setitem. intros Hwf Hlen Hne.
  destruct (Pd.index_of name (columns data)) as [i|] eqn:Hi; simpl.
  - destruct (Pd.index_of m (columns data)) as [j|] eqn:Hj; [|done]. f_equal.
    assert (Hij : i ≠ j).
    { intros ->. apply index_of_nth in Hi, Hj. congruence. }
    clear Hi Hj. revert vals Hlen.
    induction Hwf as [|r rs Hr Hrs IH]; intros vals Hlen; [by destruct vals |].
    destruct vals as [|v vals]; [done |]. simpl. f_equal.
    + destruct (decide (j < length r)) as [Hlt|Hge].
      * destruct (lookup_lt_is_Some_2 r j Hlt) as [x Hx].
        rewrite (nth_lookup_Some _ _ _ x Hx).
        apply nth_lookup_Some. by rewrite list_lookup_insert_ne.
      * rewrite !nth_overflow; [done | lia | rewrite length_insert; lia].
    + apply IH. simpl in Hlen. lia.
  - rewrite index_of_app_other by done.
    destruct (Pd.index_of m (columns data)) as [j|] eqn:Hj; [|done]. f_equal.
    apply index_of_lt in Hj. clear Hi. revert vals Hlen.
    induction Hwf as [|r rs Hr Hrs IH]; intros vals Hlen; [by destruct vals |].
    destruct vals as [|v vals]; [done |]. simpl. f_equal.
    + apply app_nth1. lia.
    + apply IH. simpl in Hlen. lia.
Qed.

End PdFacts.

(** ** The columns of a cleaned data set *)

Section clean_frame_facts.
Import PdFacts.
Local Abbreviation wf := frame_wf.

(** What a successful clean leaves in the columns. *)
Theorem clean_frame_columns data data' :
  wf data → clean_frame data = Ok data' →
  ∃ ts ts' unit quality reg prop,
    Pd.getitem data "data_rilevazione" = Ok ts
    ∧ Pd.apply iso_cell ts = Ok ts'
    ∧ Pd.getitem data "unit" = Ok unit
    ∧ Pd.getitem data "quality" = Ok quality
    ∧ Pd.getitem data "register_name" = Ok reg
    ∧ Pd.apply remove_numbers reg = Ok prop
    ∧ Pd.getitem data' "data_rilevazione" = Ok ts'
    ∧ Pd.getitem data' "unit" = Ok (clean_unit unit)
    ∧ Pd.getitem data' "quality" = Ok (clean_quality quality)
    ∧ Pd.getitem data' "property" = Ok (Pd.str_replace current_pattern "Current" prop)
    ∧ length (rows data') = length (rows data).
Proof.
  intros Hwf H. unfold clean_frame in H.
  destruct (Pd.getitem data "data_rilevazione") as [ts|] eqn:Hts; [|done].
  cbn [res_bind] in H.
  destruct (Pd.apply iso_cell ts) as [ts'|] eqn:Hts'; [|done].
  cbn [res_bind] in H. cbv zeta in H.
  pose proof (length_getitem _ _ _ Hts) as Lts.
  pose proof (length_apply _ _ _ Hts') as Lts'.
  set (d1 := Pd.setitem data "data_rilevazione" ts') in *.
  assert (W1 : wf d1) by (apply wf_setitem; [done | lia]).
  assert (R1 : length (rows d1) = length (rows data)) by (apply rows_setitem; lia).
  destruct (Pd.getitem d1 "unit") as [unit|] eqn:Hu; [|done].
  cbn [res_bind] in H.
  pose proof (length_getitem _ _ _ Hu) as Lu.
  set (d2 := Pd.setitem d1 "unit" (clean_unit unit)) in *.
  assert (Lcu : length (clean_unit unit) = length (rows d1)).
  { unfold clean_unit, Pd.replace. by rewrite length_map. }
  assert (W2 : wf d2) by by apply wf_setitem.
  assert (R2 : length (rows d2) = length (rows d1)) by by apply rows_setitem.
  destruct (Pd.getitem d2 "quality") as [quality|] eqn:Hq; [|done].
  cbn [res_bind] in H.
  pose proof (length_getitem _ _ _ Hq) as Lq.
  set (d3 := Pd.setitem d2 "quality" (clean_quality quality)) in *.
  assert (Lcq : length (clean_quality quality) = length (rows d2)).
  { unfold clean_quality, Pd.replace_regex. by rewrite length_map. }
  assert (W3 : wf d3) by by apply wf_setitem.
  assert (R3 : length (rows d3) = length (rows d2)) by by apply rows_setitem.
  destruct (Pd.getitem d3 "register_name") as [reg|] eqn:Hr; [|done].
  cbn [res_bind] in H.
  destruct (Pd.apply remove_numbers reg) as [prop|] eqn:Hp; [|done].
  cbn [res_bind] in H.
  pose proof (length_getitem _ _ _ Hr) as Lr.
  pose proof (length_apply _ _ _ Hp) as Lp.
  set (d4 := Pd.setitem d3 "property" prop) in *.
  assert (W4 : wf d4) by (apply wf_setitem; [done | lia]).
  assert (R4 : length (rows d4) = length (rows d3)) by (apply rows_setitem; lia).
  assert (H4 : Pd.getitem d4 "property" = Ok prop)
    by (apply getitem_setitem; [done | lia]).
  rewrite H4 in H. cbn [res_bind] in H.
  set (prop' := Pd.str_replace current_pattern "Current" prop) in *.
  assert (Lp' : length prop' = length (rows d4)).
  { unfold prop', Pd.str_replace. rewrite length_map. lia. }
  set (d5 := Pd.setitem d4 "property" prop') in *.
  assert (H5 : Pd.getitem d5 "property" = Ok prop') by by apply getitem_setitem.
  rewrite H5 in H. cbn [res_bind] in H. injection H as <-.
  exists ts, ts', unit, quality, reg, prop.
  assert (Hu0 : Pd.getitem data "unit" = Ok unit).
  { rewrite <- Hu. symmetry. apply getitem_setitem_ne; [done | lia | done]. }
  assert (Hq0 : Pd.getitem data "quality" = Ok quality).
  { rewrite <- Hq. unfold d2. rewrite getitem_setitem_ne by done.
    symmetry. apply getitem_setitem_ne; [done | lia | done]. }
  assert (Hr0 : Pd.getitem data "register_name" = Ok reg).
  { rewrite <- Hr. unfold d3. rewrite getitem_setitem_ne by done.
    unfold d2. rewrite getitem_setitem_ne by done.
    symmetry. apply getitem_setitem_ne; [done | lia | done]. }
  repeat split; try done.
  - unfold d5. rewrite getitem_setitem_ne by done.
    unfold d4. rewrite getitem_setitem_ne by (done || lia).
    unfold d3. rewrite getitem_setitem_ne by done.
    unfold d2. rewrite getitem_setitem_ne by done.
    apply getitem_setitem; [done | lia].
  - unfold d5. rewrite getitem_setitem_ne by done.
    unfold d4. rewrite getitem_setitem_ne by (done || lia).
    unfold d3. rewrite getitem_setitem_ne by done.
    by apply getitem_setitem.
  - unfold d5. rewrite getitem_setitem_ne by done.
    unfold d4. rewrite getitem_setitem_ne by (done || lia).
    by apply getitem_setitem.
  - unfold d5. rewrite rows_setitem by done. lia.
Qed.

End clean_frame_facts.

(** ** The digit-stripping normalizer and the property column *)

Lemma remove_numbers_filter s :
  remove_numbers (CStr s) = Ok (CStr (Str.filter Re.not_digit s)).
Proof. unfold remove_numbers. by rewrite SubFacts.sub_digits. Qed.

Lemma sub_current p :
  Re.sub current_pattern "Current" p
  = if Str.startswith "Current" p then "Current" +:+ Str.drop_while Re.dot p else p.
Proof.
  change current_pattern with (Re.anchored "Current" Re.dot).
  rewrite SubFacts.sub_anchored by done.
  destruct (Str.startswith "Current" p) eqn:Hp; [|done].
  rewrite (StrFacts.startswith_split _ _ Hp) at 2. reflexivity.
Qed.

Lemma all_filter p q s : Str.all p s = true → Str.all p (Str.filter q s) = true.
Proof.
  induction s as [|c s IH]; [done |]. simpl. intros H.
  apply andb_true_iff in H as [Hc Hs]. destruct (q c); simpl; [|by apply IH].
  by rewrite Hc, IH.
Qed.

Lemma property_of_one_line s :
  Str.startswith "Current" (Str.filter Re.not_digit s) = true →
  Str.all Re.dot s = true → property_of s = "Current".
Proof.
  intros Hp Hall. unfold property_of. rewrite Hp.
  by rewrite SubFacts.drop_while_all by by apply all_filter.
Qed.

(** The property column, cell by cell. *)
Lemma property_cells reg prop i v :
  Pd.apply remove_numbers reg = Ok prop →
  reg !! i = Some v →
  ∃ s, v = CStr s
       ∧ Pd.str_replace current_pattern "Current" prop !! i = Some (CStr (property_of s)).
Proof.
  revert prop i. induction reg as [|u reg IH]; intros prop i Happly Hv; [done |].
  cbn [Pd.apply] in Happly.
  destruct (remove_numbers u) as [u'|] eqn:Hu; [|done]. cbn [res_bind] in Happly.
  destruct (Pd.apply remove_numbers reg) as [prop'|] eqn:Hp; [|done].
  cbn [res_bind] in Happly. injection Happly as <-.
  destruct i as [|i].
  - injection Hv as ->. destruct v as [s| |]; [|done..].
    exists s. split; [done |]. rewrite remove_numbers_filter in Hu.
    injection Hu as <-. unfold Pd.str_replace. cbn [map lookup list_lookup].
    by rewrite sub_current.
  - destruct (IH prop' i eq_refl Hv) as (s & -> & Hs). exists s. by split.
Qed.

(** C8, as the specification states it, fails in its second half: a
    value that begins with [Current] after the digits are gone is not
    always collapsed to [Current].  [.] stops at a line break, so the
    register name ["Current1" + "\n" + "A"] gives the property
    ["Current" + "\n" + "A"]. *)
Lemma remove_numbers_property_counterexample :
  ¬ (∀ data data' reg prop i s,
       frame_wf data → clean_frame data = Ok data' →
       Pd.getitem data "register_name" = Ok reg →
       Pd.getitem data' "property" = Ok prop →
       reg !! i = Some (CStr s) →
       Str.startswith "Current" (Str.filter Re.not_digit s) = true →
       prop !! i = Some (CStr "Current")).
Proof.
  intros H.
  set (name := "Current1" +:+ String Re.newline "A").
  set (data := sample_data "2021-03-04 10:15:30.500000" "-" name).
  destruct (clean_frame data) as [data'|] eqn:Hclean; [|by vm_compute in Hclean].
  specialize (H data data' [CStr name]
                [CStr ("Current" +:+ String Re.newline "A")] 0 name).
  assert (Hno : [CStr ("Current" +:+ String Re.newline "A")] !! 0
                ≠ Some (CStr "Current")) by (vm_compute; discriminate).
  apply Hno, H.
  - by repeat constructor.
  - exact Hclean.
  - reflexivity.
  - vm_compute in Hclean. injection Hclean as <-. reflexivity.
  - reflexivity.
  - reflexivity.
Qed.

(** C8, amended: for every string the digit-stripping normalizer removes
    every digit and leaves the other characters in their order (so
    ["Current123A"] maps to ["CurrentA"]); and in the property column of
    a cleaned data set, every register name is a text, and the value
    derived from one that begins with [Current] after digit-stripping is
    [Current] followed by what stands from the first line break on:
    exactly [Current] when the register name has no line break. *)
Theorem remove_numbers_property data data' :
  frame_wf data → clean_frame data = Ok data' →
  (∀ s, remove_numbers (CStr s) = Ok (CStr (Str.filter Re.not_digit s)))
  ∧ remove_numbers (CStr "Current123A") = Ok (CStr "CurrentA")
  ∧ ∃ reg prop,
      Pd.getitem data "register_name" = Ok reg
      ∧ Pd.getitem data' "property" = Ok prop
      ∧ ∀ i v, reg !! i = Some v →
          ∃ s, v = CStr s
               ∧ prop !! i = Some (CStr (property_of s))
               ∧ (Str.startswith "Current" (Str.filter Re.not_digit s) = true →
                  property_of s
                  = "Current" +:+ Str.drop_while Re.dot (Str.filter Re.not_digit s))
               ∧ (Str.startswith "Current" (Str.filter Re.not_digit s) = true →
                  Str.all Re.dot s = true → property_of s = "Current").
Proof.
  intros Hwf Hclean.
  split; [apply remove_numbers_filter |]. split; [by vm_compute |].
  destruct (clean_frame_columns data data' Hwf Hclean)
    as (ts & ts' & unit & quality & reg & prop & _ & _ & _ & _ & Hreg & Happly
        & _ & _ & _ & Hprop & _).
  exists reg, (Pd.str_replace current_pattern "Current" prop).
  split; [done |]. split; [done |].
  intros i v Hv. destruct (property_cells reg prop i v Happly Hv) as (s & -> & Hs).
  exists s. split; [done |]. split; [done |]. split.
  - intros Hp. unfold property_of. by rewrite Hp.
  - apply property_of_one_line.
Qed.

Lemma remove_numbers_property_witness :
  ∃ data' prop,
    clean_frame (sample_data "2021-03-04 10:15:30.500000" "-" "Current12 L3") = Ok data'
    ∧ Pd.getitem data' "property" = Ok prop
    ∧ prop !! 0 = Some (CStr "Current").
Proof.
  set (data := sample_data "2021-03-04 10:15:30.500000" "-" "Current12 L3").
  destruct (clean_frame data) as [data'|] eqn:Hclean; [|by vm_compute in Hclean].
  destruct (remove_numbers_property data data') as (_ & _ & reg & prop & Hreg & Hprop & Hcells).
  - by repeat constructor.
  - exact Hclean.
  - exists data', prop. split; [reflexivity |]. split; [exact Hprop |].
    destruct (Hcells 0 (CStr "Current12 L3")) as (s & Hs & Hp & _ & Hone).
    + vm_compute in Hreg. injection Hreg as <-. reflexivity.
    + injection Hs as <-. rewrite Hp, Hone; reflexivity.
Defined.

(** ** Cleaning twice *)

Lemma quality_prefix_nonempty : quality_prefix ≠ "".
Proof. done. Qed.

Lemma sub_quality s :
  Re.sub quality_pattern "" s = Str.replace quality_prefix "" s.
Proof. apply SubFacts.sub_lit, quality_prefix_nonempty. Qed.

Lemma clean_unit_twice unit : clean_unit (clean_unit unit) = clean_unit unit.
Proof.
  unfold clean_unit, Pd.replace. rewrite map_map. apply map_ext. intros v.
  destruct (decide (v = CStr "-")) as [->|Hne]; [done |].
  rewrite (bool_decide_eq_false_2 (v = CStr "-")) by done.
  by rewrite bool_decide_eq_false_2.
Qed.

Lemma quality_cell_twice (v : cell) :
  Pd.re_replacer quality_pattern "" (Pd.re_replacer quality_pattern "" v)
  = Pd.re_replacer quality_pattern "" v
  ↔ prefix_free (Pd.re_replacer quality_pattern "" v) = true.
Proof.
  destruct v as [s| |]; [|done..]. unfold Pd.re_replacer, prefix_free.
  rewrite !sub_quality.
  rewrite negb_true_iff, <- ReplaceFacts.replace_twice by apply quality_prefix_nonempty.
  split; [by intros [= ->] | by intros ->].
Qed.

Lemma clean_quality_twice quality :
  clean_quality (clean_quality quality) = clean_quality quality
  ↔ forallb prefix_free (clean_quality quality) = true.
Proof.
  unfold clean_quality, Pd.replace_regex.
  induction quality as [|v l IH]; [done |].
  cbn [map forallb]. rewrite andb_true_iff, <- IH, <- quality_cell_twice.
  split; [intros [= H1 H2]; by rewrite H1, H2 | intros [H1 H2]; by rewrite H1, H2].
Qed.

Lemma no_Q_no_prefix s :
  Str.contains "Q" s = false → Str.contains quality_prefix s = false.
Proof.
  intros H. destruct (Str.contains quality_prefix s) eqn:E; [|done].
  assert (Hq : quality_prefix
               = String "Q" ("ualit" +:+ String "224" " della misura: ")) by done.
  rewrite Hq in E. apply ReplaceFacts.contains_head in E. congruence.
Qed.

Lemma plain_quality_settled v :
  plain_quality v = true → prefix_free (Pd.re_replacer quality_pattern "" v) = true.
Proof.
  destruct v as [s| |]; [|done..]. unfold plain_quality, Pd.re_replacer, prefix_free.
  rewrite sub_quality, negb_true_iff.
  intros H. apply orb_true_iff in H as [H|H].
  - apply negb_true_iff in H. rewrite ReplaceFacts.replace_absent
      by by apply no_Q_no_prefix.
    by apply no_Q_no_prefix.
  - apply andb_true_iff in H as [Hp Ht]. apply negb_true_iff in Ht.
    rewrite (StrFacts.startswith_split _ _ Hp).
    set (t := Str.drop (String.length quality_prefix) s) in *.
    assert (Hq : quality_prefix
                 = String "Q" ("ualit" +:+ String "224" " della misura: ")) by done.
    rewrite Hq. rewrite (proj1 (ReplaceFacts.replace_prefixed "Q" _ t Ht)).
    rewrite <- Hq. by apply no_Q_no_prefix.
Qed.

(** C9, as the specification states it, fails on the quality column:
    removing the prefix can bring the two halves of another prefix
    together.  The quality ["Q" + prefix + "ualità della misura: "] is
    cleaned to the prefix itself, which a second run removes. *)
Lemma clean_quality_idempotent_counterexample :
  ¬ (∀ data data' quality,
       frame_wf data → clean_frame data = Ok data' →
       Pd.getitem data' "quality" = Ok quality →
       clean_quality quality = quality).
Proof.
  intros H.
  set (q := "Q" +:+ quality_prefix +:+ "ualit" +:+ String "224" " della misura: ").
  set (data := sample_data "2021-03-04 10:15:30.500000" q "I1").
  destruct (clean_frame data) as [data'|] eqn:Hclean; [|by vm_compute in Hclean].
  specialize (H data data' [CStr quality_prefix]).
  assert (Hno : clean_quality [CStr quality_prefix] ≠ [CStr quality_prefix])
    by (vm_compute; discriminate).
  apply Hno, H.
  - by repeat constructor.
  - exact Hclean.
  - vm_compute in Hclean. injection Hclean as <-. reflexivity.
Qed.

(** C9, amended: in the output of a successful clean, running the unit
    transformation a second time leaves the unit column unchanged, and
    running the quality transformation a second time leaves the quality
    column unchanged exactly when none of its values still contains the
    prefix.  That is the case when every quality value of the source is
    the prefix followed by a text without the letter [Q], or such a
    text alone. *)
Theorem clean_unit_quality_twice data data' :
  frame_wf data → clean_frame data = Ok data' →
  ∃ source unit quality,
    Pd.getitem data "quality" = Ok source
    ∧ Pd.getitem data' "unit" = Ok unit
    ∧ Pd.getitem data' "quality" = Ok quality
    ∧ clean_unit unit = unit
    ∧ (clean_quality quality = quality ↔ forallb prefix_free quality = true)
    ∧ (forallb plain_quality source = true → clean_quality quality = quality).
Proof.
  intros Hwf Hclean.
  destruct (clean_frame_columns data data' Hwf Hclean)
    as (ts & ts' & unit & quality & reg & prop & _ & _ & _ & Hq & _ & _
        & _ & Hunit' & Hquality' & _ & _).
  exists quality, (clean_unit unit), (clean_quality quality).
  split; [done |]. split; [done |]. split; [done |].
  split; [apply clean_unit_twice |]. split; [apply clean_quality_twice |].
  intros Hplain. apply clean_quality_twice.
  clear -Hplain. unfold clean_quality, Pd.replace_regex.
  induction quality as [|v l IH]; [done |].
  cbn [forallb map] in *. apply andb_true_iff in Hplain as [Hv Hl].
  by rewrite plain_quality_settled, IH.
Qed.

Lemma clean_unit_quality_twice_witness :
  ∃ data' unit quality,
    clean_frame (sample_frame "2021-03-04 10:15:30.500000") = Ok data'
    ∧ Pd.getitem data' "unit" = Ok unit
    ∧ Pd.getitem data' "quality" = Ok quality
    ∧ clean_unit unit = unit
    ∧ clean_quality quality = quality.
Proof.
  set (data := sample_frame "2021-03-04 10:15:30.500000").
  destruct (clean_frame data) as [data'|] eqn:Hclean; [|by vm_compute in Hclean].
  destruct (clean_unit_quality_twice data data')
    as (source & unit & quality & Hsource & Hunit & Hquality & Hu & _ & Hq).
  - by repeat constructor.
  - exact Hclean.
  - exists data', unit, quality. split; [reflexivity |].
    split; [exact Hunit |]. split; [exact Hquality |]. split; [exact Hu |].
    apply Hq. vm_compute in Hsource. injection Hsource as <-. reflexivity.
Defined.

(** ** Computations in the world *)

Module MFacts.

Lemma bind_ok {A B} (m : M A) (k : A → M B) w a w' :
  m w = (Ok a, w') → bind m k w = k a w'.
Proof. unfold bind. by intros ->. Qed.

Lemma bind_raise {A B} (m : M A) (k : A → M B) w e w' :
  m w = (Raise e, w') → bind m k w = (Raise e, w').
Proof. unfold bind. by intros ->. Qed.

Lemma bind_assoc {A B C} (m : M A) (k : A → M B) (h : B → M C) w :
  bind (bind m k) h w = bind m (λ a, bind (k a) h) w.
Proof. unfold bind. by destruct (m w) as [[a|e] w']. Qed.

Lemma bind_ext {A B} (m : M A) (k1 k2 : A → M B) w :
  (∀ a w1, k1 a w1 = k2 a w1) → bind m k1 w = bind m k2 w.
Proof. intros H. unfold bind. by destruct (m w) as [[a|e] w']. Qed.

Lemma bind_ret_l {A B} (a : A) (k : A → M B) w : bind (ret a) k w = k a w.
Proof. done. Qed.

Lemma bind_ret_r (m : M unit) w : bind m (λ _, ret ()) w = m w.
Proof. unfold bind, ret. by destruct (m w) as [[[]|e] w']. Qed.

Lemma add_log_app w l1 l2 : add_log (add_log w l1) l2 = add_log w (l1 ++ l2).
Proof. unfold add_log. simpl. by rewrite <- List.app_assoc. Qed.

(** A loop whose body keeps an invariant, indexed by the position. *)
Lemma for_invariant {A} (I : nat → world → Prop) (l : list A) (body : A → M unit) w :
  I 0 w →
  (∀ k x w1, l !! k = Some x → I k w1 →
             ∃ w2, body x w1 = (Ok (), w2) ∧ I (S k) w2) →
  ∃ w', for_ l body w = (Ok (), w') ∧ I (length l) w'.
Proof.
  revert I w. induction l as [|x l IH]; intros I w H0 Hstep.
  - exists w. by split.
  - destruct (Hstep 0 x w eq_refl H0) as (w1 & Hx & H1).
    destruct (IH (λ k, I (S k)) w1 H1) as (w' & Hl & Hend).
    { intros k y w2 Hy. by apply (Hstep (S k)). }
    exists w'. split; [|done]. cbn [for_]. by rewrite (bind_ok _ _ _ _ _ Hx).
Qed.

(** A loop whose body raises at position [j], after [j] rounds that
  keep the invariant. *)
Lemma for_raise {A} (I : nat → world → Prop) (Q : world → Prop)
    (l : list A) (body : A → M unit) w j y e :
  l !! j = Some y →
  I 0 w →
  (∀ k x w1, k < j → l !! k = Some x → I k w1 →
             ∃ w2, body x w1 = (Ok (), w2) ∧ I (S k) w2) →
  (∀ w1, I j w1 → ∃ w2, body y w1 = (Raise e, w2) ∧ Q w2) →
  ∃ w', for_ l body w = (Raise e, w') ∧ Q w'.
Proof.
  revert I w j. induction l as [|x l IH]; intros I w j Hj H0 Hstep Hfail; [done |].
  destruct j as [|j].
  - simplify_eq/=. destruct (Hfail w H0) as (w2 & Hy & HQ).
    exists w2. split; [|done]. by rewrite (bind_raise _ _ _ _ _ Hy).
  - destruct (Hstep 0 x w ltac:(lia) eq_refl H0) as (w1 & Hx & H1).
    destruct (IH (λ k, I (S k)) w1 j Hj H1) as (w' & Hl & HQ).
    { intros k z w2 Hk Hz. apply (Hstep (S k)); [lia | done]. }
    { done. }
    exists w'. split; [|done]. cbn [for_]. by rewrite (bind_ok _ _ _ _ _ Hx).
Qed.

End MFacts.

(** ** Loading the configuration *)

Section load_config_facts.
Context (X : externals).
Local Abbreviation load_fails := (load_fails X).

Lemma load_config_fails w path e :
  load_fails w path e →
  load_config X path w = (Ok JNull, add_log w [(ERROR, load_error path e)]).
Proof.
  intros [H|(text & H & Hj)]; unfold load_config, try_except, bind, Os.read, lift;
    rewrite H; [|rewrite Hj]; by destruct e.
Qed.

(** C6: when the configuration cannot be loaded (the file is absent,
  its JSON is malformed, or anything else goes wrong in reading it),
  [load_config] logs the error and returns [None], and [main] logs
  that it gives up and returns: whatever the flags, the file system,
  the commands run and the requests sent are as before. *)
Theorem main_load_failure w path e (clean split map upload : bool) :
  load_fails w path e →
  load_config X path w = (Ok JNull, add_log w [(ERROR, load_error path e)])
  ∧ main X path clean split map upload w
    = (Ok (), add_log w [ (ERROR, load_error path e);
                          (ERROR, "Failed to load configuration. Exiting.") ]).
Proof.
  intros H. pose proof (load_config_fails w path e H) as Hload.
  split; [done |]. unfold main. rewrite (MFacts.bind_ok _ _ _ _ _ Hload).
  cbn [Py.truthy negb]. unfold Logging.error, Logging.log.
  by rewrite MFacts.add_log_app.
Qed.

End load_config_facts.

Lemma main_load_failure_witness :
  load_fails X_null w_empty "config.json" (FileNotFoundError "config.json")
  ∧ main X_null "config.json" true true true true w_empty
    = (Ok (), add_log w_empty
                [ (ERROR, "Error: The file config.json was not found.");
                  (ERROR, "Failed to load configuration. Exiting.") ]).
Proof.
  split; [by left |].
  apply (main_load_failure X_null w_empty "config.json"
           (FileNotFoundError "config.json") true true true true).
  by left.
Defined.

(** ** One run of the mapper *)

Section execute_rml_facts.
Context (X : externals).
Local Abbreviation keeps_tmp := (keeps_tmp X).

Lemma Os_read_ok w p text :
  Fs.read (w_fs w) p = Ok text → Os.read p w = (Ok text, w).
Proof. unfold Os.read. by intros ->. Qed.

Lemma Os_write_tmp w text :
  Fs.isdir (w_fs w) tmp_rml_file = false →
  Os.write tmp_rml_file text w
  = (Ok (), set_fs (<[tmp_rml_file := File text]> (w_fs w)) w).
Proof. unfold Os.write, Fs.write. by intros ->. Qed.

Lemma Os_remove_tmp w text :
  w_fs w !! tmp_rml_file = Some (File text) →
  Os.remove tmp_rml_file w = (Ok (), set_fs (delete tmp_rml_file (w_fs w)) w).
Proof. unfold Os.remove, Fs.remove. by intros ->. Qed.


End execute_rml_facts.


(** With a directory of rules the batch goes through all its
    invocations although each of them fails: four commands are run,
    four errors are logged, and the temporary rule file is gone. *)
Example mapping_batch_continues :
  let '(r, w') := mapping X_failing_mapper "chunks/" "rules/" "kg/" "rmlmapper.jar" w_batch in
  r = Ok ()
  ∧ length (w_procs w') = 4
  ∧ length (List.filter (λ l, match l.1 with ERROR => true | INFO => false end) (w_log w')) = 4
  ∧ w_fs w' !! tmp_rml_file = None.
Proof. vm_compute. repeat split. Qed.

(** ** Mapping a directory of CSV files with one rule file *)

Section mapping_facts.
Context (X : externals).

(** C2 does not hold of the code.  With a rule path that is a file and
  a CSV path that is a directory with at least one entry, the loop
  over the entries raises [UnboundLocalError] on its first round,
  where the log line reads [rml_file]: the mapper is not invoked for
  any CSV file, and the world is left as it was. *)
Theorem mapping_rule_file_unbound w csv_file_path rml_path output_dir mapper_path names :
  Fs.isdir (w_fs w) rml_path = false →
  Fs.isfile (w_fs w) rml_path = true →
  Fs.isdir (w_fs w) csv_file_path = true →
  Fs.listdir (w_fs w) csv_file_path = Ok names →
  names ≠ [] →
  mapping X csv_file_path rml_path output_dir mapper_path w
  = (Raise (UnboundLocalError "rml_file"), w).
Proof.
  intros Hrd Hrf Hcd Hls Hne. unfold mapping, bind, Os.isdir, Os.isfile, Os.listdir.
  rewrite Hrd, Hrf, Hcd, Hls. destruct names as [|name names]; [done |].
  reflexivity.
Qed.

End mapping_facts.

Lemma mapping_rule_file_unbound_witness :
  mapping X_null "chunks/" "mapper.rml.ttl" "kg/" "rmlmapper.jar" w_chunks
  = (Raise (UnboundLocalError "rml_file"), w_chunks)
  ∧ w_procs w_chunks = [].
Proof.
  split; [|reflexivity].
  apply (mapping_rule_file_unbound X_null w_chunks "chunks/" "mapper.rml.ttl" "kg/"
           "rmlmapper.jar" ["data_chunk_0.csv"]); try reflexivity.
  discriminate.
Defined.

(** ** Uploading a directory of RDF files *)

Section upload_facts.
Context (X : externals).

Lemma upload_response w graphdb_url repository path text :
  Fs.read (w_fs w) path = Ok text →
  let req := rdf_request graphdb_url repository (w_fs w) path in
  let w1 := World (w_fs w) (w_log w) (w_procs w) (w_reqs w ++ [req]) in
  upload X graphdb_url repository path w
  = match http_post X (w_reqs w) req with
    | Response code body =>
        (Ok (), add_log w1 (response_log repository path (Response code body)))
    | NoResponse msg => (Raise (ConnectionError msg), w1)
    end.
Proof.
  intros Hread req w1. unfold upload.
  rewrite (MFacts.bind_ok _ _ _ _ _ (Os_read_ok _ _ _ Hread)).
  unfold bind, requests_post. subst w1 req. unfold rdf_request. rewrite Hread.
  destruct (http_post X _ _) as [code body|msg]; [|done].
  cbn [fst snd response_log]. by case_bool_decide.
Qed.

Section batch.
Context (w : world) (rdf_file_path graphdb_url repository : string)
    (files : list string).
Local Abbreviation batch_request := (batch_request w rdf_file_path graphdb_url repository).
Local Abbreviation batch_sent := (batch_sent w rdf_file_path graphdb_url repository files).
Local Abbreviation batch_answer :=
  (batch_answer X w rdf_file_path graphdb_url repository files).
Local Abbreviation file_lines := (file_lines X w rdf_file_path graphdb_url repository files).
Local Abbreviation batch_lines :=
  (batch_lines X w rdf_file_path graphdb_url repository files).
Local Abbreviation batch_world :=
  (batch_world X w rdf_file_path graphdb_url repository files).
Local Abbreviation batch_body := (batch_body X rdf_file_path graphdb_url repository).

Lemma batch_sent_S k file :
  files !! k = Some file → batch_sent (S k) = batch_sent k ++ [batch_request file].
Proof.
  intros H. unfold batch_sent. rewrite (take_S_r _ _ _ H), map_app.
  by rewrite List.app_assoc.
Qed.

Lemma batch_lines_S k file :
  files !! k = Some file → batch_lines (S k) = batch_lines k ++ file_lines k file.
Proof.
  intros H. unfold batch_lines. rewrite (take_S_r _ _ _ H), imap_app, concat_app.
  cbn [imap concat]. rewrite List.app_nil_r. rewrite length_take_le.
  - by rewrite Nat.add_0_r.
  - apply lookup_lt_Some in H. lia.
Qed.

Context (Hdir : Fs.isdir (w_fs w) rdf_file_path = true)
    (Hlist : Fs.listdir (w_fs w) rdf_file_path = Ok files)
    (Hread : ∀ file, file ∈ files →
               ∃ text, Fs.read (w_fs w) (Path.join rdf_file_path file) = Ok text).

Lemma batch_run :
  upload_rdf_data_to_graphdb X rdf_file_path graphdb_url repository w
  = for_ files batch_body w.
Proof.
  unfold upload_rdf_data_to_graphdb, bind at 1, Os.isdir. rewrite Hdir.
  unfold bind at 1, Os.listdir. by rewrite Hlist.
Qed.

Lemma batch_step k file :
  files !! k = Some file →
  batch_body file (batch_world k)
  = match batch_answer k file with
  | Response _ _ => (Ok (), batch_world (S k))
  | NoResponse msg =>
      (Raise (ConnectionError msg),
       World (w_fs w) (w_log w ++ batch_lines (S k)) (w_procs w) (batch_sent (S k)))
  end.
Proof.
  intros H. destruct (Hread file) as [text Htext].
  { by eapply list_elem_of_lookup_2. }
  unfold batch_body, bind, Logging.info, Logging.log.
  rewrite (upload_response _ _ _ _ text) by done.
  unfold batch_world, add_log. cbn [w_fs w_log w_procs w_reqs].
  fold (batch_request file). fold (batch_answer k file).
  rewrite (batch_lines_S k file H), (batch_sent_S k file H). unfold file_lines.
  destruct (batch_answer k file) as [code body|msg].
  - by rewrite <- !List.app_assoc.
  - cbn [response_log]. by rewrite <- !List.app_assoc.
Qed.

(** C4, amended: over a directory of readable RDF files one POST is
attempted per file, in the order of the listing, up to and
including the first one that ends without a response.  Success
is the status 204 and nothing else: it is logged as information,
any other status as an error with the body of the response, and
in both cases the batch goes on to the next file.  A POST
without a response raises: it is not logged, and the files after
it are not attempted. *)
Theorem upload_batch :
  (∀ j file msg,
   files !! j = Some file →
   batch_answer j file = NoResponse msg →
   (∀ k g, k < j → files !! k = Some g →
           ∃ code body, batch_answer k g = Response code body) →
   upload_rdf_data_to_graphdb X rdf_file_path graphdb_url repository w
   = (Raise (ConnectionError msg),
      World (w_fs w) (w_log w ++ batch_lines (S j)) (w_procs w) (batch_sent (S j))))
  ∧ ((∀ k g, files !! k = Some g → ∃ code body, batch_answer k g = Response code body) →
   upload_rdf_data_to_graphdb X rdf_file_path graphdb_url repository w
   = (Ok (), batch_world (length files))
   ∧ length (batch_sent (length files)) = length (w_reqs w) + length files).
Proof.
  split.
  - intros j file msg Hj Hdown Hup. rewrite batch_run.
  destruct (MFacts.for_raise (λ k w1, w1 = batch_world k)
              (λ w2, w2 = World (w_fs w) (w_log w ++ batch_lines (S j))
                                (w_procs w) (batch_sent (S j)))
              files batch_body w j file (ConnectionError msg))
    as (w' & Hrun & ->); try done.
  + unfold batch_world, batch_lines, batch_sent. cbn [take imap concat map].
    rewrite !List.app_nil_r. by destruct w.
  + intros k g w1 Hk Hg ->. rewrite (batch_step k g Hg).
    destruct (Hup k g Hk Hg) as (code & body & ->). by eexists.
  + intros w1 ->. rewrite (batch_step j file Hj), Hdown. by eexists.
  - intros Hup. rewrite batch_run.
  destruct (MFacts.for_invariant (λ k w1, w1 = batch_world k)
              files batch_body w) as (w' & Hrun & ->).
  + unfold batch_world, batch_lines, batch_sent. cbn [take imap concat map].
    rewrite !List.app_nil_r. by destruct w.
  + intros k g w1 Hg ->. rewrite (batch_step k g Hg).
    destruct (Hup k g Hg) as (code & body & ->). by eexists.
  + split; [done |]. unfold batch_sent.
    rewrite firstn_all, length_app, length_map. done.
Qed.

End batch.

End upload_facts.

(** C4, as the specification states it, fails for a transport failure:
    with three files and no response to the second POST, the batch ends
    with the exception after two requests, not three. *)
Lemma upload_batch_transport_counterexample :
  ¬ (∀ X w dir url repo files,
       Fs.listdir (w_fs w) dir = Ok files →
       (∀ file, file ∈ files → ∃ text, Fs.read (w_fs w) (Path.join dir file) = Ok text) →
       ∃ r w', upload_rdf_data_to_graphdb X dir url repo w = (r, w')
               ∧ length (w_reqs w') = length (w_reqs w) + length files).
Proof.
  intros H.
  destruct (H X_second_down w_kg "kg/" "http://localhost:7200" "sensors"
              ["output_0.ttl"; "output_1.ttl"; "output_2.ttl"] eq_refl)
    as (r & w' & Hrun & Hlen).
  { intros file Hfile.
    repeat (apply elem_of_cons in Hfile as [->|Hfile]; [by eexists |]).
    by apply elem_of_nil in Hfile. }
  vm_compute in Hrun. injection Hrun as <- <-. vm_compute in Hlen. discriminate Hlen.
Qed.

Lemma upload_batch_witness :
  ∃ w', upload_rdf_data_to_graphdb X_second_500 "kg/" "http://localhost:7200" "sensors" w_kg
        = (Ok (), w')
        ∧ length (w_reqs w') = 3.
Proof.
  eexists. split.
  - apply (upload_batch X_second_500 w_kg "kg/" "http://localhost:7200" "sensors"
             ["output_0.ttl"; "output_1.ttl"; "output_2.ttl"]).
    + reflexivity.
    + reflexivity.
    + intros file Hfile.
      repeat (apply elem_of_cons in Hfile as [->|Hfile]; [by eexists |]).
      by apply elem_of_nil in Hfile.
    + intros k g Hg.
      destruct k as [|[|[|k]]]; simplify_eq/=; by do 2 eexists.
  - reflexivity.
Defined.

(** ** A malformed timestamp *)

Section clean_facts.
Context (X : externals).

Lemma first_malformed_exists series e0 :
  malformed series e0 → ∃ v e, first_malformed series v e.
Proof.
  intros (u & Hu & He). induction series as [|v vs IH]; [by apply elem_of_nil in Hu |].
  destruct (convert_to_iso8601 v) as [out|e] eqn:Hv.
  - apply elem_of_cons in Hu as [->|Hu]; [congruence |].
    destruct (IH Hu) as (v1 & e1 & good & rest & -> & Hgood & Hv1).
    exists v1, e1, (v :: good), rest. split; [done |]. split; [|done].
    constructor; [by exists out | done].
  - exists v, e, [], vs. by repeat split.
Qed.

Lemma apply_first_malformed series v e :
  first_malformed series v e → Pd.apply iso_cell series = Raise e.
Proof.
  intros (good & rest & -> & Hgood & Hv).
  induction Hgood as [|u good [out Hu] _ IH]; cbn [Pd.apply List.app].
  - unfold iso_cell at 1. by rewrite Hv.
  - unfold iso_cell at 1. rewrite Hu. cbn [res_bind]. by rewrite IH.
Qed.

Lemma cfg_str_ok config section key s w :
  Py.get2 config section key = Ok (JStr s) →
  cfg_str config section key w = (Ok s, w).
Proof. unfold cfg_str, cfg, bind, lift. by intros ->. Qed.

Lemma load_config_ok w path text config :
  Fs.read (w_fs w) path = Ok text → json_loads X text = Ok config →
  load_config X path w = (Ok config, w).
Proof.
  intros Hr Hj. unfold load_config, try_except, bind, Os.read, lift.
  by rewrite Hr, Hj.
Qed.

(** C5, amended: if a row's timestamp is malformed, there is a first
  such row, and [clean_data] fails as a whole with the exception of
  that row, without writing its output; the exception is not caught
  by [main], which ends with it after the log line of the cleaning
  stage: no later stage is executed, whatever the flags. *)
Theorem main_clean_malformed w path text config input output csv data series e0
    (split map upload : bool) :
  Fs.read (w_fs w) path = Ok text →
  json_loads X text = Ok config →
  Py.truthy config = true →
  Py.get2 config "clean_data" "input" = Ok (JStr input) →
  Py.get2 config "clean_data" "output" = Ok (JStr output) →
  Fs.read (w_fs w) input = Ok csv →
  read_csv_text X csv = Ok data →
  Pd.getitem data "data_rilevazione" = Ok series →
  malformed series e0 →
  ∃ v e, first_malformed series v e
         ∧ clean_data X input output w = (Raise e, w)
         ∧ main X path true split map upload w
           = (Raise e, add_log w [(INFO, "Cleaning the data ...")]).
Proof.
  intros Hr Hj Ht Hin Hout Hcsv Hdata Hcol Hbad.
  destruct (first_malformed_exists series e0 Hbad) as (v & e & Hfirst).
  exists v, e. split; [done |].
  assert (Hclean : clean_frame data = Raise e).
  { unfold clean_frame. rewrite Hcol. cbn [res_bind].
    by rewrite (apply_first_malformed _ _ _ Hfirst). }
  assert (Hfail : ∀ w1, w_fs w1 = w_fs w → clean_data X input output w1 = (Raise e, w1)).
  { intros w1 Hfs. unfold clean_data, read_csv, bind, Os.read, lift.
    by rewrite Hfs, Hcsv, Hdata, Hclean. }
  split; [by apply Hfail |].
  unfold main. rewrite (MFacts.bind_ok _ _ _ _ _ (load_config_ok _ _ _ _ Hr Hj)).
  rewrite Ht. cbn [negb].
  apply MFacts.bind_raise.
  rewrite (MFacts.bind_ok _ _ _ () (add_log w [(INFO, "Cleaning the data ...")])) by done.
  rewrite (MFacts.bind_ok _ _ _ _ _ (cfg_str_ok _ _ _ _ _ Hin)).
  rewrite (MFacts.bind_ok _ _ _ _ _ (cfg_str_ok _ _ _ _ _ Hout)).
  by apply Hfail.
Qed.

End clean_facts.

(** C5, as the specification states it, fails in its second half: with
    the cleaning and the splitting stage enabled and a malformed
    timestamp in the raw data, [main] does not complete the run, and the
    splitting stage is not executed. *)
Lemma main_clean_malformed_counterexample :
  ¬ (∃ w', main X_sample "config.json" true true false false w_sample = (Ok (), w')
           ∧ (INFO, "Splitting the dataset ...") ∈ w_log w').
Proof.
  intros (w' & Hrun & _). vm_compute in Hrun. discriminate Hrun.
Qed.

Lemma main_clean_malformed_witness :
  main X_rows "config.json" true true true true w_sample
  = (Raise (TypeError "strptime() argument 1 must be str"),
     add_log w_sample [(INFO, "Cleaning the data ...")]).
Proof.
  destruct (main_clean_malformed X_rows w_sample "config.json" "{}" sample_config
              "raw.csv" "clean.csv" "04/03/2021" sample_rows
              [CStr "2021-03-04 10:15:30.500000"; CNaN; CStr "04/03/2021"]
              (ValueError "time data does not match format")
              true true true)
    as (v & e & Hfirst & _ & Hmain); [reflexivity.. | |].
  - exists (CStr "04/03/2021"). split; [|reflexivity].
    by repeat constructor.
  - destruct Hfirst as (good & rest & Hseries & Hgood & Hv).
    destruct good as [|u0 [|u1 good]].
    + injection Hseries as <- _. discriminate Hv.
    + injection Hseries as _ <- _. injection Hv as <-. exact Hmain.
    + injection Hseries as _ <- _. apply Forall_cons in Hgood as [_ Hgood].
      apply Forall_cons in Hgood as [[out Hout] _]. discriminate Hout.
Defined.

(** ** The CSV source of the mapping stage *)

Section main_facts.
Context (X : externals).
Local Abbreviation map_stage := (map_stage X).

Lemma cfg_str_raise config section key e w :
  Py.getitem config section = Raise e →
  cfg_str config section key w = (Raise e, w).
Proof. unfold cfg_str, cfg, Py.get2, bind, lift. by intros ->. Qed.

(** C10: with the map stage enabled, [main] calls [mapping] with the
  value of [split_dataset.output_dir] as its CSV source, whatever
  the flags of the other three stages: the run is the run of the
  cleaning and splitting stages as they are enabled, followed by the
  mapping of that directory and then by the upload stage if it is
  enabled.  Without a [split_dataset] section the map stage fails
  with the [KeyError] of the lookup after its log line, also when the
  split stage is disabled; no command is run and no later stage. *)
Theorem main_map_source w path text config (clean split upload : bool)
    csv_file_path rml_path output_path mapper_path graphdb_url repository :
  Fs.read (w_fs w) path = Ok text →
  json_loads X text = Ok config →
  Py.truthy config = true →
  (Py.get2 config "split_dataset" "output_dir" = Ok (JStr csv_file_path) →
   Py.get2 config "mapping" "rml_path" = Ok (JStr rml_path) →
   Py.get2 config "mapping" "output_path" = Ok (JStr output_path) →
   Py.get2 config "mapping" "mapper_path" = Ok (JStr mapper_path) →
   (upload = true →
    Py.get2 config "upload_to_graphDB" "graphDB_url" = Ok (JStr graphdb_url)
    ∧ Py.get2 config "upload_to_graphDB" "graphDB_repo" = Ok (JStr repository)) →
   main X path clean split true upload w
   = (main X path clean split false false >>
      map_stage csv_file_path rml_path output_path mapper_path >>
      if upload then upload_stage X output_path graphdb_url repository else ret ()) w)
  ∧ (Py.getitem config "split_dataset" = Raise (KeyError "split_dataset") →
     main X path clean false true upload w
     = (main X path clean false false false >>
        Logging.info "Mapping the data ..." >>
        raise (KeyError "split_dataset")) w).
Proof.
  intros Hr Hj Ht.
  pose proof (load_config_ok X w path text config Hr Hj) as Hload.
  split.
  - intros Hd Hrp Hop Hmp Hup.
    unfold main. rewrite MFacts.bind_assoc.
    rewrite !(MFacts.bind_ok _ _ _ _ _ Hload). rewrite Ht. cbn [negb].
    set (A := if clean then _ else ret ()).
    set (B := if split then _ else ret ()).
    rewrite (MFacts.bind_assoc A). apply MFacts.bind_ext. intros _ w1.
    rewrite (MFacts.bind_assoc B). apply MFacts.bind_ext. intros _ w2.
    rewrite (MFacts.bind_assoc (ret ())), !MFacts.bind_ret_l.
    unfold map_stage. rewrite !MFacts.bind_assoc.
    apply MFacts.bind_ext. intros _ w3.
    rewrite MFacts.bind_assoc, (MFacts.bind_ok _ _ _ _ _ (cfg_str_ok _ _ _ _ _ Hd)).
    rewrite MFacts.bind_assoc, (MFacts.bind_ok _ _ _ _ _ (cfg_str_ok _ _ _ _ _ Hrp)).
    rewrite MFacts.bind_assoc, (MFacts.bind_ok _ _ _ _ _ (cfg_str_ok _ _ _ _ _ Hop)).
    rewrite MFacts.bind_assoc, (MFacts.bind_ok _ _ _ _ _ (cfg_str_ok _ _ _ _ _ Hmp)).
    apply MFacts.bind_ext. intros _ w4.
    destruct upload; [|done].
    destruct (Hup eq_refl) as [Hu Hrepo].
    unfold upload_stage. apply MFacts.bind_ext. intros _ w5.
    rewrite (MFacts.bind_ok _ _ _ _ _ (cfg_str_ok _ _ _ _ _ Hop)).
    rewrite (MFacts.bind_ok _ _ _ _ _ (cfg_str_ok _ _ _ _ _ Hu)).
    by rewrite (MFacts.bind_ok _ _ _ _ _ (cfg_str_ok _ _ _ _ _ Hrepo)).
  - intros Hmissing. unfold main. rewrite MFacts.bind_assoc.
    rewrite !(MFacts.bind_ok _ _ _ _ _ Hload). rewrite Ht. cbn [negb].
    set (A := if clean then _ else ret ()).
    rewrite (MFacts.bind_assoc A). apply MFacts.bind_ext. intros _ w1.
    repeat rewrite ?(MFacts.bind_assoc (ret ())), ?MFacts.bind_ret_l.
    rewrite MFacts.bind_assoc. apply MFacts.bind_ext. intros _ w2.
    rewrite MFacts.bind_assoc.
    by rewrite (MFacts.bind_raise _ _ _ _ _ (cfg_str_raise _ _ _ _ _ Hmissing)).
Qed.

End main_facts.

Lemma main_map_source_witness :
  main X_echo "config.json" false false true true w_pipeline
  = (Ok (),
     World (w_fs w_pipeline)
       [ (INFO, "Mapping the data ...");
         (INFO, "Processing file: data_chunk_0.csv, RML: a.rml.ttl");
         (ERROR, "Error: 1, a chunks/data_chunk_0.csv");
         (INFO, "Processing file: data_chunk_1.csv, RML: a.rml.ttl");
         (ERROR, "Error: 1, a chunks/data_chunk_1.csv");
         (INFO, "Processing file: data_chunk_0.csv, RML: b.rml.ttl");
         (ERROR, "Error: 1, b chunks/data_chunk_0.csv");
         (INFO, "Processing file: data_chunk_1.csv, RML: b.rml.ttl");
         (ERROR, "Error: 1, b chunks/data_chunk_1.csv");
         (INFO, "Uploading RDF data to GraphDB ...");
         (INFO, "Uploading file: output_0_0.ttl");
         (INFO, "RDF file kg/output_0_0.ttl uploaded to repository sensors.");
         (INFO, "Uploading file: output_1_0.ttl");
         (INFO, "RDF file kg/output_1_0.ttl uploaded to repository sensors.") ]
       [ java_command "rmlmapper.jar" "kg/output_0_0.ttl";
         java_command "rmlmapper.jar" "kg/output_1_0.ttl";
         java_command "rmlmapper.jar" "kg/output_0_1.ttl";
         java_command "rmlmapper.jar" "kg/output_1_1.ttl" ]
       [ Request "http://localhost:7200/repositories/sensors/statements"
                 [("Content-Type", "text/turtle")] "<a> <b> <c> .";
         Request "http://localhost:7200/repositories/sensors/statements"
                 [("Content-Type", "text/turtle")] "<d> <e> <f> ." ])
  ∧ main (X_config config_without_split) "config.json" false false true true w_pipeline
    = (Raise (KeyError "split_dataset"),
       add_log w_pipeline [(INFO, "Mapping the data ...")]).
Proof.
  split.
  - destruct (main_map_source X_echo w_pipeline "config.json" "{}" sample_config
                false false true "chunks/" "rules/" "kg/" "rmlmapper.jar"
                "http://localhost:7200" "sensors" eq_refl eq_refl eq_refl) as [Hrun _].
    rewrite Hrun; [| reflexivity.. | intros _; split; reflexivity].
    reflexivity.
  - destruct (main_map_source (X_config config_without_split) w_pipeline "config.json" "{}"
                config_without_split false false true "" "" "" "" "" ""
                eq_refl eq_refl eq_refl) as [_ Hrun].
    rewrite Hrun; reflexivity.
Defined.

(** ** Paths *)

Module PathFacts.
Import StrFacts Path.

Lemma all_cons p c r : Str.all p (String c r) = p c && Str.all p r.
Proof. done. Qed.

Lemma rstrip_sep_cons c r :
  rstrip_sep (String c r)
  = if bool_decide (c = sep) && bool_decide (rstrip_sep r = "") then ""
  else String c (rstrip_sep r).
Proof. done. Qed.

Lemma cut_cons c r :
  cut (String c r)
  = if has_sep r then (String c (cut r).1, (cut r).2)
  else if bool_decide (c = sep) then (String c "", r) else ("", String c r).
Proof. done. Qed.

Lemma cut_app a name :
  has_sep name = false → cut (a +:+ name) = ((cut a).1, (cut a).2 +:+ name).
Proof.
  intros Hn. induction a as [|c a IH].
  - rewrite app_nil_l. destruct name as [|d name]; [done |].
  simpl in Hn. apply orb_false_iff in Hn as [Hd Hn].
  cbn [cut]. by rewrite Hn, Hd.
  - rewrite app_cons. cbn [cut]. rewrite IH.
  assert (Hsep : has_sep (a +:+ name) = has_sep a).
  { clear IH. induction a as [|x a IHa]; [by rewrite app_nil_l |].
    rewrite app_cons. simpl. by rewrite IHa. }
  rewrite Hsep. destruct (has_sep a); [done |].
  cbn [fst snd]. case_bool_decide; [|done].
  clear IH Hsep. destruct a as [|x a]; done.
Qed.

Lemma cut_ends_sep a : Str.endswith_char sep a = true → cut a = (a, "").
Proof.
  induction a as [|c a IH]; [done |]. intros H.
  destruct a as [|d a].
  - simpl in H. apply bool_decide_eq_true_1 in H as ->. done.
  - assert (Ha : Str.endswith_char sep (String d a) = true) by done.
  assert (Hs : has_sep (String d a) = true).
  { clear IH H. revert d Ha. induction a as [|x a IHa]; intros d Ha.
    - simpl in Ha. apply bool_decide_eq_true_1 in Ha as ->. done.
    - assert (Hx : Str.endswith_char sep (String x a) = true) by done.
      apply IHa in Hx. simpl. simpl in Hx. rewrite Hx. by rewrite orb_true_r. }
  rewrite cut_cons, Hs. by rewrite (IH Ha).
Qed.

Lemma rstrip_sep_app_sep a : rstrip_sep (a +:+ "/") = rstrip_sep a.
Proof.
  induction a as [|c a IH]; [done |].
  rewrite app_cons, !rstrip_sep_cons. by rewrite IH.
Qed.

Lemma all_sep_app_sep a : all_sep (a +:+ "/") = all_sep a.
Proof. unfold all_sep. rewrite all_app. simpl. by rewrite andb_true_r. Qed.

Lemma not_ends_not_all a :
  Str.endswith_char sep a = false → a ≠ "" → all_sep a = false.
Proof.
  induction a as [|c a IH]; [done |]. intros H _. unfold all_sep in *.
  destruct a as [|d a].
  - simpl in *. by rewrite H.
  - rewrite all_cons, IH; [by rewrite andb_false_r | done | done].
Qed.

Lemma rstrip_sep_id a : Str.endswith_char sep a = false → rstrip_sep a = a.
Proof.
  induction a as [|c a IH]; [done |]. intros H. rewrite rstrip_sep_cons.
  destruct a as [|d a].
  - simpl in *. by rewrite H.
  - rewrite IH by done. rewrite (bool_decide_eq_false_2 (String d a = "")) by done.
  by rewrite andb_false_r.
Qed.

(** A path that does not end in a separator is its own directory key. *)
Lemma norm_id a : Str.endswith_char sep a = false → norm a = a.
Proof.
  intros H. unfold norm. destruct a as [|c a]; [done |].
  rewrite not_ends_not_all by done. cbn [negb andb bool_decide].
  rewrite bool_decide_eq_false_2 by done. by apply rstrip_sep_id.
Qed.

Lemma norm_app_sep a :
  a ≠ "" → Str.endswith_char sep a = false → norm (a +:+ "/") = norm a.
Proof.
  intros Ha He. rewrite (norm_id a) by done. unfold norm.
  rewrite all_sep_app_sep, not_ends_not_all by done.
  rewrite bool_decide_eq_false_2 by by destruct a.
  cbn [negb andb]. rewrite rstrip_sep_app_sep. by apply rstrip_sep_id.
Qed.

Lemma no_sep_no_slash_head name : has_sep name = false → Str.startswith "/" name = false.
Proof.
  destruct name as [|c name]; [done |]. intros H. cbn [has_sep] in H.
  apply orb_false_iff in H as [H _]. rewrite startswith_cons.
  rewrite (bool_decide_ext (sep = c) (c = sep)) by done. by rewrite H.
Qed.

(** [os.path.split] undoes [os.path.join] with a plain name. *)
Theorem split_join out name :
  has_sep name = false → split (join out name) = (norm out, name).
Proof.
  intros Hn. unfold join. rewrite no_sep_no_slash_head by done.
  unfold split. destruct (decide (out = "")) as [->|Hout].
  - rewrite bool_decide_eq_true_2 by done. cbn [orb]. rewrite cut_app by done. done.
  - rewrite bool_decide_eq_false_2 by done. cbn [orb].
  destruct (Str.endswith_char sep out) eqn:He.
  + rewrite cut_app by done. by rewrite cut_ends_sep.
  + rewrite <- app_assoc. rewrite cut_app by done.
    rewrite cut_ends_sep.
    * cbn [fst snd]. rewrite app_nil_l. by rewrite norm_app_sep.
    * clear Hout He. induction out as [|c out IH]; [done |].
      rewrite app_cons. destruct out; [done | apply IH].
Qed.

Lemma length_rstrip_sep a : String.length (rstrip_sep a) ≤ String.length a.
Proof.
  induction a as [|c a IH]; [done |]. cbn [rstrip_sep].
  destruct (_ && _); simpl; lia.
Qed.

Lemma length_norm a : String.length (norm a) ≤ String.length a.
Proof. unfold norm. destruct (_ && _); [apply length_rstrip_sep | done]. Qed.

Lemma length_join out name :
  has_sep name = false →
  String.length out + String.length name ≤ String.length (join out name).
Proof.
  intros Hn. unfold join. rewrite no_sep_no_slash_head by done.
  destruct (_ || _); rewrite !length_app; simpl; lia.
Qed.

(** A file in a directory is not the directory. *)
Lemma join_not_dir out name :
  has_sep name = false → name ≠ "" → join out name ≠ norm out.
Proof.
  intros Hn Hne Heq. pose proof (length_join out name Hn) as H1.
  pose proof (length_norm out) as H2. rewrite Heq in H1.
  destruct name; [done |]. simpl in H1. lia.
Qed.

Lemma join_inj out a b :
  has_sep a = false → has_sep b = false → join out a = join out b → a = b.
Proof.
  intros Ha Hb. unfold join. rewrite !no_sep_no_slash_head by done.
  destruct (_ || _); intros H.
  - by apply String.app_inj in H.
  - apply String.app_inj in H. by apply (String.app_inj "/") in H.
Qed.

Lemma endswith_app c a b :
  b ≠ "" → Str.endswith_char c (a +:+ b) = Str.endswith_char c b.
Proof.
  intros Hb. induction a as [|x a IH]; [done |].
  rewrite app_cons. cbn [Str.endswith_char]. rewrite IH.
  destruct (a +:+ b) eqn:E; [|done].
  destruct a, b; done.
Qed.

Lemma norm_nonempty a : a ≠ "" → norm a ≠ "".
Proof.
  intros Ha. unfold norm. rewrite bool_decide_eq_false_2 by done. cbn [negb andb].
  destruct (all_sep a) eqn:E; [done |]. cbn [negb].
  clear Ha. induction a as [|c a IH]; [done |].
  cbn [rstrip_sep]. unfold all_sep in *. simpl in E.
  destruct (bool_decide (c = sep)) eqn:Hc; [|done].
  simpl in E. specialize (IH E). by rewrite (bool_decide_eq_false_2 _ IH).
Qed.

End PathFacts.

(** ** The names of the chunk files *)

Module ChunkNameFacts.
Import StrFacts Path PathFacts.

Lemma has_sep_app a b : has_sep (a +:+ b) = has_sep a || has_sep b.
Proof.
  induction a as [|c a IH]; [done |]. rewrite app_cons. simpl.
  by rewrite IH, orb_assoc.
Qed.

Lemma pretty_N_char_no_sep x : bool_decide (pretty_N_char x = sep) = false.
Proof. unfold pretty_N_char. by repeat case_match. Qed.

Lemma has_sep_pretty_N_go x s : has_sep (pretty_N_go x s) = has_sep s.
Proof.
  revert s. induction (N.lt_wf_0 x) as [x _ IH]; intros s.
  destruct (decide (x = 0)%N) as [->|Hx]; [by rewrite pretty_N_go_0 |].
  rewrite pretty_N_go_step by lia. rewrite IH.
  - simpl. by rewrite pretty_N_char_no_sep.
  - apply N.div_lt; lia.
Qed.

Lemma has_sep_pretty_N (x : N) : has_sep (pretty x) = false.
Proof.
  unfold pretty, pretty_N. case_decide; [done |]. by rewrite has_sep_pretty_N_go.
Qed.

Lemma has_sep_pretty_Z (x : Z) : has_sep (pretty x) = false.
Proof.
  destruct x as [|p|p]; [done | apply (has_sep_pretty_N (Npos p)) |].
  change (pretty (Z.neg p)) with ("-" +:+ pretty (Npos p)).
  rewrite has_sep_app. by rewrite has_sep_pretty_N.
Qed.

Lemma chunk_name_no_sep i : has_sep (chunk_name i) = false.
Proof.
  unfold chunk_name. rewrite !has_sep_app, has_sep_pretty_Z. done.
Qed.

Lemma chunk_name_nonempty i : chunk_name i ≠ "".
Proof. done. Qed.

Lemma app_inj_r a b c : a +:+ c = b +:+ c → a = b.
Proof.
  revert b. induction a as [|x a IH]; intros b H.
  - destruct b as [|y b]; [done |]. apply (f_equal String.length) in H.
  rewrite app_nil_l, app_cons in H. simpl in H. rewrite length_app in H. lia.
  - destruct b as [|y b].
  + apply (f_equal String.length) in H.
    rewrite app_nil_l, app_cons in H. simpl in H. rewrite length_app in H. lia.
  + rewrite !app_cons in H. injection H as -> H. f_equal. by apply IH.
Qed.

Lemma chunk_name_inj i j : chunk_name i = chunk_name j → i = j.
Proof.
  unfold chunk_name. intros H. apply String.app_inj in H.
  apply app_inj_r in H. by apply pretty_Z_inj in H.
Qed.

Lemma chunk_path_inj out i j : chunk_path out i = chunk_path out j → i = j.
Proof.
  intros H. apply chunk_name_inj.
  by apply (join_inj out); [apply chunk_name_no_sep.. |].
Qed.

Lemma chunk_path_split out i : Path.split (chunk_path out i) = (norm out, chunk_name i).
Proof. apply split_join, chunk_name_no_sep. Qed.

Lemma chunk_path_not_dir out i : chunk_path out i ≠ norm out.
Proof. apply join_not_dir; [apply chunk_name_no_sep | done]. Qed.

Lemma chunk_path_norm out i : norm (chunk_path out i) = chunk_path out i.
Proof.
  apply norm_id. unfold chunk_path, join.
  rewrite no_sep_no_slash_head by apply chunk_name_no_sep.
  assert (He : ∀ a, Str.endswith_char sep (a +:+ chunk_name i) = false).
  { intros a. rewrite endswith_app by done. unfold chunk_name.
  rewrite <- app_assoc. by rewrite endswith_app. }
  destruct (_ || _); [apply He |]. rewrite <- app_assoc. apply He.
Qed.

End ChunkNameFacts.

(** ** Cutting the rows into chunks *)

Module ChunkFacts.

Lemma concat_takes {A} (size k : nat) (l : list A) :
  concat (map (λ i, take size (drop (i * size) l)) (seq 0 k)) = take (k * size) l.
Proof.
  induction k as [|k IH]; [done |].
  rewrite seq_S, map_app, concat_app, IH. cbn [map concat Nat.add].
  rewrite List.app_nil_r. rewrite take_take_drop. f_equal. lia.
Qed.

(** The chunks, in order, make up the rows. *)
Theorem chunk_rows_concat {A} (size n : nat) (l : list A) :
  0 < n → concat (map (chunk_rows size n l) (seq 0 n)) = l.
Proof.
  intros Hn. destruct n as [|k]; [lia |].
  rewrite seq_S, map_app, concat_app. cbn [map concat Nat.add].
  rewrite List.app_nil_r.
  rewrite (map_ext_in _ (λ i, take size (drop (i * size) l))).
  - rewrite concat_takes. unfold chunk_rows.
  rewrite bool_decide_eq_true_2 by lia. apply take_drop.
  - intros i Hi. apply in_seq in Hi. unfold chunk_rows.
  by rewrite bool_decide_eq_false_2 by lia.
Qed.

Lemma chunk_rows_length {A} (n : nat) (l : list A) (i : nat) :
  0 < n → i < n →
  length (chunk_rows (length l / n) n l i)
  = if bool_decide (i = n - 1) then length l - (n - 1) * (length l / n)
  else length l / n.
Proof.
  intros Hn Hi. unfold chunk_rows. case_bool_decide as Hlast.
  - subst i. by rewrite length_drop.
  - rewrite length_take, length_drop.
  assert (n * (length l / n) ≤ length l) by apply Nat.Div0.mul_div_le.
  assert ((i + 1) * (length l / n) ≤ n * (length l / n))
    by (apply Nat.mul_le_mono_r; lia).
  lia.
Qed.

(** A hundred rows in four chunks and in three. *)
Example chunks_of_100 :
  map (λ i, length (chunk_rows (100 / 4) 4 (seq 0 100) i)) (seq 0 4) = [25; 25; 25; 25]
  ∧ map (λ i, length (chunk_rows (100 / 3) 3 (seq 0 100) i)) (seq 0 3) = [33; 33; 34].
Proof. by vm_compute. Qed.

Lemma length_concat_sum {A} (ls : list (list A)) :
  length (concat ls) = sum_list (map length ls).
Proof.
  induction ls as [|l ls IH]; [done |].
  cbn [concat map]. rewrite length_app, IH. done.
Qed.

Lemma chunk_size_Z (data : frame) (n : Z) :
  (0 < n)%Z →
  (Pd.len data `div` n)%Z = Z.of_nat (length (rows data) / Z.to_nat n).
Proof.
  intros Hn. unfold Pd.len. rewrite Nat2Z.inj_div. by rewrite Z2Nat.id by lia.
Qed.

(** The slices of [split_dataset] are the chunks. *)
Lemma iloc_chunk (data : frame) (n i : Z) :
  (0 < n)%Z → (0 ≤ i < n)%Z →
  let chunk_size := (Pd.len data `div` n)%Z in
  let start_index := (i * chunk_size)%Z in
  (if bool_decide (i = n - 1)%Z
  then Pd.iloc data start_index None
  else Pd.iloc data start_index (Some (start_index + chunk_size)%Z))
  = Frame (columns data)
        (chunk_rows (length (rows data) / Z.to_nat n) (Z.to_nat n) (rows data)
                    (Z.to_nat i)).
Proof.
  intros Hn Hi chunk_size start_index.
  set (R := length (rows data)). set (N := Z.to_nat n). set (I := Z.to_nat i).
  assert (Hcs : chunk_size = Z.of_nat (R / N)) by by apply chunk_size_Z.
  assert (Hstart : start_index = Z.of_nat (I * (R / N))).
  { unfold start_index. rewrite Hcs. subst I. lia. }
  assert (HN : N * (R / N) ≤ R) by apply Nat.Div0.mul_div_le.
  unfold chunk_rows, Pd.iloc, Pd.slice_bound. fold R.
  rewrite Hstart, Hcs.
  case_bool_decide as Hlast.
  - rewrite bool_decide_eq_true_2 by lia. f_equal.
  assert (I * (R / N) ≤ R).
  { etrans; [|exact HN]. apply Nat.mul_le_mono_r. lia. }
  destruct (Z.ltb_spec (Z.of_nat (I * (R / N))) 0); [lia |].
  rewrite Z.min_l by lia. rewrite Nat2Z.id.
  apply take_ge. rewrite length_drop. fold R. lia.
  - rewrite bool_decide_eq_false_2 by lia. f_equal.
  assert ((I + 1) * (R / N) ≤ R).
  { etrans; [|exact HN]. apply Nat.mul_le_mono_r. lia. }
  destruct (Z.ltb_spec (Z.of_nat (I * (R / N))) 0); [lia |].
  destruct (Z.ltb_spec (Z.of_nat (I * (R / N)) + Z.of_nat (R / N)) 0); [lia |].
  rewrite !Z.min_l by lia. rewrite Nat2Z.id. f_equal. lia.
Qed.

End ChunkFacts.

(** ** Writing the chunks *)

Module FsFacts.
Import Path PathFacts ChunkNameFacts.

Lemma add_entry_elem name es : name ∈ Fs.add_entry name es.
Proof.
  unfold Fs.add_entry. case_bool_decide; [done |].
  apply elem_of_app. right. by apply list_elem_of_singleton.
Qed.

Lemma add_entry_mono name x es : x ∈ es → x ∈ Fs.add_entry name es.
Proof.
  unfold Fs.add_entry. case_bool_decide; [done |].
  intros Hx. apply elem_of_app. by left.
Qed.

Lemma write_chunk fs out i es text :
  out ≠ "" →
  fs !! norm out = Some (Dir es) →
  Fs.isdir fs (chunk_path out i) = false →
  Fs.write fs (chunk_path out i) text
  = Ok (<[chunk_path out i := File text]>
        (<[norm out := Dir (Fs.add_entry (chunk_name i) es)]> fs)).
Proof.
  intros Hout Hd Hfree. unfold Fs.write. rewrite Hfree, chunk_path_split.
  rewrite bool_decide_eq_false_2 by apply chunk_name_nonempty.
  rewrite bool_decide_eq_false_2 by by apply norm_nonempty.
  by rewrite Hd.
Qed.

(** What [os.makedirs] leaves: the new directory, the files as they
  were, and no other new directory. *)
Lemma makedirs_spec fs out fs1 :
  Fs.makedirs fs out = Ok fs1 →
  fs1 !! norm out = Some (Dir [])
  ∧ (∀ q t, fs1 !! q = Some (File t) → fs !! q = Some (File t))
  ∧ (∀ q es, fs1 !! q = Some (Dir es) → q = norm out ∨ ∃ es', fs !! q = Some (Dir es')).
Proof.
  unfold Fs.makedirs. case_bool_decide; [done |]. case_bool_decide; [done |].
  destruct (split (norm out)) as [head name].
  destruct (fs !! head) as [[t|es]|] eqn:Hhead; [done | |].
  - case_bool_decide; intros [= <-].
  + split; [apply lookup_insert_eq |]. split.
    * intros q t Hq. destruct (decide (q = norm out)) as [->|Hne].
      { by rewrite lookup_insert_eq in Hq. }
      by rewrite lookup_insert_ne in Hq.
    * intros q es0 Hq. destruct (decide (q = norm out)) as [->|Hne]; [by left |].
      rewrite lookup_insert_ne in Hq by done. right. by eexists.
  + split; [apply lookup_insert_eq |]. split.
    * intros q t Hq. destruct (decide (q = norm out)) as [->|Hne].
      { by rewrite lookup_insert_eq in Hq. }
      rewrite lookup_insert_ne in Hq by done.
      destruct (decide (q = head)) as [->|Hne'].
      { by rewrite lookup_insert_eq in Hq. }
      by rewrite lookup_insert_ne in Hq.
    * intros q es0 Hq. destruct (decide (q = norm out)) as [->|Hne]; [by left |].
      rewrite lookup_insert_ne in Hq by done. right.
      destruct (decide (q = head)) as [->|Hne']; [by eexists |].
      rewrite lookup_insert_ne in Hq by done. by eexists.
  - intros [= <-]. split; [apply lookup_insert_eq |]. split.
  + intros q t Hq. destruct (decide (q = norm out)) as [->|Hne].
    { by rewrite lookup_insert_eq in Hq. }
    by rewrite lookup_insert_ne in Hq.
  + intros q es0 Hq. destruct (decide (q = norm out)) as [->|Hne]; [by left |].
    rewrite lookup_insert_ne in Hq by done. right. by eexists.
Qed.

End FsFacts.

Section split_dataset_facts.
Context (X : externals) (w : world) (dataset_path output_dir text : string)
      (n_chunks : Z) (data : frame).
Local Abbreviation chunk := (chunk n_chunks data).
Local Abbreviation chunk_file := (chunk_file output_dir).
Local Abbreviation chunks_written := (chunks_written X w output_dir n_chunks data).
Local Abbreviation split_body := (split_body X output_dir n_chunks data).

Context (Hn : (0 < n_chunks)%Z)
      (Hout : output_dir ≠ "")
      (Hfree : ∀ i, i < Z.to_nat n_chunks →
                    Fs.isdir (w_fs w) (chunk_file i) = false).

Lemma split_step k w1 :
  k < Z.to_nat n_chunks →
  chunks_written k (w_fs w1) →
  ∃ w2, split_body (Z.of_nat k) w1 = (Ok (), w2) ∧ chunks_written (S k) (w_fs w2).
Proof.
  intros Hk ((es & Hd & Hes) & Hfiles & Hold & Hdirs).
  unfold split_body. rewrite ChunkFacts.iloc_chunk by lia. rewrite Nat2Z.id.
  fold (chunk k). fold (chunk_path output_dir (Z.of_nat k)).
  fold (chunk_file k).
  assert (Hfree1 : Fs.isdir (w_fs w1) (chunk_file k) = false).
  { unfold Fs.isdir, chunk_file. rewrite ChunkNameFacts.chunk_path_norm.
  destruct (w_fs w1 !! chunk_path output_dir (Z.of_nat k))
    as [[t|es1]|] eqn:E; [done | | done].
  destruct (Hdirs _ _ E) as [Heq|[es' Hes']].
  - by apply ChunkNameFacts.chunk_path_not_dir in Heq.
  - specialize (Hfree k Hk). unfold Fs.isdir, chunk_file in Hfree.
    rewrite ChunkNameFacts.chunk_path_norm in Hfree. by rewrite Hes' in Hfree. }
  unfold to_csv, Os.write, chunk_file.
  rewrite (FsFacts.write_chunk _ _ _ es) by done.
  eexists. split; [done |]. cbn [w_fs set_fs]. fold (chunk_file k).
  assert (Hne : chunk_file k ≠ Path.norm output_dir)
  by apply ChunkNameFacts.chunk_path_not_dir.
  assert (Hinj : ∀ i, i ≠ k → chunk_file i ≠ chunk_file k).
  { intros i Hi Heq. apply ChunkNameFacts.chunk_path_inj in Heq. lia. }
  split; [|split; [|split]].
  - eexists. split.
  + rewrite lookup_insert_ne by done. apply lookup_insert_eq.
  + intros i Hi. destruct (decide (i = k)) as [->|Hik].
    * apply FsFacts.add_entry_elem.
    * apply FsFacts.add_entry_mono, Hes. lia.
  - intros i Hi. destruct (decide (i = k)) as [->|Hik]; [apply lookup_insert_eq |].
  rewrite lookup_insert_ne by (apply not_eq_sym, Hinj; done).
  rewrite lookup_insert_ne.
  + apply Hfiles. lia.
  + apply not_eq_sym, ChunkNameFacts.chunk_path_not_dir.
  - intros q t Hq. destruct (decide (q = chunk_file k)) as [->|Hqk].
  { left. exists k. split; [lia | done]. }
  rewrite lookup_insert_ne in Hq by done.
  destruct (decide (q = Path.norm output_dir)) as [->|Hqd].
  { by rewrite lookup_insert_eq in Hq. }
  rewrite lookup_insert_ne in Hq by done.
  destruct (Hold q t Hq) as [(i & Hi & ->)|Hw]; [|by right].
  left. exists i. split; [lia | done].
  - intros q es0 Hq. destruct (decide (q = chunk_file k)) as [->|Hqk].
  { by rewrite lookup_insert_eq in Hq. }
  rewrite lookup_insert_ne in Hq by done.
  destruct (decide (q = Path.norm output_dir)) as [->|Hqd]; [by left |].
  rewrite lookup_insert_ne in Hq by done. by apply (Hdirs q es0).
Qed.

Context (Hread : Fs.read (w_fs w) dataset_path = Ok text)
      (Hdata : read_csv_text X text = Ok data)
      (Hdir : Fs.isdir (w_fs w) output_dir = true
              ∨ Fs.exists_ (w_fs w) output_dir = false
                ∧ ∃ fs1, Fs.makedirs (w_fs w) output_dir = Ok fs1).

Lemma split_prepare :
  ∃ w1, split_dataset X dataset_path n_chunks output_dir w
      = for_ (seqZ 0 n_chunks) split_body w1
      ∧ chunks_written 0 (w_fs w1).
Proof.
  unfold split_dataset, read_csv.
  rewrite MFacts.bind_assoc, (MFacts.bind_ok _ _ _ _ _ (Os_read_ok _ _ _ Hread)).
  unfold bind at 1, lift. rewrite Hdata.
  rewrite bool_decide_eq_false_2 by lia. rewrite MFacts.bind_ret_l.
  unfold bind at 1, Os.exists_.
  destruct Hdir as [Hd|(Hex & fs1 & Hmk)].
  - unfold Fs.exists_. rewrite Hd. cbn [orb negb]. rewrite MFacts.bind_ret_l.
  exists w. split; [done |]. unfold Fs.isdir in Hd.
  destruct (w_fs w !! Path.norm output_dir) as [[t|es]|] eqn:E; [done | | done].
  split; [|split; [|split]].
  + exists es. split; [done |]. intros i Hi. lia.
  + intros i Hi. lia.
  + intros q t Hq. by right.
  + intros q es0 Hq. right. by eexists.
  - rewrite Hex. cbn [negb]. unfold bind at 1, Os.makedirs. rewrite Hmk.
  exists (set_fs fs1 w). split; [done |]. cbn [w_fs set_fs].
  destruct (FsFacts.makedirs_spec _ _ _ Hmk) as (Hd & Hfiles & Hdirs).
  split; [|split; [|split]].
  + exists []. split; [done |]. intros i Hi. lia.
  + intros i Hi. lia.
  + intros q t Hq. right. by apply Hfiles.
  + done.
Qed.

(** C1: for a data set of [R] rows and a positive chunk count [N],
  [split_dataset] returns with the output directory in place (created
  if it was absent) and [N] files in it, named [data_chunk_0.csv] to
  [data_chunk_{N-1}.csv], pairwise distinct and entered in the
  listing of the directory; it writes no other file.  File [i] holds
  chunk [i]: each of the first [N-1] chunks has [R / N] rows, the last
  one the remaining [R - (N-1) * (R / N)]; the row counts sum to [R],
  and the chunks in order are the rows of the data set in order. *)
Theorem split_dataset_chunks :
  let R := length (rows data) in
  let N := Z.to_nat n_chunks in
  ∃ w', split_dataset X dataset_path n_chunks output_dir w = (Ok (), w')
  ∧ Fs.isdir (w_fs w') output_dir = true
  ∧ (∀ i, i < N →
       chunk_file i = Path.join output_dir ("data_chunk_" +:+ pretty (Z.of_nat i) +:+ ".csv")
       ∧ w_fs w' !! chunk_file i = Some (File (to_csv_text X (chunk i)))
       ∧ columns (chunk i) = columns data
       ∧ ∃ es, Fs.listdir (w_fs w') output_dir = Ok es
               ∧ "data_chunk_" +:+ pretty (Z.of_nat i) +:+ ".csv" ∈ es)
  ∧ (∀ i j, i < N → j < N → chunk_file i = chunk_file j → i = j)
  ∧ (∀ q t, w_fs w' !! q = Some (File t) →
            (∃ i, i < N ∧ q = chunk_file i) ∨ w_fs w !! q = Some (File t))
  ∧ (∀ i, i < N - 1 → length (rows (chunk i)) = R / N)
  ∧ length (rows (chunk (N - 1))) = R - (N - 1) * (R / N)
  ∧ sum_list (map (λ i, length (rows (chunk i))) (seq 0 N)) = R
  ∧ concat (map (λ i, rows (chunk i)) (seq 0 N)) = rows data.
Proof.
  intros R N. destruct split_prepare as (w1 & -> & H0).
  destruct (MFacts.for_invariant (λ k w2, chunks_written k (w_fs w2))
            (seqZ 0 n_chunks) split_body w1 H0) as (w' & Hrun & Hend).
  { intros k i w2 Hi Hk. apply lookup_seqZ in Hi as [-> Hlt].
  rewrite Z.add_0_l. apply split_step; [lia | done]. }
  rewrite length_seqZ in Hend. fold N in Hend.
  destruct Hend as ((es & Hd & Hes) & Hfiles & Hold & Hdirs).
  assert (Hcat : concat (map (λ i, rows (chunk i)) (seq 0 N)) = rows data).
  { apply ChunkFacts.chunk_rows_concat. lia. }
  exists w'. split; [done |]. split; [by unfold Fs.isdir; rewrite Hd |].
  split; [|split; [|split; [|split; [|split; [|split]]]]].
  - intros i Hi. split; [done |]. split; [by apply Hfiles |]. split; [done |].
  exists es. split; [by unfold Fs.listdir; rewrite Hd | by apply Hes].
  - intros i j _ _ Heq. apply ChunkNameFacts.chunk_path_inj in Heq. lia.
  - done.
  - intros i Hi. unfold chunk. cbn [rows].
  rewrite ChunkFacts.chunk_rows_length by lia.
  by rewrite bool_decide_eq_false_2 by lia.
  - unfold chunk. cbn [rows]. rewrite ChunkFacts.chunk_rows_length by lia.
  by rewrite bool_decide_eq_true_2.
  - unfold R. rewrite <- Hcat, ChunkFacts.length_concat_sum. by rewrite map_map.
  - done.
Qed.

End split_dataset_facts.

Lemma split_dataset_chunks_witness :
  ∃ w', split_dataset X_letters "letters.csv" 3 "chunks/" w_letters = (Ok (), w')
        ∧ w_fs w' !! "chunks/data_chunk_0.csv" = Some (File "a,b")
        ∧ w_fs w' !! "chunks/data_chunk_1.csv" = Some (File "c,d")
        ∧ w_fs w' !! "chunks/data_chunk_2.csv" = Some (File "e,f,g,h").
Proof.
  destruct (split_dataset_chunks X_letters w_letters "letters.csv" "chunks/" "abcdefgh" 3
              (Frame ["letter"]
                 (map (λ c, [CStr (String c "")]) (list_ascii_of_string "abcdefgh"))))
    as (w' & Hrun & _ & Hfiles & _).
  - lia.
  - discriminate.
  - intros i Hi. destruct i as [|[|[|i]]]; [reflexivity.. | simpl in Hi; lia].
  - reflexivity.
  - reflexivity.
  - right. split; [reflexivity |]. eexists. reflexivity.
  - exists w'. split; [exact Hrun |].
    split; [|split].
    + apply (Hfiles 0). simpl. lia.
    + apply (Hfiles 1). simpl. lia.
    + apply (Hfiles 2). simpl. lia.
Defined.

(** * Further properties *)

(** ** The configuration and the stages of [main] *)

Section config_facts.
Context (X : externals).

(** X1: [load_config] never raises.  Either the file is read and
  parsed, and its value is returned with the world as it was; or the
  load fails, one error line is logged and [None] is returned.  The
  file system, the commands and the requests are never touched. *)
Theorem load_config_total w path :
  ∃ v entries,
    load_config X path w = (Ok v, add_log w entries)
    ∧ ((v = JNull ∧ ∃ e, load_fails X w path e ∧ entries = [(ERROR, load_error path e)])
       ∨ (entries = [] ∧ ∃ text, Fs.read (w_fs w) path = Ok text ∧ json_loads X text = Ok v)).
Proof.
  destruct (Fs.read (w_fs w) path) as [text|e] eqn:Hr.
  - destruct (json_loads X text) as [v|e] eqn:Hj.
    + exists v, []. split.
      * rewrite (load_config_ok X w path text v Hr Hj). unfold add_log.
        rewrite List.app_nil_r. by destruct w.
      * right. split; [done |]. by exists text.
    + exists JNull, [(ERROR, load_error path e)]. split.
      * apply load_config_fails. right. by exists text.
      * left. split; [done |]. exists e. split; [|done]. right. by exists text.
  - exists JNull, [(ERROR, load_error path e)]. split.
    + apply load_config_fails. by left.
    + left. split; [done |]. exists e. split; [by left | done].
Qed.

(** X2: a configuration that loads but is falsy (an empty object, an
  empty list, zero, the empty string, [false], [null]) is taken for a
  failed load: [main] logs that it gives up, although [load_config]
  logged no error, and runs no stage, whatever the flags. *)
Theorem main_falsy_config w path text config (clean split map upload : bool) :
  Fs.read (w_fs w) path = Ok text →
  json_loads X text = Ok config →
  Py.truthy config = false →
  main X path clean split map upload w
  = (Ok (), add_log w [(ERROR, "Failed to load configuration. Exiting.")]).
Proof.
  intros Hr Hj Ht. unfold main.
  rewrite (MFacts.bind_ok _ _ _ _ _ (load_config_ok X _ _ _ _ Hr Hj)).
  by rewrite Ht.
Qed.

Lemma getitem_not_object config section :
  is_object config = false → ∃ msg, Py.getitem config section = Raise (TypeError msg).
Proof. destruct config; try done; intros _; by eexists. Qed.

Lemma stage_raise (line : string) config section key e (k : string → M unit) w :
  Py.getitem config section = Raise e →
  (Logging.info line >> do v <- cfg_str config section key; k v) w
  = (Raise e, add_log w [(INFO, line)]).
Proof.
  intros H.
  rewrite (MFacts.bind_ok _ _ _ () (add_log w [(INFO, line)])) by done.
  apply MFacts.bind_raise. by apply cfg_str_raise.
Qed.

(** X3: a configuration that is truthy but not an object (a list, a
  number, a string, [true]) passes the check of [main]; the first
  stage that is enabled then fails with a [TypeError] where it
  subscripts the configuration, right after its opening log line and
  before it touches anything. *)
Theorem main_config_not_object w path text config (clean split map upload : bool) :
  Fs.read (w_fs w) path = Ok text →
  json_loads X text = Ok config →
  Py.truthy config = true →
  is_object config = false →
  clean || split || map || upload = true →
  ∃ msg, main X path clean split map upload w
         = (Raise (TypeError msg),
            add_log w [(INFO, first_stage_line clean split map upload)]).
Proof.
  intros Hr Hj Ht Hobj Hflag.
  destruct (getitem_not_object config "clean_data" Hobj) as [m1 H1].
  destruct (getitem_not_object config "split_dataset" Hobj) as [m2 H2].
  destruct (getitem_not_object config "mapping" Hobj) as [m3 H3].
  assert (m2 = m1 ∧ m3 = m1) as [-> ->].
  { destruct config; simplify_eq/=; done. }
  exists m1. unfold main.
  rewrite (MFacts.bind_ok _ _ _ _ _ (load_config_ok X _ _ _ _ Hr Hj)).
  rewrite Ht. cbn [negb].
  destruct clean.
  { apply MFacts.bind_raise. by apply stage_raise. }
  rewrite MFacts.bind_ret_l. destruct split.
  { apply MFacts.bind_raise. by apply stage_raise. }
  rewrite MFacts.bind_ret_l. destruct map.
  { apply MFacts.bind_raise. by apply stage_raise. }
  rewrite MFacts.bind_ret_l. destruct upload; [|done].
  by apply stage_raise.
Qed.

(** X4: the arguments of a stage are read from the configuration
  before the stage is called.  With the input of the cleaning stage in
  place and its output missing, [main] ends with the exception of the
  lookup after the opening log line of the stage: the data set is not
  read, and no later stage runs. *)
Theorem main_clean_half_configured w path text config input e (split map upload : bool) :
  Fs.read (w_fs w) path = Ok text →
  json_loads X text = Ok config →
  Py.truthy config = true →
  Py.get2 config "clean_data" "input" = Ok (JStr input) →
  Py.get2 config "clean_data" "output" = Raise e →
  main X path true split map upload w
  = (Raise e, add_log w [(INFO, "Cleaning the data ...")]).
Proof.
  intros Hr Hj Ht Hin Hout. unfold main.
  rewrite (MFacts.bind_ok _ _ _ _ _ (load_config_ok X _ _ _ _ Hr Hj)).
  rewrite Ht. cbn [negb]. apply MFacts.bind_raise.
  rewrite (MFacts.bind_ok _ _ _ () (add_log w [(INFO, "Cleaning the data ...")])) by done.
  rewrite (MFacts.bind_ok _ _ _ _ _ (cfg_str_ok _ _ _ _ _ Hin)).
  apply MFacts.bind_raise. unfold cfg_str, cfg, bind, lift. by rewrite Hout.
Qed.

(** X5: the upload stage uploads what the mapping stage was told to
  write: its path is [mapping.output_path], its server and repository
  are the two values of [upload_to_graphDB].  A run with the upload
  stage is the run without it, followed by the upload of that path. *)
Theorem main_upload_source w path text config (clean split map : bool)
    rdf_file_path graphdb_url repository :
  Fs.read (w_fs w) path = Ok text →
  json_loads X text = Ok config →
  Py.truthy config = true →
  Py.get2 config "mapping" "output_path" = Ok (JStr rdf_file_path) →
  Py.get2 config "upload_to_graphDB" "graphDB_url" = Ok (JStr graphdb_url) →
  Py.get2 config "upload_to_graphDB" "graphDB_repo" = Ok (JStr repository) →
  main X path clean split map true w
  = (main X path clean split map false >>
     upload_stage X rdf_file_path graphdb_url repository) w.
Proof.
  intros Hr Hj Ht Hp Hu Hrepo.
  pose proof (load_config_ok X w path text config Hr Hj) as Hload.
  unfold main. rewrite MFacts.bind_assoc.
  rewrite !(MFacts.bind_ok _ _ _ _ _ Hload). rewrite Ht. cbn [negb].
  set (A := if clean then _ else ret ()).
  set (B := if split then _ else ret ()).
  set (C := if map then _ else ret ()).
  rewrite (MFacts.bind_assoc A). apply MFacts.bind_ext. intros _ w1.
  rewrite (MFacts.bind_assoc B). apply MFacts.bind_ext. intros _ w2.
  rewrite (MFacts.bind_assoc C). apply MFacts.bind_ext. intros _ w3.
  rewrite MFacts.bind_ret_l.
  unfold upload_stage. unfold bind at 1 5. unfold Logging.info, Logging.log.
  rewrite (MFacts.bind_ok _ _ _ _ _ (cfg_str_ok _ _ _ _ _ Hp)).
  rewrite (MFacts.bind_ok _ _ _ _ _ (cfg_str_ok _ _ _ _ _ Hu)).
  by rewrite (MFacts.bind_ok _ _ _ _ _ (cfg_str_ok _ _ _ _ _ Hrepo)).
Qed.

End config_facts.

Lemma main_falsy_config_witness :
  main (X_config (JObj [])) "config.json" true true true true w_sample
  = (Ok (), add_log w_sample [(ERROR, "Failed to load configuration. Exiting.")]).
Proof.
  apply (main_falsy_config (X_config (JObj [])) w_sample "config.json" "{}" (JObj []));
    reflexivity.
Defined.

Lemma main_config_not_object_witness :
  ∃ msg, main (X_config (JArr [JInt 1])) "config.json" false true true false w_sample
         = (Raise (TypeError msg), add_log w_sample [(INFO, "Splitting the dataset ...")]).
Proof.
  apply (main_config_not_object (X_config (JArr [JInt 1])) w_sample "config.json" "{}"
           (JArr [JInt 1]) false true true false);
    reflexivity.
Defined.

Lemma main_clean_half_configured_witness :
  main (X_config (JObj [("clean_data", JObj [("input", JStr "raw.csv")])])) "config.json"
       true true true true w_sample
  = (Raise (KeyError "output"), add_log w_sample [(INFO, "Cleaning the data ...")]).
Proof.
  apply (main_clean_half_configured
           (X_config (JObj [("clean_data", JObj [("input", JStr "raw.csv")])]))
           w_sample "config.json" "{}"
           (JObj [("clean_data", JObj [("input", JStr "raw.csv")])]) "raw.csv"
           (KeyError "output") true true true);
    reflexivity.
Defined.

Lemma main_upload_source_witness :
  main X_echo "config.json" false false false true w_pipeline
  = (Ok (),
     World (w_fs w_pipeline)
       [ (INFO, "Uploading RDF data to GraphDB ...");
         (INFO, "Uploading file: output_0_0.ttl");
         (INFO, "RDF file kg/output_0_0.ttl uploaded to repository sensors.");
         (INFO, "Uploading file: output_1_0.ttl");
         (INFO, "RDF file kg/output_1_0.ttl uploaded to repository sensors.") ]
       []
       [ Request "http://localhost:7200/repositories/sensors/statements"
                 [("Content-Type", "text/turtle")] "<a> <b> <c> .";
         Request "http://localhost:7200/repositories/sensors/statements"
                 [("Content-Type", "text/turtle")] "<d> <e> <f> ." ]).
Proof.
  rewrite (main_upload_source X_echo w_pipeline "config.json" "{}" sample_config
             false false false "kg/" "http://localhost:7200" "sensors");
    [| reflexivity..].
  reflexivity.
Defined.

(** ** How one run of the mapper can end *)

Section execute_rml_ends.
Context (X : externals).

Lemma read_no_process_error fs p :
  raises_only (λ e, negb (is_process_error e)) (Fs.read fs p).
Proof. unfold Fs.read. repeat case_match; done. Qed.

Lemma write_no_process_error fs p text :
  raises_only (λ e, negb (is_process_error e)) (Fs.write fs p text).
Proof. unfold Fs.write. repeat case_match; done. Qed.

Lemma remove_no_process_error fs p :
  raises_only (λ e, negb (is_process_error e)) (Fs.remove fs p).
Proof. unfold Fs.remove. repeat case_match; done. Qed.

(** X6: [execute_rml] never raises [CalledProcessError], whatever the
  mapper does and whatever the file system holds: the exception of a
  failed run is caught where it is raised. *)
Theorem execute_rml_never_process_error w csv_file rml_file output_file mapper_path :
  raises_only (λ e, negb (is_process_error e))
    (execute_rml X csv_file rml_file output_file mapper_path w).1.
Proof.
  unfold execute_rml, bind, Os.read.
  pose proof (read_no_process_error (w_fs w) rml_file) as Hr.
  destruct (Fs.read (w_fs w) rml_file) as [template|e]; [|done].
  unfold Os.write.
  pose proof (write_no_process_error (w_fs w) tmp_rml_file
                (Str.replace "{csv_file_path}" csv_file template)) as Hw.
  destruct (Fs.write _ _ _) as [fs1|e]; [|done].
  unfold try_except, subprocess_run. cbn [w_fs set_fs w_log w_procs w_reqs].
  set (r := run_shell X _ _).
  assert (Hrm : ∀ w1, raises_only (λ e, negb (is_process_error e))
                        (Os.remove tmp_rml_file w1).1).
  { intros w1. unfold Os.remove.
    pose proof (remove_no_process_error (w_fs w1) tmp_rml_file).
    by destruct (Fs.remove _ _). }
  case_bool_decide.
  - match goal with |- context [Os.remove _ ?w1] => specialize (Hrm w1) end.
    by destruct (Os.remove _ _) as [[|] ?].
  - unfold Logging.error, Logging.log.
    match goal with |- context [Os.remove _ ?w1] => specialize (Hrm w1) end.
    by destruct (Os.remove _ _) as [[|] ?].
Qed.

Lemma remove_tmp_gone w :
  w_fs w !! tmp_rml_file = None →
  Os.remove tmp_rml_file w = (Raise (FileNotFoundError tmp_rml_file), w).
Proof.
  intros H. unfold Os.remove, Fs.remove, Fs.isdir.
  change (Path.norm tmp_rml_file) with tmp_rml_file. by rewrite H.
Qed.

(** X7: the clean-up is not guarded.  If the mapper has removed the
  temporary rule file itself, [execute_rml] ends with the
  [FileNotFoundError] of [os.remove], after the command has run and,
  for an exit code other than zero, after its error line. *)
Theorem execute_rml_tmp_gone w csv_file rml_file output_file mapper_path template :
  Fs.read (w_fs w) rml_file = Ok template →
  Fs.isdir (w_fs w) tmp_rml_file = false →
  let command := java_command mapper_path output_file in
  let rule := Str.replace "{csv_file_path}" csv_file template in
  let r := run_shell X command (<[tmp_rml_file := File rule]> (w_fs w)) in
  fs_after r !! tmp_rml_file = None →
  execute_rml X csv_file rml_file output_file mapper_path w
  = (Raise (FileNotFoundError tmp_rml_file),
     World (fs_after r) (w_log w ++ mapper_log r) (w_procs w ++ [command]) (w_reqs w)).
Proof.
  intros Hread Hdir command rule r Hgone. unfold execute_rml.
  rewrite (MFacts.bind_ok _ _ _ _ _ (Os_read_ok _ _ _ Hread)).
  rewrite (MFacts.bind_ok _ _ _ _ _ (Os_write_tmp _ _ Hdir)).
  fold command rule. unfold bind at 1, try_except, subprocess_run.
  cbn [w_fs set_fs w_log w_procs w_reqs]. fold r.
  unfold mapper_log. case_bool_decide as Hcode.
  - rewrite remove_tmp_gone by done. by rewrite List.app_nil_r.
  - unfold Logging.error, Logging.log, add_log. cbn [w_fs w_log w_procs w_reqs].
    by rewrite remove_tmp_gone.
Qed.

(** X8: the CSV path reaches the mapper through the placeholder only.
  For a rule template without [{csv_file_path}] the run is the same
  whatever CSV file it is called for. *)
Theorem execute_rml_without_placeholder w csv_file csv_file' rml_file output_file
    mapper_path template :
  Fs.read (w_fs w) rml_file = Ok template →
  Str.contains "{csv_file_path}" template = false →
  execute_rml X csv_file rml_file output_file mapper_path w
  = execute_rml X csv_file' rml_file output_file mapper_path w.
Proof.
  intros Hread Habs. unfold execute_rml.
  rewrite !(MFacts.bind_ok _ _ _ _ _ (Os_read_ok _ _ _ Hread)).
  by rewrite !(ReplaceFacts.replace_absent _ _ _ Habs).
Qed.

End execute_rml_ends.

Lemma execute_rml_tmp_gone_witness :
  execute_rml X_tidy_mapper "chunk.csv" "mapper.rml.ttl" "out.ttl" "rmlmapper.jar" w_rule
  = (Raise (FileNotFoundError "tmp_mapping.rml.ttl"),
     World (w_fs w_rule) [] [java_command "rmlmapper.jar" "out.ttl"] []).
Proof.
  rewrite (execute_rml_tmp_gone X_tidy_mapper w_rule "chunk.csv" "mapper.rml.ttl"
             "out.ttl" "rmlmapper.jar" "source {csv_file_path}");
    [| reflexivity | reflexivity | reflexivity].
  f_equal.
Defined.

Lemma execute_rml_without_placeholder_witness :
  execute_rml X_null "chunks/data_chunk_0.csv" "mapper.rml.ttl" "out.ttl" "rmlmapper.jar"
    w_plain_rule
  = execute_rml X_null "chunks/data_chunk_1.csv" "mapper.rml.ttl" "out.ttl" "rmlmapper.jar"
      w_plain_rule.
Proof.
  apply (execute_rml_without_placeholder X_null w_plain_rule "chunks/data_chunk_0.csv"
           "chunks/data_chunk_1.csv" "mapper.rml.ttl" "out.ttl" "rmlmapper.jar"
           "source data.csv");
    reflexivity.
Defined.

(** ** Loops that log, and loops that leave a trace *)

Module LoopFacts.

Lemma info_lines_app l1 l2 : info_lines (l1 ++ l2) = info_lines l1 ++ info_lines l2.
Proof. apply omap_app. Qed.

Lemma length_enumerate_from {A} (i : nat) (l : list A) :
  length (Py.enumerate_from i l) = length l.
Proof. revert i. induction l as [|x l IH]; intros i; simpl; [done | by rewrite IH]. Qed.

(** A loop whose rounds only write one and the same line to the log. *)
Lemma for_same_line {A} (l : list A) (body : A → M unit) (line : level * string) w :
  (∀ x w1, w_fs w1 = w_fs w → body x w1 = (Ok (), add_log w1 [line])) →
  for_ l body w = (Ok (), add_log w (replicate (length l) line)).
Proof.
  intros Hbody. revert w Hbody. induction l as [|x l IH]; intros w Hbody.
  - cbn. unfold ret, add_log. rewrite List.app_nil_r. by destruct w.
  - cbn [for_]. rewrite (MFacts.bind_ok _ _ _ _ _ (Hbody x w eq_refl)).
    rewrite IH.
    + by rewrite MFacts.add_log_app.
    + intros y w1 Hfs. apply Hbody. by rewrite Hfs.
Qed.

(** A loop whose rounds keep [P] and add their commands and their lines. *)
Lemma for_trace {A} (P : world → Prop) (cmds lines : A → list string)
    (l : list A) (body : A → M unit) :
  (∀ x w1, x ∈ l → P w1 →
     ∃ w2, body x w1 = (Ok (), w2) ∧ P w2
           ∧ w_procs w2 = w_procs w1 ++ cmds x
           ∧ info_lines (w_log w2) = info_lines (w_log w1) ++ lines x) →
  ∀ w1, P w1 →
    ∃ w2, for_ l body w1 = (Ok (), w2) ∧ P w2
          ∧ w_procs w2 = w_procs w1 ++ flat_map cmds l
          ∧ info_lines (w_log w2) = info_lines (w_log w1) ++ flat_map lines l.
Proof.
  induction l as [|x l IH]; intros Hbody w1 HP.
  - exists w1. cbn. by rewrite !List.app_nil_r.
  - destruct (Hbody x w1) as (w2 & Hx & HP2 & Hc2 & Hl2); [by left | done |].
    destruct IH with (w1 := w2) as (w3 & Hrest & HP3 & Hc3 & Hl3); [|done |].
    { intros y w' Hy. apply Hbody. by right. }
    exists w3. cbn [for_ flat_map]. rewrite (MFacts.bind_ok _ _ _ _ _ Hx).
    split; [done |]. split; [done |].
    rewrite Hc3, Hc2, Hl3, Hl2. by rewrite !List.app_assoc.
Qed.

(** A loop whose rounds keep [P] and are steps on the world. *)
Lemma for_fold {A} (P : world → Prop) (step : world → A → world) (l : list A)
    (body : A → M unit) w :
  (∀ x w1, x ∈ l → P w1 → body x w1 = (Ok (), step w1 x) ∧ P (step w1 x)) →
  P w →
  for_ l body w = (Ok (), foldl step w l) ∧ P (foldl step w l).
Proof.
  revert w. induction l as [|x l IH]; intros w Hbody HP; [done |].
  destruct (Hbody x w) as [Hx HPx]; [by left | done |].
  cbn [for_ foldl]. rewrite (MFacts.bind_ok _ _ _ _ _ Hx).
  apply IH; [|done]. intros y w1 Hy. apply Hbody. by right.
Qed.

Lemma foldl_flat_map {A B C} (f : A → B → A) (g : C → list B) (a : A) (l : list C) :
  foldl f a (flat_map g l) = foldl (λ a1 x, foldl f a1 (g x)) a l.
Proof.
  revert a. induction l as [|x l IH]; intros a; [done |].
  cbn [flat_map foldl]. by rewrite foldl_app, IH.
Qed.

Lemma foldl_map {A B C} (f : A → B → A) (g : C → B) (a : A) (l : list C) :
  foldl f a (map g l) = foldl (λ a1 x, f a1 (g x)) a l.
Proof. revert a. induction l as [|x l IH]; intros a; [done |]. cbn. apply IH. Qed.

End LoopFacts.

(** ** The branches of [mapping] *)

Section mapping_more.
Context (X : externals).
Import LoopFacts.

(** X9: [mapping] returns without doing or logging anything in three
  cases: the rule path is neither a directory nor a file (there is no
  branch for it), the rule directory is empty, or the rule path is a
  file and the CSV directory is empty (the unbound variable is read in
  the loop only). *)
Theorem mapping_nothing_to_map w csv_file_path rml_path output_dir mapper_path :
  (Fs.isdir (w_fs w) rml_path = false → Fs.isfile (w_fs w) rml_path = false →
   mapping X csv_file_path rml_path output_dir mapper_path w = (Ok (), w))
  ∧ (Fs.isdir (w_fs w) rml_path = true → Fs.listdir (w_fs w) rml_path = Ok [] →
     mapping X csv_file_path rml_path output_dir mapper_path w = (Ok (), w))
  ∧ (Fs.isdir (w_fs w) rml_path = false → Fs.isfile (w_fs w) rml_path = true →
     Fs.isdir (w_fs w) csv_file_path = true → Fs.listdir (w_fs w) csv_file_path = Ok [] →
     mapping X csv_file_path rml_path output_dir mapper_path w = (Ok (), w)).
Proof.
  unfold mapping, bind, Os.isdir, Os.isfile, Os.listdir. repeat split.
  - by intros -> ->.
  - by intros -> ->.
  - by intros -> -> -> ->.
Qed.

(** X10: a CSV path that is neither a directory nor a file is not an
  exception: [mapping] logs [Invalid CSV file path] and returns, once
  for a rule file and once per entry for a rule directory, where the
  check sits inside the loop over the rules. *)
Theorem mapping_invalid_csv_path w csv_file_path rml_path output_dir mapper_path :
  Fs.isdir (w_fs w) csv_file_path = false →
  Fs.isfile (w_fs w) csv_file_path = false →
  (Fs.isdir (w_fs w) rml_path = false → Fs.isfile (w_fs w) rml_path = true →
   mapping X csv_file_path rml_path output_dir mapper_path w
   = (Ok (), add_log w [(ERROR, "Invalid CSV file path")]))
  ∧ (∀ rules,
       Fs.isdir (w_fs w) rml_path = true → Fs.listdir (w_fs w) rml_path = Ok rules →
       mapping X csv_file_path rml_path output_dir mapper_path w
       = (Ok (), add_log w (replicate (length rules) (ERROR, "Invalid CSV file path")))).
Proof.
  intros Hcd Hcf. split.
  - intros Hrd Hrf. unfold mapping, bind, Os.isdir, Os.isfile.
    by rewrite Hrd, Hrf, Hcd, Hcf.
  - intros rules Hrd Hrl. unfold mapping, bind at 1, Os.isdir. rewrite Hrd.
    unfold bind at 1, Os.listdir. rewrite Hrl.
    rewrite (for_same_line _ _ (ERROR, "Invalid CSV file path")).
    + unfold Py.enumerate. by rewrite length_enumerate_from.
    + intros [j rule] w1 Hfs. unfold bind, Os.isdir, Os.isfile. cbv beta iota.
      rewrite Hfs, Hcd. cbv beta iota. by rewrite Hfs, Hcf.
Qed.

(** X11: the path of a rule file is the rule path and the entry put
  together as they are.  If no file is stored under that text, as for
  a rule directory given without its final separator, the batch ends
  in its first round with the exception of the [open], after the log
  line of the round and before any command. *)
Theorem mapping_concatenates_paths w csv_file_path rml_path output_dir mapper_path
    rule rules csv csvs e :
  Fs.isdir (w_fs w) rml_path = true →
  Fs.listdir (w_fs w) rml_path = Ok (rule :: rules) →
  Fs.isdir (w_fs w) csv_file_path = true →
  Fs.listdir (w_fs w) csv_file_path = Ok (csv :: csvs) →
  Fs.read (w_fs w) (rml_path +:+ rule) = Raise e →
  mapping X csv_file_path rml_path output_dir mapper_path w
  = (Raise e, add_log w [(INFO, "Processing file: " +:+ csv +:+ ", RML: " +:+ rule)]).
Proof.
  intros Hrd Hrl Hcd Hcl Hread.
  unfold mapping, bind at 1, Os.isdir. rewrite Hrd.
  unfold bind at 1, Os.listdir. rewrite Hrl.
  cbn [Py.enumerate Py.enumerate_from for_].
  apply MFacts.bind_raise. unfold bind at 1. rewrite Hcd.
  unfold bind at 1. rewrite Hcl. cbn [Py.enumerate Py.enumerate_from for_].
  apply MFacts.bind_raise.
  rewrite (MFacts.bind_ok _ _ _ ()
             (add_log w [(INFO, "Processing file: " +:+ csv +:+ ", RML: " +:+ rule)]))
    by done.
  unfold execute_rml. apply MFacts.bind_raise. unfold Os.read. cbn [w_fs add_log].
  by rewrite Hread.
Qed.

End mapping_more.

Lemma mapping_nothing_to_map_witness :
  mapping X_null "chunks/" "nowhere" "kg/" "rmlmapper.jar" w_batch = (Ok (), w_batch).
Proof.
  destruct (mapping_nothing_to_map X_null w_batch "chunks/" "nowhere" "kg/" "rmlmapper.jar")
    as (H & _ & _).
  apply H; reflexivity.
Defined.

Lemma mapping_invalid_csv_path_witness :
  mapping X_null "nowhere" "rules/" "kg/" "rmlmapper.jar" w_batch
  = (Ok (), add_log w_batch [ (ERROR, "Invalid CSV file path");
                              (ERROR, "Invalid CSV file path") ]).
Proof.
  destruct (mapping_invalid_csv_path X_null w_batch "nowhere" "rules/" "kg/" "rmlmapper.jar"
              eq_refl eq_refl) as (_ & H).
  apply (H ["a.rml.ttl"; "b.rml.ttl"]); reflexivity.
Defined.

Lemma mapping_concatenates_paths_witness :
  mapping X_null "chunks/" "rules" "kg/" "rmlmapper.jar" w_batch
  = (Raise (FileNotFoundError "rulesa.rml.ttl"),
     add_log w_batch [(INFO, "Processing file: data_chunk_0.csv, RML: a.rml.ttl")]).
Proof.
  apply (mapping_concatenates_paths X_null w_batch "chunks/" "rules" "kg/" "rmlmapper.jar"
           "a.rml.ttl" ["b.rml.ttl"] "data_chunk_0.csv" ["data_chunk_1.csv"]);
    reflexivity.
Defined.

(** ** The runs of the mapper over a directory of rules *)

Section mapping_grid_facts.
Context (X : externals).
Import LoopFacts.

Lemma execute_rml_run w csv_file rml_file output_file mapper_path template :
  Fs.read (w_fs w) rml_file = Ok template →
  Fs.isdir (w_fs w) tmp_rml_file = false →
  keeps_tmp X →
  let command := java_command mapper_path output_file in
  let rule := Str.replace "{csv_file_path}" csv_file template in
  let r := run_shell X command (<[tmp_rml_file := File rule]> (w_fs w)) in
  execute_rml X csv_file rml_file output_file mapper_path w
  = (Ok (), World (delete tmp_rml_file (fs_after r)) (w_log w ++ mapper_log r)
                  (w_procs w ++ [command]) (w_reqs w)).
Proof.
  intros Hread Hdir Hkeep command rule r. unfold execute_rml.
  rewrite (MFacts.bind_ok _ _ _ _ _ (Os_read_ok _ _ _ Hread)).
  rewrite (MFacts.bind_ok _ _ _ _ _ (Os_write_tmp _ _ Hdir)).
  destruct (Hkeep command (<[tmp_rml_file := File rule]> (w_fs w)) rule)
    as [text' Htmp]; [apply lookup_insert_eq |].
  fold command rule. unfold bind at 1, try_except, subprocess_run.
  cbn [w_fs set_fs w_log w_procs w_reqs]. fold r.
  unfold mapper_log. case_bool_decide as Hcode.
  - rewrite (Os_remove_tmp _ text') by done.
    unfold set_fs. cbn [w_fs w_log w_procs w_reqs]. by rewrite List.app_nil_r.
  - unfold Logging.error, Logging.log, add_log. cbn [w_fs w_log w_procs w_reqs].
    by rewrite (Os_remove_tmp _ text') by done.
Qed.

Lemma info_lines_mapper_log r : info_lines (mapper_log r) = [].
Proof. unfold mapper_log. by case_bool_decide. Qed.

Lemma isdir_tmp fs : fs !! tmp_rml_file = None → Fs.isdir fs tmp_rml_file = false.
Proof.
  intros H. unfold Fs.isdir. change (Path.norm tmp_rml_file) with tmp_rml_file.
  by rewrite H.
Qed.

Lemma read_lookup fs p text : Fs.read fs p = Ok text ↔ fs !! p = Some (File text).
Proof.
  unfold Fs.read. destruct (fs !! p) as [[t|es]|]; [| |destruct (Fs.isdir fs p)];
    split; intros H; by simplify_eq.
Qed.

(** One run of the mapper, for a mapper that leaves the paths [keep]
  alone: they hold what they held in [w0]. *)
Lemma execute_rml_kept (keep : string → Prop) w0 w1 csv_file rml_file output_file
    mapper_path template :
  keeps_tmp X → preserves X keep → ¬ keep tmp_rml_file →
  keep rml_file → Fs.read (w_fs w0) rml_file = Ok template →
  (∀ p, keep p → w_fs w1 !! p = w_fs w0 !! p) →
  Fs.isdir (w_fs w1) tmp_rml_file = false →
  w_reqs w1 = w_reqs w0 →
  ∃ w2, execute_rml X csv_file rml_file output_file mapper_path w1 = (Ok (), w2)
        ∧ ((∀ p, keep p → w_fs w2 !! p = w_fs w0 !! p)
           ∧ Fs.isdir (w_fs w2) tmp_rml_file = false
           ∧ w_reqs w2 = w_reqs w0)
        ∧ w_procs w2 = w_procs w1 ++ [java_command mapper_path output_file]
        ∧ info_lines (w_log w2) = info_lines (w_log w1).
Proof.
  intros Hkeep Hpres Hnot Hrule Hread Hsame Hdir Hreqs.
  assert (Hread1 : Fs.read (w_fs w1) rml_file = Ok template).
  { apply read_lookup. rewrite (Hsame _ Hrule). by apply read_lookup. }
  eexists. split; [by apply execute_rml_run |].
  cbn [w_fs w_log w_procs w_reqs]. repeat split.
  - intros p Hp. assert (p ≠ tmp_rml_file) by (by intros ->).
    rewrite lookup_delete_ne by done. rewrite Hpres by done.
    rewrite lookup_insert_ne by done. by apply Hsame.
  - apply isdir_tmp, lookup_delete_eq.
  - done.
  - by rewrite info_lines_app, info_lines_mapper_log, List.app_nil_r.
Qed.

Lemma flat_map_singleton {A B} (f : A → B) (l : list A) :
  flat_map (λ x, [f x]) l = map f l.
Proof. induction l as [|x l IH]; [done |]. cbn. by rewrite IH. Qed.

Lemma map_enumerate_from {A B} (f : A → B) (i : nat) (l : list A) :
  map (λ x, f x.2) (Py.enumerate_from i l) = map f l.
Proof. revert i. induction l as [|x l IH]; intros i; [done |]. cbn. by rewrite IH. Qed.

Lemma flat_map_enumerate_from {A B} (f : A → list B) (i : nat) (l : list A) :
  flat_map (λ x, f x.2) (Py.enumerate_from i l) = flat_map f l.
Proof. revert i. induction l as [|x l IH]; intros i; [done |]. cbn. by rewrite IH. Qed.

Lemma elem_of_enumerate_from {A} (i : nat) (l : list A) (x : nat * A) :
  x ∈ Py.enumerate_from i l → x.2 ∈ l.
Proof.
  revert i. induction l as [|y l IH]; intros i; cbn; intros H.
  - by apply elem_of_nil in H.
  - apply elem_of_cons in H as [->|H]; [by left | right; by eapply IH].
Qed.

Lemma length_grid_commands mapper_path output_dir (rules csvs : list string) :
  length (grid_commands mapper_path output_dir rules csvs) = length rules * length csvs.
Proof.
  unfold grid_commands, Py.enumerate at 2. generalize 0.
  induction rules as [|r rs IH]; intros n; [done |].
  cbn [Py.enumerate_from flat_map]. rewrite length_app, length_map, IH.
  unfold Py.enumerate. rewrite length_enumerate_from. cbn [length]. lia.
Qed.

Section grid.
Context (w : world) (csv_file_path rml_path output_dir mapper_path : string)
    (rules : list string).
Local Abbreviation keep := (mapping_inputs csv_file_path rml_path rules).
Context (Hkeep : keeps_tmp X)
    (Hpres : preserves X keep)
    (Hnot : ¬ keep tmp_rml_file)
    (Hrd : Fs.isdir (w_fs w) rml_path = true)
    (Hrl : Fs.listdir (w_fs w) rml_path = Ok rules)
    (Hrules : ∀ rule, rule ∈ rules →
                ∃ template, Fs.read (w_fs w) (rml_path +:+ rule) = Ok template)
    (Htmp : Fs.isdir (w_fs w) tmp_rml_file = false).

Local Abbreviation kept := (λ w1 : world,
  (∀ p, keep p → w_fs w1 !! p = w_fs w !! p)
  ∧ Fs.isdir (w_fs w1) tmp_rml_file = false
  ∧ w_reqs w1 = w_reqs w).

Lemma kept_start : kept w.
Proof. done. Qed.

Lemma kept_isdir w1 : kept w1 → Fs.isdir (w_fs w1) csv_file_path = Fs.isdir (w_fs w) csv_file_path.
Proof.
  intros (Hsame & _). unfold Fs.isdir. rewrite Hsame; [done |]. right. by left.
Qed.

Lemma kept_listdir w1 :
  kept w1 → Fs.listdir (w_fs w1) csv_file_path = Fs.listdir (w_fs w) csv_file_path.
Proof.
  intros (Hsame & _). unfold Fs.listdir. rewrite Hsame; [done |]. right. by left.
Qed.

Lemma kept_isfile w1 : kept w1 → Fs.isfile (w_fs w1) csv_file_path = Fs.isfile (w_fs w) csv_file_path.
Proof.
  intros (Hsame & _). unfold Fs.isfile. rewrite Hsame; [done |]. by left.
Qed.

(** The commands and the lines of the runs over a directory of rules
  and a directory of CSV files. *)
Lemma grid_trace csvs :
  Fs.isdir (w_fs w) csv_file_path = true →
  Fs.listdir (w_fs w) csv_file_path = Ok csvs →
  ∃ w', mapping X csv_file_path rml_path output_dir mapper_path w = (Ok (), w')
        ∧ w_procs w' = w_procs w ++ grid_commands mapper_path output_dir rules csvs
        ∧ length (w_procs w') = length (w_procs w) + length rules * length csvs
        ∧ info_lines (w_log w') = info_lines (w_log w) ++ grid_lines rules csvs
        ∧ w_reqs w' = w_reqs w
        ∧ ∀ p, keep p → w_fs w' !! p = w_fs w !! p.
Proof.
  intros Hcd Hcl.
  unfold mapping, bind at 1, Os.isdir. rewrite Hrd.
  unfold bind at 1, Os.listdir. rewrite Hrl.
  match goal with |- context [for_ ?l ?body] =>
    destruct (for_trace kept
                (λ '(j, _), map (λ '(i, _), java_command mapper_path (grid_output output_dir i j))
                                (Py.enumerate csvs))
                (λ x, map (λ csv, "Processing file: " +:+ csv +:+ ", RML: " +:+ x.2) csvs)
                l body)
      with (w1 := w) as (w' & Hrun & (Hsame & _ & Hreqs) & Hprocs & Hlines)
  end.
  - intros [j rule] w1 Hin HP.
    apply elem_of_enumerate_from in Hin. cbn [snd] in Hin.
    unfold bind at 1. rewrite (kept_isdir _ HP), Hcd.
    unfold bind at 1. rewrite (kept_listdir _ HP), Hcl.
    match goal with |- context [for_ ?l ?body] =>
      destruct (for_trace kept
                  (λ '(i, _), [java_command mapper_path (grid_output output_dir i j)])
                  (λ x, ["Processing file: " +:+ x.2 +:+ ", RML: " +:+ rule])
                  l body)
        with (w1 := w1) as (w2 & Hrun & HP2 & Hprocs & Hlines)
    end.
    + intros [i csv] w2 _ (Hsame & Hdir & Hreqs).
      destruct (Hrules rule Hin) as [template Hread].
      destruct (execute_rml_kept keep w
                  (add_log w2 [(INFO, "Processing file: " +:+ csv +:+ ", RML: " +:+ rule)])
                  (csv_file_path +:+ csv) (rml_path +:+ rule)
                  (grid_output output_dir i j) mapper_path template)
        as (w3 & Hexec & HP3 & Hprocs & Hlines); try done.
      { right. right. by exists rule. }
      exists w3. split; [|split; [done |]; split; [done |]].
      * unfold bind, Logging.info, Logging.log. exact Hexec.
      * rewrite Hlines. cbn [add_log w_log]. by rewrite info_lines_app.
    + done.
    + exists w2. split; [exact Hrun |]. split; [done |]. split.
      * rewrite Hprocs. f_equal.
        rewrite <- (flat_map_singleton
                     (λ '(i, _), java_command mapper_path (grid_output output_dir i j))).
        apply flat_map_ext. by intros [i csv].
      * rewrite Hlines. f_equal. cbn [snd].
        rewrite (flat_map_singleton
                   (λ x : nat * string, "Processing file: " +:+ x.2 +:+ ", RML: " +:+ rule)).
        apply (map_enumerate_from (λ csv, "Processing file: " +:+ csv +:+ ", RML: " +:+ rule)).
  - apply kept_start.
  - exists w'. split; [exact Hrun |]. split; [exact Hprocs |]. split.
    { rewrite Hprocs, length_app. f_equal. apply length_grid_commands. }
    split; [|done]. rewrite Hlines. f_equal.
    apply (flat_map_enumerate_from
             (λ rule, map (λ csv, "Processing file: " +:+ csv +:+ ", RML: " +:+ rule) csvs)).
Qed.

(** One run of the batch, as a step on the world: the rule is the one
  the file system held at the start. *)
Lemma execute_rml_step w1 line csv_file rule output_file :
  rule ∈ rules → kept w1 →
  let w2 := mapper_run X (java_command mapper_path output_file)
              (rule_for (w_fs w) csv_file (rml_path +:+ rule))
              (add_log w1 [(INFO, line)]) in
  (Logging.info line >>
   execute_rml X csv_file (rml_path +:+ rule) output_file mapper_path) w1 = (Ok (), w2)
  ∧ kept w2.
Proof.
  intros Hin (Hsame & Hdir & Hreqs) w2.
  destruct (Hrules rule Hin) as [template Hread].
  assert (Hrule : keep (rml_path +:+ rule)) by (right; right; by exists rule).
  assert (Hread1 : Fs.read (w_fs (add_log w1 [(INFO, line)])) (rml_path +:+ rule)
                   = Ok template).
  { apply read_lookup. cbn [add_log w_fs]. rewrite (Hsame _ Hrule). by apply read_lookup. }
  destruct (execute_rml_kept keep w (add_log w1 [(INFO, line)]) csv_file
              (rml_path +:+ rule) output_file mapper_path template)
    as (w3 & Hexec & HP3 & _); try done.
  pose proof (execute_rml_run _ csv_file _ output_file mapper_path _
                Hread1 Hdir Hkeep) as Hrun.
  cbv zeta in Hrun. rewrite Hexec in Hrun. injection Hrun as Hw3.
  assert (Hw2 : w3 = w2).
  { rewrite Hw3. subst w2. unfold mapper_run, rule_for. by rewrite Hread. }
  rewrite <- Hw2. split; [|done].
  unfold bind, Logging.info, Logging.log. exact Hexec.
Qed.



End grid.

End mapping_grid_facts.



Section mapping_single.
Context (X : externals).


End mapping_single.


(** ** Uploads: a single file, an unreadable entry, and what is never done *)

Section upload_more.
Context (X : externals).

(** X15: for a path that is not a directory, a readable file is
  posted as it is to [<url>/repositories/<repository>/statements] with
  the content type [text/turtle], without the [Uploading file] line of
  the batch, and the answer is logged as in the batch; a path that is
  no file either gives the error line [Invalid file path.] and no
  request. *)
Theorem upload_rdf_data_not_directory w rdf_file_path graphdb_url repository :
  Fs.isdir (w_fs w) rdf_file_path = false →
  (∀ text,
     Fs.read (w_fs w) rdf_file_path = Ok text →
     let req := Request (graphdb_url +:+ "/repositories/" +:+ repository +:+ "/statements")
                        [("Content-Type", "text/turtle")] text in
     let w1 := World (w_fs w) (w_log w) (w_procs w) (w_reqs w ++ [req]) in
     upload_rdf_data_to_graphdb X rdf_file_path graphdb_url repository w
     = match http_post X (w_reqs w) req with
       | Response code body =>
           (Ok (), add_log w1 (response_log repository rdf_file_path (Response code body)))
       | NoResponse msg => (Raise (ConnectionError msg), w1)
       end)
  ∧ (Fs.isfile (w_fs w) rdf_file_path = false →
     upload_rdf_data_to_graphdb X rdf_file_path graphdb_url repository w
     = (Ok (), add_log w [(ERROR, "Invalid file path.")])).
Proof.
  intros Hdir. split.
  - intros text Hread req w1.
    assert (Hfile : Fs.isfile (w_fs w) rdf_file_path = true).
    { unfold Fs.isfile. apply read_lookup in Hread. by rewrite Hread. }
    unfold upload_rdf_data_to_graphdb, bind at 1, Os.isdir. rewrite Hdir.
    unfold bind at 1, Os.isfile. rewrite Hfile.
    rewrite (upload_response X w graphdb_url repository rdf_file_path text Hread).
    unfold rdf_request. by rewrite Hread.
  - intros Hfile. unfold upload_rdf_data_to_graphdb, bind, Os.isdir, Os.isfile.
    by rewrite Hdir, Hfile.
Qed.

Section batch_unreadable.
Context (w : world) (rdf_file_path graphdb_url repository : string)
    (files : list string).
Local Abbreviation batch_request := (batch_request w rdf_file_path graphdb_url repository).
Local Abbreviation batch_sent := (batch_sent w rdf_file_path graphdb_url repository files).
Local Abbreviation batch_answer :=
  (batch_answer X w rdf_file_path graphdb_url repository files).
Local Abbreviation file_lines := (file_lines X w rdf_file_path graphdb_url repository files).
Local Abbreviation batch_lines :=
  (batch_lines X w rdf_file_path graphdb_url repository files).
Local Abbreviation batch_world :=
  (batch_world X w rdf_file_path graphdb_url repository files).
Local Abbreviation batch_body := (batch_body X rdf_file_path graphdb_url repository).

Lemma batch_step_readable k file text code body :
  files !! k = Some file →
  Fs.read (w_fs w) (Path.join rdf_file_path file) = Ok text →
  batch_answer k file = Response code body →
  batch_body file (batch_world k) = (Ok (), batch_world (S k)).
Proof.
  intros H Htext Hanswer.
  unfold batch_body, bind, Logging.info, Logging.log.
  rewrite (upload_response _ _ _ _ _ text) by done.
  unfold batch_world, add_log. cbn [w_fs w_log w_procs w_reqs].
  fold (batch_request file). fold (batch_answer k file).
  rewrite (batch_lines_S X w rdf_file_path graphdb_url repository files k file H),
    (batch_sent_S w rdf_file_path graphdb_url repository files k file H).
  unfold file_lines. rewrite Hanswer. by rewrite <- !List.app_assoc.
Qed.

(** X16: an entry of the directory that cannot be read, such as a
  directory among the files, ends the batch with the exception of the
  [open]: its [Uploading file] line is logged, no request is sent for
  it, and the entries behind it are not attempted. *)
Theorem upload_batch_unreadable_entry j file e :
  Fs.isdir (w_fs w) rdf_file_path = true →
  Fs.listdir (w_fs w) rdf_file_path = Ok files →
  files !! j = Some file →
  Fs.read (w_fs w) (Path.join rdf_file_path file) = Raise e →
  (∀ k g, k < j → files !! k = Some g →
     (∃ text, Fs.read (w_fs w) (Path.join rdf_file_path g) = Ok text)
     ∧ ∃ code body, batch_answer k g = Response code body) →
  upload_rdf_data_to_graphdb X rdf_file_path graphdb_url repository w
  = (Raise e,
     World (w_fs w) (w_log w ++ batch_lines j ++ [(INFO, "Uploading file: " +:+ file)])
           (w_procs w) (batch_sent j)).
Proof.
  intros Hdir Hlist Hj Hbad Hgood.
  rewrite (batch_run X w rdf_file_path graphdb_url repository files Hdir Hlist).
  destruct (MFacts.for_raise (λ k w1, w1 = batch_world k)
              (λ w2, w2 = World (w_fs w)
                            (w_log w ++ batch_lines j ++ [(INFO, "Uploading file: " +:+ file)])
                            (w_procs w) (batch_sent j))
              files batch_body w j file e)
    as (w' & Hrun & ->); try done.
  - unfold batch_world, batch_lines, batch_sent. cbn [take imap concat map].
    rewrite !List.app_nil_r. by destruct w.
  - intros k g w1 Hk Hg ->.
    destruct (Hgood k g Hk Hg) as ((text & Htext) & code & body & Hanswer).
    rewrite (batch_step_readable k g text code body) by done. by eexists.
  - intros w1 ->. eexists. split; [|done].
    unfold batch_body, bind, Logging.info, Logging.log, upload, Os.read.
    unfold batch_world, add_log. cbv beta iota. cbn [w_fs w_log w_procs w_reqs].
    apply MFacts.bind_raise. cbv beta. cbn [w_fs].
    by rewrite Hbad, <- List.app_assoc.
Qed.

End batch_unreadable.

End upload_more.

Lemma upload_rdf_data_not_directory_witness :
  upload_rdf_data_to_graphdb X_sample "kg/output_0.ttl" "http://localhost:7200" "sensors" w_kg
  = (Ok (),
     World (w_fs w_kg)
           [(INFO, "RDF file kg/output_0.ttl uploaded to repository sensors.")] []
           [Request "http://localhost:7200/repositories/sensors/statements"
                    [("Content-Type", "text/turtle")] "<a> <b> <c> ."])
  ∧ upload_rdf_data_to_graphdb X_sample "kg/missing.ttl" "http://localhost:7200" "sensors" w_kg
    = (Ok (), add_log w_kg [(ERROR, "Invalid file path.")]).
Proof.
  split.
  - destruct (upload_rdf_data_not_directory X_sample w_kg "kg/output_0.ttl"
                "http://localhost:7200" "sensors" eq_refl) as (H & _).
    apply (H "<a> <b> <c> ." eq_refl).
  - destruct (upload_rdf_data_not_directory X_sample w_kg "kg/missing.ttl"
                "http://localhost:7200" "sensors" eq_refl) as (_ & H).
    apply (H eq_refl).
Defined.

Lemma upload_batch_unreadable_entry_witness :
  ∃ w', upload_rdf_data_to_graphdb X_sample "kg/" "http://localhost:7200" "sensors" w_kg_nested
        = (Raise (IsADirectoryError "kg/old"), w')
        ∧ length (w_reqs w') = 1
        ∧ last (w_log w') = Some (INFO, "Uploading file: old").
Proof.
  eexists. split.
  - apply (upload_batch_unreadable_entry X_sample w_kg_nested "kg/" "http://localhost:7200"
             "sensors" ["output_0.ttl"; "old"; "output_1.ttl"] 1 "old"
             (IsADirectoryError "kg/old")); try reflexivity.
    intros k g Hk Hg. destruct k as [|k]; [|lia]. simplify_eq/=.
    split; [by eexists | by do 2 eexists].
  - split; reflexivity.
Defined.

Section upload_frame.
Context (X : externals) (graphdb_url repository : string).
Local Abbreviation posts := (only_posts graphdb_url repository).

Lemma posts_refl w : posts 0 w w.
Proof.
  repeat split; [by exists []; rewrite List.app_nil_r |].
  exists []. rewrite List.app_nil_r. by repeat split.
Qed.

Lemma posts_trans n m w1 w2 w3 : posts n w1 w2 → posts m w2 w3 → posts (n + m) w1 w3.
Proof.
  intros (F1 & P1 & (l1 & L1) & s1 & S1 & N1 & A1) (F2 & P2 & (l2 & L2) & s2 & S2 & N2 & A2).
  split; [congruence |]. split; [congruence |]. split.
  - exists (l1 ++ l2). by rewrite L2, L1, List.app_assoc.
  - exists (s1 ++ s2). split; [by rewrite S2, S1, List.app_assoc |].
    split; [rewrite length_app; lia | by apply Forall_app].
Qed.

Lemma posts_mono n m w1 w2 : n ≤ m → posts n w1 w2 → posts m w1 w2.
Proof.
  intros Hnm (F & P & L & s & S & N & A). repeat split; try done.
  exists s. repeat split; try done. lia.
Qed.

Lemma posts_log w entries : posts 0 w (add_log w entries).
Proof.
  repeat split; [by exists entries |].
  exists []. cbn. rewrite List.app_nil_r. by repeat split.
Qed.

Lemma upload_posts w path : posts 1 w (upload X graphdb_url repository path w).2.
Proof.
  unfold upload, bind at 1, Os.read.
  destruct (Fs.read (w_fs w) path) as [text|e]; [|apply (posts_mono 0); [lia | apply posts_refl]].
  unfold bind, requests_post.
  assert (Hsent : posts 1 w
            (World (w_fs w) (w_log w) (w_procs w)
               (w_reqs w ++ [Request (graphdb_url +:+ "/repositories/" +:+ repository
                                      +:+ "/statements")
                                     [("Content-Type", "text/turtle")] text]))).
  { repeat split; [by exists []; rewrite List.app_nil_r |].
    eexists. split; [done |]. split; [done |]. by repeat constructor. }
  destruct (http_post X _ _) as [code body|msg]; [|done].
  cbn [fst snd]. case_bool_decide.
  - apply (posts_trans 1 0 _ _ _ Hsent), posts_log.
  - apply (posts_trans 1 0 _ _ _ Hsent), posts_log.
Qed.

Lemma for_posts (files : list string) (body : string → M unit) w :
  (∀ file w1, posts 1 w1 (body file w1).2) →
  posts (length files) w (for_ files body w).2.
Proof.
  intros Hbody. revert w. induction files as [|file files IH]; intros w.
  - apply posts_refl.
  - cbn [for_ length]. unfold bind. specialize (Hbody file w).
    destruct (body file w) as [[[]|e] w1]; cbn [snd] in *.
    + apply (posts_trans 1 (length files) _ _ _ Hbody), IH.
    + apply (posts_mono 1); [lia | done].
Qed.

(** X17: whatever the path, the server and the file system,
  [upload_rdf_data_to_graphdb] changes no file and runs no command; it
  adds lines to the log and sends at most one request per entry of the
  directory (at most one for a path that is no directory), each to the
  statements endpoint of the repository with the content type
  [text/turtle]. *)
Theorem upload_only_posts w rdf_file_path :
  only_posts graphdb_url repository (upload_bound (w_fs w) rdf_file_path) w
    (upload_rdf_data_to_graphdb X rdf_file_path graphdb_url repository w).2.
Proof.
  unfold upload_rdf_data_to_graphdb, upload_bound, bind at 1, Os.isdir, Fs.isdir, Fs.listdir.
  destruct (w_fs w !! Path.norm rdf_file_path) as [[t|files]|] eqn:Hnode.
  - unfold bind, Os.isfile. destruct (Fs.isfile (w_fs w) rdf_file_path).
    + apply upload_posts.
    + apply (posts_mono 0); [lia | apply posts_log].
  - unfold bind at 1, Os.listdir, Fs.listdir. rewrite Hnode.
    apply for_posts. intros file w1. unfold bind, Logging.info, Logging.log.
    pose proof (upload_posts (add_log w1 [(INFO, "Uploading file: " +:+ file)])
                  (Path.join rdf_file_path file)) as Hup.
    destruct (upload X _ _ _ _) as [r w2]. cbn [snd] in *.
    apply (posts_trans 0 1 w1 _ w2 (posts_log w1 _) Hup).
  - unfold bind, Os.isfile. destruct (Fs.isfile (w_fs w) rdf_file_path).
    + apply upload_posts.
    + apply (posts_mono 0); [lia | apply posts_log].
Qed.

End upload_frame.

(** ** Chunk counts at the edges *)

Section split_more.
Context (X : externals) (w : world) (dataset_path output_dir text : string) (data : frame).
Context (Hread : Fs.read (w_fs w) dataset_path = Ok text)
        (Hdata : read_csv_text X text = Ok data).

Lemma split_loaded (k : frame → M unit) :
  (do data <- read_csv X dataset_path; k data) w = k data w.
Proof.
  unfold read_csv.
  rewrite MFacts.bind_assoc, (MFacts.bind_ok _ _ _ _ _ (Os_read_ok _ _ _ Hread)).
  unfold bind at 1, lift. by rewrite Hdata.
Qed.

(** X18: a chunk count of zero makes [split_dataset] raise
  [ZeroDivisionError] from the computation of the chunk size, before
  the output directory is looked at: nothing is created or written. *)
Theorem split_dataset_zero_chunks :
  split_dataset X dataset_path 0 output_dir w = (Raise ZeroDivisionError, w).
Proof. unfold split_dataset. by rewrite split_loaded. Qed.

(** X19: a negative chunk count is not refused: [split_dataset]
  returns normally with the output directory created, empty, if it was
  absent, and writes no chunk. *)
Theorem split_dataset_negative_chunks n_chunks :
  (n_chunks < 0)%Z →
  (Fs.exists_ (w_fs w) output_dir = true →
   split_dataset X dataset_path n_chunks output_dir w = (Ok (), w))
  ∧ (∀ fs1,
       Fs.exists_ (w_fs w) output_dir = false →
       Fs.makedirs (w_fs w) output_dir = Ok fs1 →
       split_dataset X dataset_path n_chunks output_dir w = (Ok (), set_fs fs1 w)
       ∧ fs1 !! Path.norm output_dir = Some (Dir [])
       ∧ ∀ q t, fs1 !! q = Some (File t) → w_fs w !! q = Some (File t)).
Proof.
  intros Hn.
  assert (Hseq : seqZ 0 n_chunks = []).
  { unfold seqZ. by replace (Z.to_nat n_chunks) with 0 by lia. }
  split.
  - intros Hex. unfold split_dataset. rewrite split_loaded, Hseq by done.
    rewrite bool_decide_eq_false_2 by lia. rewrite MFacts.bind_ret_l.
    unfold bind, Os.exists_. by rewrite Hex.
  - intros fs1 Hex Hmk. split.
    + unfold split_dataset. rewrite split_loaded, Hseq by done.
      rewrite bool_decide_eq_false_2 by lia. rewrite MFacts.bind_ret_l.
      unfold bind at 1, Os.exists_. rewrite Hex. cbn [negb].
      unfold bind at 1, Os.makedirs. by rewrite Hmk.
    + destruct (FsFacts.makedirs_spec _ _ _ Hmk) as (Hd & Hfiles & _). by split.
Qed.

End split_more.

Section split_few_rows.
Context (X : externals) (w : world) (dataset_path output_dir text : string)
    (n_chunks : Z) (data : frame).
Local Abbreviation chunk_file := (chunk_file output_dir).

(** X20: with more chunks than rows the chunk size is zero: every
  file but the last holds the header alone, and the last one holds the
  whole data set. *)
Theorem split_dataset_few_rows :
  (0 < n_chunks)%Z →
  output_dir ≠ "" →
  (∀ i, i < Z.to_nat n_chunks → Fs.isdir (w_fs w) (chunk_file i) = false) →
  Fs.read (w_fs w) dataset_path = Ok text →
  read_csv_text X text = Ok data →
  Fs.isdir (w_fs w) output_dir = true
  ∨ Fs.exists_ (w_fs w) output_dir = false
    ∧ (∃ fs1, Fs.makedirs (w_fs w) output_dir = Ok fs1) →
  length (rows data) < Z.to_nat n_chunks →
  ∃ w', split_dataset X dataset_path n_chunks output_dir w = (Ok (), w')
        ∧ (∀ i, i < Z.to_nat n_chunks - 1 →
             w_fs w' !! chunk_file i = Some (File (to_csv_text X (Frame (columns data) []))))
        ∧ w_fs w' !! chunk_file (Z.to_nat n_chunks - 1) = Some (File (to_csv_text X data)).
Proof.
  intros Hn Hout Hfree Hread Hdata Hdir Hfew.
  destruct (split_prepare X w dataset_path output_dir text n_chunks data Hn Hread Hdata Hdir)
    as (w1 & -> & H0).
  destruct (MFacts.for_invariant
              (λ k w2, chunks_written X w output_dir n_chunks data k (w_fs w2))
              (seqZ 0 n_chunks) (split_body X output_dir n_chunks data) w1 H0)
    as (w' & Hrun & Hend).
  { intros k i w2 Hi Hk. apply lookup_seqZ in Hi as [-> Hlt].
    rewrite Z.add_0_l. apply split_step; [done.. | lia | done]. }
  rewrite length_seqZ in Hend. destruct Hend as (_ & Hfiles & _).
  assert (Hsize : length (rows data) / Z.to_nat n_chunks = 0)
    by by apply Nat.div_small.
  exists w'. split; [done |]. split.
  - intros i Hi. rewrite Hfiles by lia. unfold chunk, chunk_rows.
    rewrite Hsize. rewrite bool_decide_eq_false_2 by lia. by rewrite take_0.
  - rewrite Hfiles by lia. unfold chunk, chunk_rows.
    rewrite Hsize, bool_decide_eq_true_2 by done. rewrite Nat.mul_0_r, drop_0.
    by destruct data.
Qed.

End split_few_rows.

Lemma split_dataset_zero_chunks_witness :
  split_dataset X_letters "letters.csv" 0 "chunks/" w_letters
  = (Raise ZeroDivisionError, w_letters).
Proof.
  apply (split_dataset_zero_chunks X_letters w_letters "letters.csv" "chunks/" "abcdefgh"
           (Frame ["letter"]
              (map (λ c, [CStr (String c "")]) (list_ascii_of_string "abcdefgh"))));
    reflexivity.
Defined.

Lemma split_dataset_negative_chunks_witness :
  ∃ fs1, split_dataset X_letters "letters.csv" (-2) "chunks/" w_letters
         = (Ok (), set_fs fs1 w_letters)
         ∧ fs1 !! "chunks" = Some (Dir [])
         ∧ fs1 !! "chunks/data_chunk_0.csv" = None.
Proof.
  destruct (split_dataset_negative_chunks X_letters w_letters "letters.csv" "chunks/"
              "abcdefgh"
              (Frame ["letter"]
                 (map (λ c, [CStr (String c "")]) (list_ascii_of_string "abcdefgh")))
              eq_refl eq_refl (-2)%Z) as (_ & H); [lia |].
  destruct (H (<["chunks" := Dir []]> (w_fs w_letters)) eq_refl eq_refl) as (Hrun & Hd & _).
  eexists. split; [exact Hrun |]. split; [exact Hd | reflexivity].
Defined.

Lemma split_dataset_few_rows_witness :
  ∃ w', split_dataset X_letters "letters.csv" 3 "chunks/" w_two_letters = (Ok (), w')
        ∧ w_fs w' !! "chunks/data_chunk_0.csv" = Some (File "")
        ∧ w_fs w' !! "chunks/data_chunk_1.csv" = Some (File "")
        ∧ w_fs w' !! "chunks/data_chunk_2.csv" = Some (File "a,b").
Proof.
  destruct (split_dataset_few_rows X_letters w_two_letters "letters.csv" "chunks/" "ab" 3
              (Frame ["letter"] [[CStr "a"]; [CStr "b"]]))
    as (w' & Hrun & Hempty & Hlast).
  - lia.
  - discriminate.
  - intros i Hi. destruct i as [|[|[|i]]]; [reflexivity.. | simpl in Hi; lia].
  - reflexivity.
  - reflexivity.
  - right. split; [reflexivity |]. eexists. reflexivity.
  - simpl. lia.
  - exists w'. split; [exact Hrun |]. split; [|split].
    + apply (Hempty 0). simpl. lia.
    + apply (Hempty 1). simpl. lia.
    + exact Hlast.
Defined.

(** ** What the cleaning keeps and what it needs *)

Section clean_more.
Import PdFacts.
Local Abbreviation wf := frame_wf.

Lemma columns_setitem data name vals :
  columns (Pd.setitem data name vals)
  = if bool_decide (name ∈ columns data) then columns data else columns data ++ [name].
Proof.
  unfold Pd.setitem.
  destruct (Pd.index_of name (columns data)) as [i|] eqn:Hi; cbn [columns].
  - rewrite bool_decide_eq_true_2; [done |].
    apply index_of_nth in Hi. by eapply list_elem_of_lookup_2.
  - rewrite bool_decide_eq_false_2; [done |].
    intros Hin. revert Hi. clear -Hin. induction Hin as [c cs|c d cs Hin IH]; cbn.
    + by rewrite bool_decide_eq_true_2.
    + case_bool_decide; [done |]. destruct (Pd.index_of c cs); [done |]. by intros.
Qed.

Lemma columns_setitem_present data name vals :
  name ∈ columns data → columns (Pd.setitem data name vals) = columns data.
Proof. intros H. by rewrite columns_setitem, bool_decide_eq_true_2. Qed.

Lemma getitem_present data name col : Pd.getitem data name = Ok col → name ∈ columns data.
Proof.
  unfold Pd.getitem. destruct (Pd.index_of name (columns data)) as [i|] eqn:Hi; [|done].
  intros _. apply index_of_nth in Hi. by eapply list_elem_of_lookup_2.
Qed.

(** The frames [clean_frame] goes through. *)
Lemma clean_frame_steps data data' :
  wf data → clean_frame data = Ok data' →
  ∃ ts unit quality prop prop',
    let d1 := Pd.setitem data "data_rilevazione" ts in
    let d2 := Pd.setitem d1 "unit" unit in
    let d3 := Pd.setitem d2 "quality" quality in
    let d4 := Pd.setitem d3 "property" prop in
    data' = Pd.setitem d4 "property" prop'
    ∧ "data_rilevazione" ∈ columns data ∧ "unit" ∈ columns d1 ∧ "quality" ∈ columns d2
    ∧ wf d1 ∧ wf d2 ∧ wf d3 ∧ wf d4
    ∧ length ts = length (rows data) ∧ length unit = length (rows d1)
    ∧ length quality = length (rows d2) ∧ length prop = length (rows d3)
    ∧ length prop' = length (rows d4).
Proof.
  intros Hwf H. unfold clean_frame in H.
  destruct (Pd.getitem data "data_rilevazione") as [ts|] eqn:Hts; [|done].
  cbn [res_bind] in H.
  destruct (Pd.apply iso_cell ts) as [ts'|] eqn:Hts'; [|done].
  cbn [res_bind] in H. cbv zeta in H.
  pose proof (length_getitem _ _ _ Hts) as Lts.
  pose proof (length_apply _ _ _ Hts') as Lts'.
  set (d1 := Pd.setitem data "data_rilevazione" ts') in *.
  assert (W1 : wf d1) by (apply wf_setitem; [done | lia]).
  destruct (Pd.getitem d1 "unit") as [unit|] eqn:Hu; [|done].
  cbn [res_bind] in H.
  pose proof (length_getitem _ _ _ Hu) as Lu.
  set (d2 := Pd.setitem d1 "unit" (clean_unit unit)) in *.
  assert (Lcu : length (clean_unit unit) = length (rows d1)).
  { unfold clean_unit, Pd.replace. by rewrite length_map. }
  assert (W2 : wf d2) by by apply wf_setitem.
  destruct (Pd.getitem d2 "quality") as [quality|] eqn:Hq; [|done].
  cbn [res_bind] in H.
  pose proof (length_getitem _ _ _ Hq) as Lq.
  set (d3 := Pd.setitem d2 "quality" (clean_quality quality)) in *.
  assert (Lcq : length (clean_quality quality) = length (rows d2)).
  { unfold clean_quality, Pd.replace_regex. by rewrite length_map. }
  assert (W3 : wf d3) by by apply wf_setitem.
  destruct (Pd.getitem d3 "register_name") as [reg|] eqn:Hr; [|done].
  cbn [res_bind] in H.
  destruct (Pd.apply remove_numbers reg) as [prop|] eqn:Hp; [|done].
  cbn [res_bind] in H.
  pose proof (length_getitem _ _ _ Hr) as Lr.
  pose proof (length_apply _ _ _ Hp) as Lp.
  set (d4 := Pd.setitem d3 "property" prop) in *.
  assert (W4 : wf d4) by (apply wf_setitem; [done | lia]).
  assert (R4 : length (rows d4) = length (rows d3)) by (apply rows_setitem; lia).
  assert (H4 : Pd.getitem d4 "property" = Ok prop)
    by (apply getitem_setitem; [done | lia]).
  rewrite H4 in H. cbn [res_bind] in H.
  set (prop' := Pd.str_replace current_pattern "Current" prop) in *.
  assert (Lp' : length prop' = length (rows d4)).
  { unfold prop', Pd.str_replace. rewrite length_map. lia. }
  set (d5 := Pd.setitem d4 "property" prop') in *.
  assert (H5 : Pd.getitem d5 "property" = Ok prop') by by apply getitem_setitem.
  rewrite H5 in H. cbn [res_bind] in H. injection H as <-.
  exists ts', (clean_unit unit), (clean_quality quality), prop, prop'. cbv zeta.
  fold d1 d2 d3 d4 d5.
  repeat split; try done; try lia; by eapply getitem_present.
Qed.

(** X21: the cleaning keeps the rows and the columns it does not
  know.  The header of a cleaned data set is the header of the source,
  with [property] added on the right unless the source has such a
  column; the row count is unchanged, every row is as long as the
  header, and every column other than the four that are written holds
  what it held. *)
Theorem clean_frame_other_columns data data' :
  wf data → clean_frame data = Ok data' →
  columns data'
  = (if bool_decide ("property" ∈ columns data) then columns data
     else columns data ++ ["property"])
  ∧ length (rows data') = length (rows data)
  ∧ wf data'
  ∧ ∀ name, name ∉ cleaned_columns → Pd.getitem data' name = Pd.getitem data name.
Proof.
  intros Hwf H.
  destruct (clean_frame_steps data data' Hwf H)
    as (ts & unit & quality & prop & prop' & -> & Hc0 & Hc1 & Hc2 & W1 & W2 & W3 & W4
        & L0 & L1 & L2 & L3 & L4).
  set (d1 := Pd.setitem data "data_rilevazione" ts) in *.
  set (d2 := Pd.setitem d1 "unit" unit) in *.
  set (d3 := Pd.setitem d2 "quality" quality) in *.
  set (d4 := Pd.setitem d3 "property" prop) in *.
  assert (C1 : columns d1 = columns data) by by apply columns_setitem_present.
  assert (C2 : columns d2 = columns data) by (rewrite <- C1; by apply columns_setitem_present).
  assert (C3 : columns d3 = columns data) by (rewrite <- C2; by apply columns_setitem_present).
  assert (C4 : columns d4 = if bool_decide ("property" ∈ columns data) then columns data
                            else columns data ++ ["property"]).
  { unfold d4. by rewrite columns_setitem, C3. }
  split; [|split; [|split]].
  - rewrite columns_setitem, bool_decide_eq_true_2; [done |].
    rewrite C4. case_bool_decide; [done |]. apply elem_of_app. right. by left.
  - rewrite rows_setitem by done. unfold d4. rewrite rows_setitem by done.
    unfold d3. rewrite rows_setitem by done. unfold d2. rewrite rows_setitem by done.
    unfold d1. by rewrite rows_setitem.
  - by apply wf_setitem.
  - intros name Hname.
    assert (name ≠ "data_rilevazione" ∧ name ≠ "unit" ∧ name ≠ "quality" ∧ name ≠ "property")
      as (N1 & N2 & N3 & N4).
    { unfold cleaned_columns in Hname. repeat split; intros ->; apply Hname;
        repeat first [by left | right]. }
    rewrite getitem_setitem_ne by done. unfold d4. rewrite getitem_setitem_ne by done.
    unfold d3. rewrite getitem_setitem_ne by done.
    unfold d2. rewrite getitem_setitem_ne by done.
    unfold d1. by rewrite getitem_setitem_ne.
Qed.

(** X22: in a cleaned data set no unit is ["-"]: the cells that were
  exactly ["-"] are [Dimensionless], and every other cell, text or
  not, is what it was. *)
Theorem clean_frame_unit data data' :
  wf data → clean_frame data = Ok data' →
  ∃ unit unit',
    Pd.getitem data "unit" = Ok unit
    ∧ Pd.getitem data' "unit" = Ok unit'
    ∧ length unit' = length unit
    ∧ Forall (λ v, bool_decide (v = CStr "-") = false) unit'
    ∧ ∀ i v, unit !! i = Some v →
        unit' !! i = Some (if bool_decide (v = CStr "-") then CStr "Dimensionless" else v).
Proof.
  intros Hwf H.
  destruct (clean_frame_columns data data' Hwf H)
    as (ts & ts' & unit & quality & reg & prop & _ & _ & Hu & _ & _ & _ & _ & Hu' & _).
  exists unit, (clean_unit unit). split; [done |]. split; [done |].
  unfold clean_unit, Pd.replace. split; [by rewrite length_map |]. split.
  - apply Forall_forall. intros v Hv. apply list_elem_of_fmap in Hv as (u & -> & _).
    destruct (decide (u = CStr "-")) as [->|Hne].
    + by rewrite (bool_decide_eq_true_2 (CStr "-" = CStr "-")).
    + rewrite (bool_decide_eq_false_2 (u = CStr "-")) by done.
      by apply bool_decide_eq_false_2.
  - intros i v Hi. by rewrite list_lookup_fmap, Hi.
Qed.

Lemma clean_frame_missing_column data name :
  wf data → name ∈ required_columns → name ∉ columns data →
  ∃ e, clean_frame data = Raise e.
Proof.
  intros Hwf Hname Hmissing.
  destruct (clean_frame data) as [data'|e] eqn:H; [|by exists e].
  destruct (clean_frame_columns data data' Hwf H)
    as (ts & ts' & unit & quality & reg & prop & Hts & _ & Hu & Hq & Hr & _).
  exfalso. apply Hmissing. unfold required_columns in Hname.
  repeat (apply elem_of_cons in Hname as [->|Hname]; [by eapply getitem_present |]).
  by apply elem_of_nil in Hname.
Qed.

End clean_more.

Lemma clean_frame_other_columns_witness :
  ∃ data', clean_frame sample_wide = Ok data'
           ∧ columns data'
             = ["id"; "data_rilevazione"; "unit"; "quality"; "register_name"; "property"]
           ∧ Pd.getitem data' "id" = Ok [CNum 7; CNum 8]
           ∧ Pd.getitem data' "register_name" = Ok [CStr "Current1"; CStr "Voltage2"].
Proof.
  destruct (clean_frame sample_wide) as [data'|] eqn:Hclean; [|by vm_compute in Hclean].
  destruct (clean_frame_other_columns sample_wide data') as (Hcols & _ & _ & Hsame).
  - by repeat constructor.
  - exact Hclean.
  - exists data'. split; [reflexivity |]. split; [by rewrite Hcols |]. split.
    + rewrite Hsame; [reflexivity |]. by apply (bool_decide_eq_true_1 _).
    + rewrite Hsame; [reflexivity |]. by apply (bool_decide_eq_true_1 _).
Defined.

Lemma clean_frame_unit_witness :
  ∃ data', clean_frame sample_wide = Ok data'
           ∧ Pd.getitem data' "unit" = Ok [CStr "Dimensionless"; CStr "V"].
Proof.
  destruct (clean_frame sample_wide) as [data'|] eqn:Hclean; [|by vm_compute in Hclean].
  destruct (clean_frame_unit sample_wide data')
    as (unit & unit' & Hu & Hu' & Hlen & _ & Hcells).
  - by repeat constructor.
  - exact Hclean.
  - exists data'. split; [reflexivity |]. rewrite Hu'. f_equal.
    vm_compute in Hu. injection Hu as <-.
    pose proof (Hcells 0 _ eq_refl) as H0. pose proof (Hcells 1 _ eq_refl) as H1.
    destruct unit' as [|u0 [|u1 [|u2 unit']]]; try discriminate Hlen.
    by simplify_eq/=.
Defined.

Section clean_data_more.
Context (X : externals).

(** X23: if one of the four columns [clean_data] reads is missing
  from the data set, [clean_data] raises and writes nothing; for the
  timestamp column, which is read first, the exception is the
  [KeyError] of its name. *)
Theorem clean_data_missing_column w dataset_path output_path text data name :
  Fs.read (w_fs w) dataset_path = Ok text →
  read_csv_text X text = Ok data →
  frame_wf data →
  name ∈ required_columns → name ∉ columns data →
  ∃ e, clean_data X dataset_path output_path w = (Raise e, w)
       ∧ (name = "data_rilevazione" → e = KeyError "data_rilevazione").
Proof.
  intros Hread Hdata Hwf Hname Hmissing.
  destruct (clean_frame_missing_column data name Hwf Hname Hmissing) as [e He].
  exists e. split.
  - unfold clean_data, read_csv, bind, Os.read, lift. by rewrite Hread, Hdata, He.
  - intros ->. unfold clean_frame, Pd.getitem in He.
    destruct (Pd.index_of "data_rilevazione" (columns data)) as [i|] eqn:Hi.
    + exfalso. apply Hmissing. apply PdFacts.index_of_nth in Hi.
      by eapply list_elem_of_lookup_2.
    + cbn in He. congruence.
Qed.

End clean_data_more.

Lemma clean_data_missing_column_witness :
  ∃ e, clean_data X_narrow "raw.csv" "clean.csv" w_sample = (Raise e, w_sample).
Proof.
  destruct (clean_data_missing_column X_narrow w_sample "raw.csv" "clean.csv" "04/03/2021"
              sample_narrow "unit") as (e & Hrun & _).
  - reflexivity.
  - reflexivity.
  - by repeat constructor.
  - by apply (bool_decide_eq_true_1 _).
  - by apply (bool_decide_eq_true_1 _).
  - by exists e.
Defined.

Module WriteFacts.
Import Path PathFacts.

Lemma cut_name_not_ends p : (cut p).2 ≠ "" → Str.endswith_char sep p = false.
Proof.
  intros H. destruct (Str.endswith_char sep p) eqn:E; [|done].
  by rewrite (cut_ends_sep p E) in H.
Qed.

(** What [Fs.write] changes: the file, and the listing of its
  directory, which stays a directory. *)
Lemma write_spec fs p text fs' :
  Fs.write fs p text = Ok fs' →
  norm p = p
  ∧ fs' !! p = Some (File text)
  ∧ (∀ es, fs !! p ≠ Some (Dir es))
  ∧ ∀ q, q ≠ p →
      fs' !! q = fs !! q
      ∨ ∃ es es', fs !! q = Some (Dir es) ∧ fs' !! q = Some (Dir es').
Proof.
  unfold Fs.write. destruct (Fs.isdir fs p) eqn:Hdir; [done |].
  unfold split. destruct (cut p) as [head name] eqn:Hcut. cbn [fst snd].
  case_bool_decide as Hname; [done |].
  assert (Hnorm : norm p = p).
  { apply norm_id, cut_name_not_ends. by rewrite Hcut. }
  assert (Hnot : ∀ es, fs !! p ≠ Some (Dir es)).
  { intros es Hes. unfold Fs.isdir in Hdir. by rewrite Hnorm, Hes in Hdir. }
  case_bool_decide as Hhead.
  - intros [= <-]. split; [done |]. split; [apply lookup_insert_eq |]. split; [done |].
    intros q Hq. left. by rewrite lookup_insert_ne.
  - destruct (fs !! norm head) as [[t|es]|] eqn:Hnode; [done | | done].
    intros [= <-]. split; [done |]. split; [apply lookup_insert_eq |]. split; [done |].
    intros q Hq. rewrite lookup_insert_ne by done.
    destruct (decide (q = norm head)) as [->|Hne].
    + right. exists es, (Fs.add_entry name es). by rewrite lookup_insert_eq.
    + left. by rewrite lookup_insert_ne.
Qed.

Lemma write_read fs p text fs' q :
  Fs.write fs p text = Ok fs' → q ≠ p → Fs.read fs' q = Fs.read fs q.
Proof.
  intros Hw Hq. destruct (write_spec _ _ _ _ Hw) as (Hnorm & Hp & Hnot & Hrest).
  assert (Hd : Fs.isdir fs' q = Fs.isdir fs q).
  { unfold Fs.isdir. destruct (decide (norm q = p)) as [Heq|Hne].
    - rewrite Heq, Hp. destruct (fs !! p) as [[t|es]|] eqn:E; try done.
      by destruct (Hnot es).
    - destruct (Hrest (norm q) Hne) as [->|(es & es' & -> & ->)]; done. }
  unfold Fs.read. rewrite Hd.
  destruct (Hrest q Hq) as [->|(es & es' & -> & ->)]; done.
Qed.

Lemma write_isdir fs p text fs' q :
  Fs.write fs p text = Ok fs' → Fs.isdir fs' q = Fs.isdir fs q.
Proof.
  intros Hw. destruct (write_spec _ _ _ _ Hw) as (Hnorm & Hp & Hnot & Hrest).
  unfold Fs.isdir. destruct (decide (norm q = p)) as [Heq|Hne].
  - rewrite Heq, Hp. destruct (fs !! p) as [[t|es]|] eqn:E; try done.
    by destruct (Hnot es).
  - destruct (Hrest (norm q) Hne) as [->|(es & es' & -> & ->)]; done.
Qed.

End WriteFacts.

Section clean_data_frame.
Context (X : externals).

Lemma only_writes_refl path w : only_writes path w w.
Proof. by repeat split. Qed.

(** X24: whatever its outcome, [clean_data] logs nothing, runs no
  command and sends no request; it leaves every path other than its
  output as it reads, and directories are directories before and
  after.  If it returns, the output holds the print of the cleaned
  frame of the data set that was read from the input; if it raises,
  the world is as it was. *)
Theorem clean_data_only_writes w dataset_path output_path :
  ∃ r w', clean_data X dataset_path output_path w = (r, w')
          ∧ only_writes output_path w w'
          ∧ match r with
            | Ok _ =>
                ∃ text data data',
                  Fs.read (w_fs w) dataset_path = Ok text
                  ∧ read_csv_text X text = Ok data
                  ∧ clean_frame data = Ok data'
                  ∧ Fs.read (w_fs w') output_path = Ok (to_csv_text X data')
            | Raise _ => w' = w
            end.
Proof.
  unfold clean_data, read_csv, bind, Os.read, lift.
  destruct (Fs.read (w_fs w) dataset_path) as [text|e];
    [|eexists _, _; split; [done |]; split; [apply only_writes_refl | done]].
  destruct (read_csv_text X text) as [data|e] eqn:Hdata;
    [|eexists _, _; split; [done |]; split; [apply only_writes_refl | done]].
  destruct (clean_frame data) as [data'|e] eqn:Hclean;
    [|eexists _, _; split; [done |]; split; [apply only_writes_refl | done]].
  unfold to_csv, Os.write.
  destruct (Fs.write (w_fs w) output_path (to_csv_text X data')) as [fs'|e] eqn:Hw;
    [|eexists _, _; split; [done |]; split; [apply only_writes_refl | done]].
  eexists _, _. split; [done |]. split.
  - repeat split; cbn [w_fs set_fs w_log w_procs w_reqs]; try done.
    + intros q Hq. by eapply WriteFacts.write_read.
    + intros q. by eapply WriteFacts.write_isdir.
  - exists text, data, data'. cbn [w_fs set_fs].
    destruct (WriteFacts.write_spec _ _ _ _ Hw) as (_ & Hp & _).
    unfold Fs.read. by rewrite Hp.
Qed.

End clean_data_frame.

(** ** The digit-stripping normalizer, once more *)

Section remove_numbers_more.
Import Re.

Lemma all_filter_self p s : Str.all p (Str.filter p s) = true.
Proof.
  induction s as [|c s IH]; [done |]. cbn [Str.filter].
  destruct (p c) eqn:Hc; [|done]. cbn [Str.all]. by rewrite Hc, IH.
Qed.

Lemma filter_all p s : Str.all p s = true → Str.filter p s = s.
Proof.
  induction s as [|c s IH]; [done |]. cbn [Str.all Str.filter]. intros H.
  apply andb_true_iff in H as [-> H]. by rewrite IH.
Qed.

Lemma length_filter p s : String.length (Str.filter p s) ≤ String.length s.
Proof.
  induction s as [|c s IH]; [done |]. cbn [Str.filter].
  destruct (p c); cbn [String.length]; lia.
Qed.

(** X25: the result of [remove_numbers] holds no digit and is not
  longer than the text; it is a fixed point of [remove_numbers], and a
  text without digits is returned as it is. *)
Theorem remove_numbers_digit_free s :
  ∃ t, remove_numbers (CStr s) = Ok (CStr t)
       ∧ Str.all not_digit t = true
       ∧ String.length t ≤ String.length s
       ∧ remove_numbers (CStr t) = Ok (CStr t)
       ∧ (Str.all not_digit s = true → t = s).
Proof.
  exists (Str.filter not_digit s). split; [apply remove_numbers_filter |].
  split; [apply all_filter_self |]. split; [apply length_filter |]. split.
  - rewrite remove_numbers_filter. by rewrite filter_all by apply all_filter_self.
  - apply filter_all.
Qed.

End remove_numbers_more.

(** ** Numbers in decimal *)

Module NumberFacts.
Import Re Datetime StrFacts.

Lemma digits_value_app acc a b :
  digits_value acc (a +:+ b) = digits_value (digits_value acc a) b.
Proof.
  revert acc. induction a as [|c a IH]; intros acc; [done |].
  rewrite app_cons. cbn [digits_value]. apply IH.
Qed.

Lemma pretty_N_char_digit x : is_digit (pretty_N_char x) = true.
Proof. unfold pretty_N_char. by repeat case_match. Qed.

Lemma pretty_N_char_value x : (x < 10)%N → digit_value (pretty_N_char x) = x.
Proof.
  intros Hx. destruct x as [|p]; [done |].
  do 4 (destruct p as [p|p|]; try lia; try done).
Qed.

Lemma pretty_N_go_app x s : pretty_N_go x s = pretty_N_go x "" +:+ s.
Proof.
  revert s. induction (N.lt_wf_0 x) as [x _ IH]; intros s.
  destruct (decide (x = 0)%N) as [->|Hx]; [by rewrite !pretty_N_go_0 |].
  assert (Hlt : (x `div` 10 < x)%N) by (apply N.div_lt; lia).
  rewrite (pretty_N_go_step x s), (pretty_N_go_step x "") by lia.
  rewrite (IH _ Hlt (String _ s)), (IH _ Hlt (String _ "")).
  by rewrite app_assoc.
Qed.

Lemma all_pretty_N_go x : Str.all is_digit (pretty_N_go x "") = true.
Proof.
  induction (N.lt_wf_0 x) as [x _ IH].
  destruct (decide (x = 0)%N) as [->|Hx]; [by rewrite pretty_N_go_0 |].
  rewrite pretty_N_go_step, pretty_N_go_app by lia.
  rewrite all_app, IH by (apply N.div_lt; lia). cbn.
  by rewrite pretty_N_char_digit.
Qed.

Lemma value_pretty_N_go x : digits_value 0 (pretty_N_go x "") = x.
Proof.
  induction (N.lt_wf_0 x) as [x _ IH].
  destruct (decide (x = 0)%N) as [->|Hx]; [by rewrite pretty_N_go_0 |].
  rewrite pretty_N_go_step, pretty_N_go_app by lia.
  rewrite digits_value_app, IH by (apply N.div_lt; lia). cbn [digits_value].
  rewrite pretty_N_char_value by (apply N.mod_lt; lia).
  pose proof (N.div_mod x 10). lia.
Qed.

Lemma length_pretty_N_go x k :
  (x < 10 ^ N.of_nat k)%N → String.length (pretty_N_go x "") ≤ k.
Proof.
  revert k. induction (N.lt_wf_0 x) as [x _ IH]; intros k Hk.
  destruct (decide (x = 0)%N) as [->|Hx]; [rewrite pretty_N_go_0; simpl; lia |].
  rewrite pretty_N_go_step, pretty_N_go_app by lia. rewrite length_app. cbn [String.length].
  destruct k as [|k]; [simpl in Hk; lia |].
  assert (x `div` 10 < 10 ^ N.of_nat k)%N.
  { apply N.Div0.div_lt_upper_bound. rewrite Nat2N.inj_succ, N.pow_succ_r' in Hk. lia. }
  specialize (IH (x `div` 10)%N ltac:(apply N.div_lt; lia) k ltac:(done)). lia.
Qed.

Lemma all_pretty (n : N) : Str.all is_digit (pretty n) = true.
Proof. unfold pretty, pretty_N. case_decide; [done | apply all_pretty_N_go]. Qed.

Lemma value_pretty (n : N) : digits_value 0 (pretty n) = n.
Proof. unfold pretty, pretty_N. case_decide; [by subst | apply value_pretty_N_go]. Qed.

Lemma length_pretty (n : N) k :
  0 < k → (n < 10 ^ N.of_nat k)%N → 1 ≤ String.length (pretty n) ≤ k.
Proof.
  intros Hk Hn. unfold pretty, pretty_N. case_decide as H0; [simpl; lia |].
  split; [|by apply length_pretty_N_go].
  rewrite pretty_N_go_step, pretty_N_go_app by lia. rewrite length_app. simpl. lia.
Qed.

Lemma zeros_all k : Str.all is_digit (String.concat "" (replicate k "0")) = true.
Proof. induction k as [|k IH]; [done |]. cbn [replicate String.concat]. destruct k; done. Qed.

End NumberFacts.

(** ** Formatted fields *)

Module FmtFacts.
Import Re Datetime StrFacts NumberFacts.

Lemma zeros_value k : digits_value 0 (String.concat "" (replicate k "0")) = 0%N.
Proof. induction k as [|k IH]; [done |]. cbn [replicate String.concat]. destruct k; done. Qed.

Lemma zeros_length k : String.length (String.concat "" (replicate k "0")) = k.
Proof.
  induction k as [|k IH]; [done |]. cbn [replicate String.concat].
  destruct k; [done |]. change (S (String.length (String.concat "" (replicate (S k) "0"))) = S (S k)).
  by rewrite IH.
Qed.

Lemma all_fmt w n : Str.all is_digit (fmt w n) = true.
Proof. unfold fmt, Str.zfill. by rewrite all_app, zeros_all, all_pretty. Qed.

Lemma value_fmt w n : digits_value 0 (fmt w n) = n.
Proof.
  unfold fmt, Str.zfill. by rewrite digits_value_app, zeros_value, value_pretty.
Qed.

Lemma length_fmt w n :
  0 < w → (n < 10 ^ N.of_nat w)%N → String.length (fmt w n) = w.
Proof.
  intros Hw Hn. unfold fmt, Str.zfill. rewrite length_app, zeros_length.
  pose proof (length_pretty n w Hw Hn). lia.
Qed.

Lemma lstrip_digit s :
  Str.all is_digit s = true → lstrip s = s.
Proof.
  destruct s as [|c s]; [done |]. cbn [Str.all lstrip]. intros H.
  apply andb_true_iff in H as [Hc _]. by rewrite (ReFacts.digit_not_space c Hc).
Qed.

Lemma int_digits s :
  Str.all is_digit s = true → s ≠ "" → int s = Ok (digits_value 0 s).
Proof.
  intros Hs Hne. unfold int. rewrite (lstrip_digit s Hs). cbv zeta.
  destruct s as [|c s]; [done |]. by rewrite Hs.
Qed.

Lemma int_fmt w n : 0 < w → (n < 10 ^ N.of_nat w)%N → int (fmt w n) = Ok n.
Proof.
  intros Hw Hn. rewrite int_digits.
  - by rewrite value_fmt.
  - apply all_fmt.
  - intros H. apply (f_equal String.length) in H. rewrite length_fmt in H by done.
    simpl in H. lia.
Qed.

(** The characters of a formatted number. *)
Lemma fmt_2 n :
  (n < 100)%N →
  ∃ a b, fmt 2 n = String a (String b "") ∧ is_digit a = true ∧ is_digit b = true.
Proof.
  intros Hn. pose proof (length_fmt 2 n ltac:(lia) ltac:(simpl; lia)) as Hl.
  pose proof (all_fmt 2 n) as Ha.
  destruct (fmt 2 n) as [|a [|b [|c s]]]; try done.
  cbn [Str.all] in Ha. apply andb_true_iff in Ha as [Ha Hb].
  apply andb_true_iff in Hb as [Hb _]. by exists a, b.
Qed.

Lemma fmt_4 n :
  (n < 10000)%N →
  ∃ a b c d, fmt 4 n = String a (String b (String c (String d "")))
             ∧ is_digit a = true ∧ is_digit b = true
             ∧ is_digit c = true ∧ is_digit d = true.
Proof.
  intros Hn. pose proof (length_fmt 4 n ltac:(lia) ltac:(simpl; lia)) as Hl.
  pose proof (all_fmt 4 n) as Ha.
  destruct (fmt 4 n) as [|a [|b [|c [|d [|e s]]]]]; try done.
  cbn [Str.all] in Ha. repeat (apply andb_true_iff in Ha as [? Ha]).
  by exists a, b, c, d.
Qed.

End FmtFacts.

(** ** The first match of each directive *)

Module MatchFacts.
Import Re Datetime StrFacts NumberFacts FmtFacts.

Lemma first_seq a b s x y :
  first_match a s x → first_match b (rest x) y →
  first_match (Seq a b) s
    (Found (groups x ++ groups y) (matched x +:+ matched y) (rest y)).
Proof.
  intros Ha Hb bol. destruct (Ha bol) as [l Hx].
  destruct (Hb (bol && bool_decide (matched x = ""))) as [l' Hy].
  cbn [rmatch]. rewrite Hx. cbn [flat_map]. rewrite Hy. cbn [map List.app]. by eexists.
Qed.

Lemma first_chr c s : first_match (Chr c) (String c s) (Found [] (String c "") s).
Proof. intros bol. cbn [rmatch]. rewrite bool_decide_eq_true_2 by done. by eexists. Qed.

Lemma first_Y a b c d s :
  is_digit a = true → is_digit b = true → is_digit c = true → is_digit d = true →
  let w := String a (String b (String c (String d ""))) in
  first_match re_Y (w +:+ s) (Found [("Y", w)] w s).
Proof.
  intros Ha Hb Hc Hd w bol. unfold re_Y, digit, w. rewrite !app_cons, app_nil_l.
  cbn [rmatch]. rewrite Ha. cbn [flat_map map rest matched groups List.app].
  rewrite Hb. cbn [flat_map map rest matched groups List.app].
  rewrite Hc. cbn [flat_map map rest matched groups List.app].
  rewrite Hd. cbn [flat_map map rest matched groups List.app].
  by eexists.
Qed.

Lemma N_enum (P : N → Prop) (b : nat) :
  (∀ k, k < b → P (N.of_nat k)) → ∀ n, (n < N.of_nat b)%N → P n.
Proof. intros H n Hn. rewrite <- (N2Nat.id n). apply H. lia. Qed.

Ltac enum_cases k :=
  first [ exfalso; lia
        | destruct k as [|k];
          [ first [ intros; exfalso; lia | intros ? ? ?; vm_compute; eexists; reflexivity ]
          | enum_cases k ] ].

Lemma first_m n s :
  (1 ≤ n ≤ 12)%N → first_match re_m (fmt 2 n +:+ s) (Found [("m", fmt 2 n)] (fmt 2 n) s).
Proof.
  intros [H1 H2]. revert H1 s. pattern n. apply (N_enum _ 13); [|lia].
  clear. intros k Hk. cbv beta. enum_cases k.
Qed.

Lemma first_d n s :
  (1 ≤ n ≤ 31)%N → first_match re_d (fmt 2 n +:+ s) (Found [("d", fmt 2 n)] (fmt 2 n) s).
Proof.
  intros [H1 H2]. revert H1 s. pattern n. apply (N_enum _ 32); [|lia].
  clear. intros k Hk. cbv beta. enum_cases k.
Qed.

Lemma first_H n s :
  (n ≤ 23)%N → first_match re_H (fmt 2 n +:+ s) (Found [("H", fmt 2 n)] (fmt 2 n) s).
Proof.
  intros H2. assert (H1 : (0 ≤ n)%N) by lia. revert H1 s. pattern n. apply (N_enum _ 24); [|lia].
  clear. intros k Hk. cbv beta. enum_cases k.
Qed.

Lemma first_M n s :
  (n ≤ 59)%N → first_match re_M (fmt 2 n +:+ s) (Found [("M", fmt 2 n)] (fmt 2 n) s).
Proof.
  intros H2. assert (H1 : (0 ≤ n)%N) by lia. revert H1 s. pattern n. apply (N_enum _ 60); [|lia].
  clear. intros k Hk. cbv beta. enum_cases k.
Qed.

Lemma first_S n s :
  (n ≤ 59)%N → first_match re_S (fmt 2 n +:+ s) (Found [("S", fmt 2 n)] (fmt 2 n) s).
Proof.
  intros H2. assert (H1 : (0 ≤ n)%N) by lia. revert H1 s. pattern n. apply (N_enum _ 60); [|lia].
  clear. intros k Hk. cbv beta. enum_cases k.
Qed.

End MatchFacts.

(** ** The match of the whole format *)

Module RoundTripFacts.
Import Re Datetime StrFacts NumberFacts FmtFacts MatchFacts.

Lemma take_while_all p s : Str.all p s = true → Str.take_while p s = s.
Proof.
  induction s as [|c s IH]; [done |]. cbn [Str.all Str.take_while]. intros H.
  apply andb_true_iff in H as [-> H]. by rewrite IH.
Qed.

Lemma first_ws c s :
  is_digit c = true →
  first_match re_ws (String " " (String c s)) (Found [] " " (String c s)).
Proof.
  intros Hc bol.
  destruct (SubFacts.rmatch_plus is_space bol " " (String c s) eq_refl) as [l Hl].
  unfold re_ws. rewrite Hl. cbn [Str.take_while Str.drop_while].
  rewrite (ReFacts.digit_not_space c Hc). by eexists.
Qed.

Lemma first_f w :
  Str.all is_digit w = true → String.length w = 6 →
  first_match re_f w (Found [("f", w)] w "").
Proof.
  intros Hw Hl bol. unfold re_f. cbn [rmatch].
  destruct (SubFacts.runs_head is_digit w) as [l ->].
  rewrite (take_while_all _ _ Hw), (SubFacts.drop_while_all _ _ Hw).
  cbn [List.filter fst snd]. rewrite Hl. cbn [within Nat.leb andb map fst snd].
  by eexists.
Qed.

Lemma check_date_ok y m d :
  check_date y m d = Ok () →
  (1 ≤ y ≤ 9999)%N ∧ (1 ≤ m ≤ 12)%N ∧ (1 ≤ d ≤ 31)%N.
Proof.
  unfold check_date. intros H.
  destruct (_ && _) eqn:Hy in H; [|done].
  destruct (_ && _) eqn:Hm in H; [|done].
  destruct (_ && _) eqn:Hd in H; [|done].
  apply andb_true_iff in Hy as [Hy1 Hy2]. apply andb_true_iff in Hm as [Hm1 Hm2].
  apply andb_true_iff in Hd as [Hd1 Hd2].
  apply N.leb_le in Hy1, Hy2, Hm1, Hm2, Hd1, Hd2.
  assert (days_in_month y m ≤ 31)%N.
  { unfold days_in_month. repeat case_match; lia. }
  lia.
Qed.

Lemma check_time_ok h mi s us :
  check_time h mi s us = Ok () →
  (h ≤ 23)%N ∧ (mi ≤ 59)%N ∧ (s ≤ 59)%N ∧ (us ≤ 999999)%N.
Proof.
  unfold check_time. intros H.
  destruct (h <=? 23)%N eqn:Hh in H; [|done].
  destruct (mi <=? 59)%N eqn:Hm in H; [|done].
  destruct (s <=? 59)%N eqn:Hs in H; [|done].
  destruct (us <=? 999999)%N eqn:Hu in H; [|done].
  apply N.leb_le in Hh, Hm, Hs, Hu. lia.
Qed.

Lemma first_seq_found a b s gx mx rx gy my ry :
  first_match a s (Found gx mx rx) → first_match b rx (Found gy my ry) →
  first_match (Seq a b) s (Found (gx ++ gy) (mx +:+ my) ry).
Proof. intros Ha Hb. apply (first_seq a b s _ _ Ha Hb). Qed.

(** The groups [strptime] reads off the text of [t]. *)
Lemma first_format t :
  valid_datetime t →
  ∃ gs text,
    first_match format_regex (timestamp_text t) (Found gs text "")
    ∧ gs = [ ("Y", fmt 4 (year t)); ("m", fmt 2 (month t)); ("d", fmt 2 (day t));
             ("H", fmt 2 (hour t)); ("M", fmt 2 (minute t)); ("S", fmt 2 (second t));
             ("f", fmt 6 (microsecond t)) ].
Proof.
  intros [Hd Ht]. destruct t as [y m d h mi s us].
  cbn [year month day hour minute second microsecond] in *.
  apply check_date_ok in Hd as (Hy & Hm & Hd).
  apply check_time_ok in Ht as (Hh & Hmi & Hs & Hus).
  unfold timestamp_text, format_regex.
  cbn [year month day hour minute second microsecond].
  destruct (fmt_4 y) as (a & b & c & e & Ey & Ha & Hb & Hc & He); [lia |].
  destruct (fmt_2 h) as (h1 & h2 & Eh & Hh1 & Hh2); [lia |].
  eexists _, _. split.
  - eapply first_seq_found.
    { rewrite Ey. by apply first_Y. }
    eapply first_seq_found; [apply first_chr |].
    eapply first_seq_found; [by apply first_m |].
    eapply first_seq_found; [apply first_chr |].
    eapply first_seq_found; [by apply first_d |].
    eapply first_seq_found.
    { rewrite Eh. rewrite !app_cons. by apply first_ws. }
    rewrite <- !app_cons, <- Eh.
    eapply first_seq_found; [by apply first_H |].
    eapply first_seq_found; [apply first_chr |].
    eapply first_seq_found; [by apply first_M |].
    eapply first_seq_found; [apply first_chr |].
    eapply first_seq_found; [by apply first_S |].
    eapply first_seq_found; [apply first_chr |].
    apply first_f; [apply all_fmt | apply length_fmt; [lia | simpl; lia]].
  - by rewrite <- Ey.
Qed.

End RoundTripFacts.

(** ** Timestamps in the documented layout *)

Section fixed_facts.
Import Re Datetime Format StrFacts NumberFacts FmtFacts FormatFacts RoundTripFacts.

Lemma fmt_word w n : 0 < w → (n < 10 ^ N.of_nat w)%N → digits_word w w (fmt w n).
Proof.
  intros Hw Hn. split; [apply all_fmt |]. rewrite length_fmt by done. lia.
Qed.

Lemma timestamp_text_fixed t : valid_datetime t → fixed_format (timestamp_text t) = true.
Proof.
  intros [Hd Ht].
  apply check_date_ok in Hd as (Hy & Hmo & Hday).
  apply check_time_ok in Ht as (Hh & Hmi & Hs & Hus).
  unfold fixed_format, scan, timestamp_text. apply bool_decide_eq_true_2.
  rewrite !app_one. cbn [foldl mbind option_bind].
  rewrite (digits_app 4 4) by first [done | apply fmt_word; [lia | simpl; lia]]. sep_step.
  rewrite (digits_app 2 2) by first [done | apply fmt_word; [lia | simpl; lia]]. sep_step.
  rewrite (digits_app 2 2) by first [done | apply fmt_word; [lia | simpl; lia]]. sep_step.
  rewrite (digits_app 2 2) by first [done | apply fmt_word; [lia | simpl; lia]]. sep_step.
  rewrite (digits_app 2 2) by first [done | apply fmt_word; [lia | simpl; lia]]. sep_step.
  rewrite (digits_app 2 2) by first [done | apply fmt_word; [lia | simpl; lia]]. sep_step.
  rewrite <- (app_nil_r (fmt 6 _)).
  by rewrite (digits_app 6 6) by first [done | apply fmt_word; [lia | simpl; lia]].
Qed.

End fixed_facts.

Section iso_facts.
Import Re Datetime StrFacts NumberFacts FmtFacts MatchFacts RoundTripFacts.

Lemma group_int_fmt name gs w n :
  group name gs = Some (fmt w n) → 0 < w → (n < 10 ^ N.of_nat w)%N →
  group_int name gs = Ok n.
Proof. intros Hg Hw Hn. unfold group_int. rewrite Hg. by apply int_fmt. Qed.

(** X26: every valid date and time, written in the layout
  [YYYY-MM-DD HH:MM:SS.ffffff] with all its leading zeros, is in the
  fixed format and is converted to the ISO 8601 text of that date and
  time: the same digits with [T] for the blank, and without the
  fraction when the microseconds are zero. *)
Theorem convert_to_iso8601_round_trip t :
  valid_datetime t →
  Format.fixed_format (timestamp_text t) = true
  ∧ convert_to_iso8601 (CStr (timestamp_text t)) = Ok (isoformat t).
Proof.
  intros Hv. split; [by apply timestamp_text_fixed |]. destruct (first_format t Hv) as (gs & text & Hm & ->).
  destruct Hv as [Hd Ht].
  pose proof (check_date_ok _ _ _ Hd) as (Hy & Hmo & Hday).
  pose proof (check_time_ok _ _ _ _ Ht) as (Hh & Hmi & Hs & Hus).
  unfold convert_to_iso8601, strptime, match_.
  destruct (Hm true) as [l ->]. cbn [head rest groups negb].
  rewrite bool_decide_eq_true_2 by done. cbn [negb].
  rewrite (group_int_fmt "Y" _ 4 (year t)) by first [reflexivity | lia | simpl; lia].
  rewrite (group_int_fmt "m" _ 2 (month t)) by first [reflexivity | lia | simpl; lia].
  rewrite (group_int_fmt "d" _ 2 (day t)) by first [reflexivity | lia | simpl; lia].
  rewrite (group_int_fmt "H" _ 2 (hour t)) by first [reflexivity | lia | simpl; lia].
  rewrite (group_int_fmt "M" _ 2 (minute t)) by first [reflexivity | lia | simpl; lia].
  rewrite (group_int_fmt "S" _ 2 (second t)) by first [reflexivity | lia | simpl; lia].
  cbn [res_bind].
  change (group "f" _) with (Some (fmt 6 (microsecond t))).
  assert (Hl : String.length (fmt 6 (microsecond t)) = 6)
    by (apply length_fmt; [lia | simpl; lia]).
  unfold Str.zpad_right. rewrite Hl. cbn [Nat.sub replicate String.concat].
  rewrite app_nil_r, int_fmt by (lia || (simpl; lia)).
  cbn [res_bind]. rewrite Hd, Ht. cbn [res_bind]. by destruct t.
Qed.

Lemma strptime_valid s t : strptime s = Ok t → valid_datetime t.
Proof.
  unfold strptime. destruct (match_ format_regex s) as [fnd|]; [|done].
  destruct (negb _); [done |].
  destruct (group_int "Y" _) as [y|]; [|done]. cbn [res_bind].
  destruct (group_int "m" _) as [m|]; [|done]. cbn [res_bind].
  destruct (group_int "d" _) as [d|]; [|done]. cbn [res_bind].
  destruct (group_int "H" _) as [h|]; [|done]. cbn [res_bind].
  destruct (group_int "M" _) as [mi|]; [|done]. cbn [res_bind].
  destruct (group_int "S" _) as [sec|]; [|done]. cbn [res_bind].
  destruct (group "f" _) as [f|]; [|done].
  destruct (int _) as [us|]; [|done]. cbn [res_bind].
  destruct (check_date y m d) as [[]|] eqn:Hd; [|done]. cbn [res_bind].
  destruct (check_time h mi sec us) as [[]|] eqn:Ht; [|done]. cbn [res_bind].
  intros [= <-]. by split.
Qed.

Lemma isoformat_shape t :
  valid_datetime t →
  String.length (isoformat t) = (if (microsecond t =? 0)%N then 19 else 26)
  ∧ String.get 10 (isoformat t) = Some "T"%char.
Proof.
  intros [Hd Ht].
  apply check_date_ok in Hd as (Hy & Hmo & Hday).
  apply check_time_ok in Ht as (Hh & Hmi & Hs & Hus).
  destruct (fmt_4 (year t)) as (a & b & c & e & Ey & _); [lia |].
  destruct (fmt_2 (month t)) as (m1 & m2 & Em & _); [lia |].
  destruct (fmt_2 (day t)) as (d1 & d2 & Ed & _); [lia |].
  destruct (fmt_2 (hour t)) as (h1 & h2 & Eh & _); [lia |].
  destruct (fmt_2 (minute t)) as (n1 & n2 & En & _); [lia |].
  destruct (fmt_2 (second t)) as (s1 & s2 & Es & _); [lia |].
  unfold isoformat. rewrite Ey, Em, Ed, Eh, En, Es. split; [|done].
  destruct (microsecond t =? 0)%N; [done |].
  rewrite !length_app, length_fmt by (lia || (simpl; lia)). done.
Qed.

(** X27: whatever text the normalizer accepts, its result is the ISO
  text of a valid date and time: 19 characters when the microseconds
  are zero and 26 otherwise, with [T] at index 10. *)
Theorem convert_to_iso8601_shape s out :
  convert_to_iso8601 (CStr s) = Ok out →
  ∃ t, Datetime.strptime s = Ok t
       ∧ valid_datetime t
       ∧ out = isoformat t
       ∧ String.length out = (if (microsecond t =? 0)%N then 19 else 26)
       ∧ String.get 10 out = Some "T"%char.
Proof.
  unfold convert_to_iso8601. destruct (strptime s) as [t|] eqn:Hp; [|done].
  cbn [res_bind]. intros [= <-]. exists t.
  pose proof (strptime_valid s t Hp) as Hv.
  destruct (isoformat_shape t Hv) as [Hlen HT]. done.
Qed.

End iso_facts.

Lemma convert_to_iso8601_round_trip_witness :
  valid_datetime sample_datetime
  ∧ timestamp_text sample_datetime = "2021-03-04 10:15:30.500000"
  ∧ convert_to_iso8601 (CStr (timestamp_text sample_datetime))
    = Ok "2021-03-04T10:15:30.500000".
Proof.
  split; [by split |]. split; [reflexivity |].
  apply (convert_to_iso8601_round_trip sample_datetime). by split.
Defined.

Lemma convert_to_iso8601_shape_witness :
  ∃ t, Datetime.strptime "2021-03-04 10:15:31.000000" = Ok t
       ∧ String.length (Datetime.isoformat t) = 19.
Proof.
  destruct (convert_to_iso8601_shape "2021-03-04 10:15:31.000000" "2021-03-04T10:15:31")
    as (t & Hp & _ & _ & Hlen & _); [reflexivity |].
  exists t. split; [exact Hp |].
  vm_compute in Hp. injection Hp as <-. reflexivity.
Defined.

Section timestamp_column.
Import Re Datetime StrFacts NumberFacts FmtFacts RoundTripFacts.

Lemma apply_lookup (f : cell → res cell) col col' i v' :
  Pd.apply f col = Ok col' → col' !! i = Some v' →
  ∃ v, col !! i = Some v ∧ f v = Ok v'.
Proof.
  revert col' i. induction col as [|u col IH]; intros col' i Happly Hv'.
  { cbn in Happly. by simplify_eq. }
  cbn [Pd.apply] in Happly.
  destruct (f u) as [u'|] eqn:Hu; [|done]. cbn [res_bind] in Happly.
  destruct (Pd.apply f col) as [rest'|] eqn:Hrest; [|done].
  cbn [res_bind] in Happly. injection Happly as <-.
  destruct i as [|i].
  - injection Hv' as <-. by exists u.
  - cbn in Hv'. destruct (IH rest' i eq_refl Hv') as (v & Hv & Hf). by exists v.
Qed.

(** X28: in a cleaned data set every timestamp is the ISO text of the
  valid date and time that [strptime] reads from the cell of the
  source in the same row, which is a text: 19 or 26 characters, with
  [T] at index 10. *)
Theorem clean_frame_timestamps data data' :
  frame_wf data → clean_frame data = Ok data' →
  ∃ ts ts',
    Pd.getitem data "data_rilevazione" = Ok ts
    ∧ Pd.getitem data' "data_rilevazione" = Ok ts'
    ∧ length ts' = length ts
    ∧ ∀ i v', ts' !! i = Some v' →
        ∃ s t, ts !! i = Some (CStr s)
               ∧ strptime s = Ok t
               ∧ valid_datetime t
               ∧ v' = CStr (isoformat t)
               ∧ String.length (isoformat t) = (if (microsecond t =? 0)%N then 19 else 26)
               ∧ String.get 10 (isoformat t) = Some "T"%char.
Proof.
  intros Hwf H.
  destruct (clean_frame_columns data data' Hwf H)
    as (ts & ts' & unit & quality & reg & prop & Hts & Happly & _ & _ & _ & _ & Hts' & _).
  exists ts, ts'. split; [done |]. split; [done |].
  split; [by apply (PdFacts.length_apply iso_cell) |].
  intros i v' Hv'. destruct (apply_lookup _ _ _ _ _ Happly Hv') as (v & Hv & Hiso).
  unfold iso_cell in Hiso.
  destruct (convert_to_iso8601 v) as [out|] eqn:Hconv; [|done].
  cbn [res_bind] in Hiso. injection Hiso as <-.
  destruct v as [s| |]; [|done..].
  unfold convert_to_iso8601 in Hconv.
  destruct (strptime s) as [t|] eqn:Hp; [|done].
  cbn [res_bind] in Hconv. injection Hconv as <-.
  pose proof (strptime_valid s t Hp) as Hvalid.
  destruct (isoformat_shape t Hvalid) as [Hlen HT].
  by exists s, t.
Qed.

End timestamp_column.

Lemma clean_frame_timestamps_witness :
  ∃ data', clean_frame sample_wide = Ok data'
           ∧ Pd.getitem data' "data_rilevazione"
             = Ok [CStr "2021-03-04T10:15:30.500000"; CStr "2021-03-04T10:15:31"].
Proof.
  destruct (clean_frame sample_wide) as [data'|] eqn:Hclean; [|by vm_compute in Hclean].
  destruct (clean_frame_timestamps sample_wide data')
    as (ts & ts' & Hts & Hts' & Hlen & Hcells).
  - by repeat constructor.
  - exact Hclean.
  - exists data'. split; [reflexivity |]. rewrite Hts'. f_equal.
    vm_compute in Hts. injection Hts as <-.
    destruct ts' as [|u0 [|u1 [|u2 ts']]]; try discriminate Hlen.
    destruct (Hcells 0 u0 eq_refl) as (s0 & t0 & Hs0 & Hp0 & _ & -> & _).
    destruct (Hcells 1 u1 eq_refl) as (s1 & t1 & Hs1 & Hp1 & _ & -> & _).
    injection Hs0 as <-. injection Hs1 as <-.
    vm_compute in Hp0. vm_compute in Hp1.
    injection Hp0 as <-. injection Hp1 as <-. reflexivity.
Defined.

(** ** A second run of the cleaning *)

Section iso_again.
Import Re Datetime Format StrFacts NumberFacts FmtFacts FormatFacts RoundTripFacts.

Lemma fmt_word_upto lo w n :
  0 < lo ≤ w → (n < 10 ^ N.of_nat w)%N → digits_word lo w (fmt w n).
Proof.
  intros Hw Hn. split; [apply all_fmt |]. rewrite length_fmt by (done || lia). lia.
Qed.

(** The ISO text of a date and time is not in the layout [strptime]
  reads: where white space is due, it has a [T]. *)
Lemma isoformat_not_lenient t : valid_datetime t → lenient_format (isoformat t) = false.
Proof.
  intros [Hd Ht].
  apply check_date_ok in Hd as (Hy & Hmo & Hday).
  apply check_time_ok in Ht as (Hh & Hmi & Hs & Hus).
  unfold lenient_format, scan, isoformat. apply bool_decide_eq_false_2.
  destruct (fmt_2 (day t)) as (d1 & d2 & Ed & Hd1 & Hd2); [lia |].
  rewrite !app_one. cbn [foldl mbind option_bind].
  rewrite (digits_app 4 4) by first [done | apply fmt_word_upto; [lia | simpl; lia]].
  sep_step.
  rewrite (digits_app 1 2) by first [done | apply fmt_word_upto; [lia | simpl; lia]].
  sep_step.
  rewrite Ed, !app_cons, app_nil_l.
  rewrite day_digits_nonblank by by apply digit_not_blank.
  change (String d1 (String d2 (String "T" ?r)))
    with (String d1 (String d2 "") +:+ String "T" r).
  rewrite (digits_app 1 2); [| | done].
  - cbn. discriminate.
  - split; [cbn; by rewrite Hd1, Hd2 | cbn; lia].
Qed.

Lemma refuses_not_lenient s :
  lenient_format s = false → is_ValueError (convert_to_iso8601 (CStr s)).
Proof.
  intros Hs. unfold convert_to_iso8601, strptime.
  destruct (match_ format_regex s) as [x|] eqn:E; [|done].
  apply ReFacts.match_sound in E as [Heq L].
  case_bool_decide as Hrest; [|done].
  rewrite Hrest, app_nil_r in Heq. subst s.
  apply lang_lenient in L. congruence.
Qed.

(** X29: the normalizer refuses what it returns: the ISO text has a
  [T] where the format wants white space, so converting a result
  again fails with a [ValueError]. *)
Theorem convert_to_iso8601_refuses_its_result s out :
  convert_to_iso8601 (CStr s) = Ok out →
  is_ValueError (convert_to_iso8601 (CStr out)).
Proof.
  unfold convert_to_iso8601 at 1. destruct (strptime s) as [t|] eqn:Hp; [|done].
  cbn [res_bind]. intros [= <-].
  apply refuses_not_lenient, isoformat_not_lenient. by eapply strptime_valid.
Qed.

End iso_again.

Lemma convert_to_iso8601_refuses_its_result_witness :
  convert_to_iso8601 (CStr "2021-03-04 10:15:30.500000") = Ok "2021-03-04T10:15:30.500000"
  ∧ is_ValueError (convert_to_iso8601 (CStr "2021-03-04T10:15:30.500000")).
Proof.
  split; [reflexivity |].
  apply (convert_to_iso8601_refuses_its_result "2021-03-04 10:15:30.500000").
  reflexivity.
Defined.

Section clean_again.
Import Re Datetime.

(** X30: the cleaning cannot be run on its own result: for a data set
  with at least one row, cleaning the cleaned data set fails with the
  [ValueError] of its first timestamp. *)
Theorem clean_frame_refuses_its_result data data' :
  frame_wf data → clean_frame data = Ok data' → rows data ≠ [] →
  is_ValueError (clean_frame data').
Proof.
  intros Hwf H Hrows.
  destruct (clean_frame_columns data data' Hwf H)
    as (ts & ts' & unit & quality & reg & prop & Hts & Happly & _ & _ & _ & _ & Hts' & _).
  pose proof (PdFacts.length_getitem _ _ _ Hts) as Lts.
  pose proof (PdFacts.length_apply _ _ _ Happly) as Lts'.
  destruct ts' as [|u0 ts'].
  { destruct (rows data); [done | simpl in *; lia]. }
  destruct (apply_lookup _ _ _ 0 u0 Happly eq_refl) as (v & Hv & Hiso).
  unfold iso_cell in Hiso.
  destruct (convert_to_iso8601 v) as [out|] eqn:Hconv; [|done].
  cbn [res_bind] in Hiso. injection Hiso as <-.
  destruct v as [s| |]; [|done..].
  assert (Hbad : is_ValueError (convert_to_iso8601 (CStr out))).
  { unfold convert_to_iso8601 in Hconv.
    destruct (strptime s) as [t|] eqn:Hp; [|done].
    cbn [res_bind] in Hconv. injection Hconv as <-.
    apply refuses_not_lenient, isoformat_not_lenient. by eapply strptime_valid. }
  unfold clean_frame. rewrite Hts'. cbn [res_bind Pd.apply]. unfold iso_cell at 1.
  destruct (convert_to_iso8601 (CStr out)) as [|[]]; done.
Qed.

End clean_again.

Lemma clean_frame_refuses_its_result_witness :
  ∃ data', clean_frame sample_wide = Ok data' ∧ is_ValueError (clean_frame data').
Proof.
  destruct (clean_frame sample_wide) as [data'|] eqn:Hclean; [|by vm_compute in Hclean].
  exists data'. split; [reflexivity |].
  apply (clean_frame_refuses_its_result sample_wide data').
  - by repeat constructor.
  - exact Hclean.
  - discriminate.
Defined.
